(** * Library management: the in-memory domain model and its properties

    A shallow embedding of [src/book.py], [src/borrower.py] and
    [src/library.py].  Python objects held in a dict and mutated in place
    are modelled by writing the mutated value back under the same key, so
    that a mutation made before an exception is raised stays visible in the
    state, as it does in the source.  Every operation returns the outcome
    of the call (a value or the exception raised) together with the state
    after the call.

    Conventions:
    - a [str] is a Rocq string whose characters are read as the code points
      0 to 255 (Latin-1), on which [strip] and [lower] are those of Python;
      text with other code points is outside the model, and the literals
      of this file are ASCII;
    - [int] values are [Z];
    - a [datetime] is naive or carries a UTC offset, counts microseconds
      from [datetime.min], and has the range of Python's type, so that
      arithmetic can raise [OverflowError] and a comparison of a naive with
      an offset-aware value raises [TypeError];
    - [datetime.now()], which is naive, and the random token of
      [uuid.uuid4()] are inputs of the operations that read them;
    - [Library._save] rewrites the data file from the in-memory aggregate
      and swallows I/O errors; it never touches the in-memory aggregate, so
      the operations leave the file out and keep the place of every call
      as a comment.  The file, [_save] and [_load] are modelled on their
      own under [Persistence]. *)

From Stdlib Require Import ZArith String Ascii List Bool Lia DecimalString.
From Stdlib Require DecimalZ DecimalPos.
Import ListNotations.

Open Scope string_scope.
Open Scope Z_scope.

(** ** Exceptions and outcomes *)

(** [KeyError] is the NotFound kind, [ValueError] the Validation kind.
    [OverflowError] and [TypeError] come out of [datetime] arithmetic and
    comparison; their messages are not kept. *)
Inductive exn : Type :=
| KeyError (msg : string)
| ValueError (msg : string)
| OverflowError
| TypeError.

Inductive result (A : Type) : Type :=
| Return (a : A)
| Raise (e : exn).

Arguments Return {A} a.
Arguments Raise {A} e.

Definition returned {A : Type} (r : result A) : bool :=
  match r with
  | Return _ => true
  | Raise _ => false
  end.

(** ** Python [str] methods used by the source *)

Module Str.

(** The white space that [str.strip] removes, among the code points below
    256: TAB, LF, VT, FF, CR, FS, GS, RS, US, the space, NEL (U+0085) and
    the no-break space (U+00A0). *)
Definition is_space (c : ascii) : bool :=
  let n := nat_of_ascii c in
  ((9 <=? n) && (n <=? 13) || (28 <=? n) && (n <=? 32) || (n =? 133) || (n =? 160))%nat.

Fixpoint lstrip (s : string) : string :=
  match s with
  | EmptyString => EmptyString
  | String c s' => if is_space c then lstrip s' else s
  end.

Fixpoint rstrip (s : string) : string :=
  match s with
  | EmptyString => EmptyString
  | String c s' =>
      match rstrip s' with
      | EmptyString => if is_space c then EmptyString else String c EmptyString
      | r => String c r
      end
  end.

Definition strip (s : string) : string := rstrip (lstrip s).

(** [str.lower] on one code point below 256: the letters A to Z and the
    Latin-1 capitals U+00C0 to U+00DE, the multiplication sign U+00D7
    apart, move up by 32; below 256 the lower case of a character never
    depends on its neighbours. *)
Definition lower_char (c : ascii) : ascii :=
  let n := nat_of_ascii c in
  if ((65 <=? n) && (n <=? 90) || (192 <=? n) && (n <=? 222) && negb (n =? 215))%nat
  then ascii_of_nat (n + 32) else c.

Fixpoint lower (s : string) : string :=
  match s with
  | EmptyString => EmptyString
  | String c s' => String (lower_char c) (lower s')
  end.

(** [q in s]: [q] occurs in [s] as a contiguous substring. *)
Fixpoint contains (q s : string) : bool :=
  prefix q s ||
  match s with
  | EmptyString => false
  | String _ s' => contains q s'
  end.

(** Truth value of a [str]: the empty string is falsy. *)
Definition truthy (s : string) : bool :=
  match s with
  | EmptyString => false
  | String _ _ => true
  end.

End Str.

(** ** Python [dict] with [str] keys

    Entries are kept in insertion order, which is the iteration order of
    [dict.values()].  Assigning to a key that is present replaces the value
    in place; assigning to a new key appends. *)

Module Dict.

Section Ops.
Context {V : Type}.

Definition t : Type := list (string * V).

Definition empty : t := [].

Fixpoint get (k : string) (d : t) : option V :=
  match d with
  | [] => None
  | (k', v) :: d' => if (k' =? k)%string then Some v else get k d'
  end.

(** [k in d] *)
Definition mem (k : string) (d : t) : bool :=
  match get k d with
  | Some _ => true
  | None => false
  end.

(** [d[k] = v] *)
Fixpoint set (k : string) (v : V) (d : t) : t :=
  match d with
  | [] => [(k, v)]
  | (k', v') :: d' =>
      if (k' =? k)%string then (k', v) :: d' else (k', v') :: set k v d'
  end.

(** [del d[k]] *)
Fixpoint del (k : string) (d : t) : t :=
  match d with
  | [] => []
  | (k', v') :: d' =>
      if (k' =? k)%string then d' else (k', v') :: del k d'
  end.

Definition keys (d : t) : list string := map fst d.

Definition values (d : t) : list V := map snd d.

End Ops.

Arguments t V : clear implicits.

End Dict.

(** ** [src/book.py] *)

Module Book.

Record t : Type := mk {
  title : string;
  author : string;
  isbn : string;
  genre : string;
  quantity : Z
}.

Definition set_title (v : string) (self : t) : t :=
  mk v (author self) (isbn self) (genre self) (quantity self).

Definition set_author (v : string) (self : t) : t :=
  mk (title self) v (isbn self) (genre self) (quantity self).

Definition set_genre (v : string) (self : t) : t :=
  mk (title self) (author self) (isbn self) v (quantity self).

Definition set_quantity (v : Z) (self : t) : t :=
  mk (title self) (author self) (isbn self) (genre self) v.

(** One [if x is not None: self.x = x] statement. *)
Definition assign {A : Type} (setter : A -> t -> t) (x : option A) (self : t) : t :=
  match x with
  | Some v => setter v self
  | None => self
  end.

(** [Book.update]: the three text fields are assigned first, the quantity
    is checked last; the object returned beside a [Raise] carries the
    assignments made before the exception. *)
Definition update (title author genre : option string) (quantity : option Z)
    (self : t) : result unit * t :=
  let self := assign set_title title self in
  let self := assign set_author author self in
  let self := assign set_genre genre self in
  match quantity with
  | Some q =>
      if q <? 0 then (Raise (ValueError "Quantity cannot be negative"), self)
      else (Return tt, set_quantity q self)
  | None => (Return tt, self)
  end.

Definition is_available (self : t) : bool := 0 <? quantity self.

End Book.

(** ** [src/borrower.py] *)

(** A [datetime]: the wall-clock time in microseconds since
    [datetime.min] (0001-01-01T00:00:00), naive or with the UTC offset of
    its [tzinfo], in microseconds. *)
Inductive datetime : Type :=
| Naive (t : Z)
| Aware (t : Z) (utcoffset : Z).

(** [datetime.max] (9999-12-31T23:59:59.999999) in microseconds since
    [datetime.min]: 3652059 days less one microsecond. *)
Definition datetime_max : Z := 315537897599999999.

(** [timedelta(days=d)] in microseconds; [None] is the [OverflowError] of
    a magnitude above 999999999 days. *)
Definition timedelta_days (d : Z) : option Z :=
  if Z.abs d <=? 999999999 then Some (d * 86400000000) else None.

(** [dt + delta]: the [tzinfo] is kept; [None] is the [OverflowError] of a
    result outside [datetime.min .. datetime.max]. *)
Definition datetime_add (dt : datetime) (delta : Z) : option datetime :=
  let shifted t := if (0 <=? t + delta) && (t + delta <=? datetime_max) then Some (t + delta)
                   else None in
  match dt with
  | Naive t => option_map Naive (shifted t)
  | Aware t utcoffset => option_map (fun t' => Aware t' utcoffset) (shifted t)
  end.

(** [borrowed_on + timedelta(days=loan_days)]; [None] is the
    [OverflowError] of either step. *)
Definition due_date_after (borrowed_on : datetime) (loan_days : Z) : option datetime :=
  match timedelta_days loan_days with
  | None => None
  | Some delta => datetime_add borrowed_on delta
  end.

(** [a == b]: two naive values are equal when their times are, two aware
    values when their UTC instants are, and a naive value never equals an
    aware one. *)
Definition datetime_eqb (a b : datetime) : bool :=
  match a, b with
  | Naive t1, Naive t2 => t1 =? t2
  | Aware t1 o1, Aware t2 o2 => t1 - o1 =? t2 - o2
  | _, _ => false
  end.

(** [a > b]; [None] is the [TypeError] of comparing a naive value with an
    aware one. *)
Definition datetime_gtb (a b : datetime) : option bool :=
  match a, b with
  | Naive t1, Naive t2 => Some (t1 >? t2)
  | Aware t1 o1, Aware t2 o2 => Some (t1 - o1 >? t2 - o2)
  | _, _ => None
  end.

Module BorrowedRecord.

Record t : Type := mk {
  isbn : string;
  borrowed_on : datetime;
  due_date : datetime
}.

(** The dataclass [__eq__]: field-wise comparison. *)
Definition eqb (a b : t) : bool :=
  (isbn a =? isbn b)%string && datetime_eqb (borrowed_on a) (borrowed_on b)
  && datetime_eqb (due_date a) (due_date b).

End BorrowedRecord.

Module Borrower.

Record t : Type := mk {
  name : string;
  contact : string;
  membership_id : string;
  borrowed_books : list BorrowedRecord.t
}.

(** The constructor with [__post_init__]: a missing or empty
    [membership_id] is replaced by [uuid8], the first eight characters of
    a fresh [uuid4]; a missing loan list becomes the empty list. *)
Definition new (uuid8 : string) (name contact : string)
    (membership_id : option string)
    (borrowed_books : option (list BorrowedRecord.t)) : t :=
  let membership_id :=
    match membership_id with
    | Some m => if Str.truthy m then m else uuid8
    | None => uuid8
    end in
  let borrowed_books :=
    match borrowed_books with
    | Some l => l
    | None => []
    end in
  mk name contact membership_id borrowed_books.

Definition set_name (v : string) (self : t) : t :=
  mk v (contact self) (membership_id self) (borrowed_books self).

Definition set_contact (v : string) (self : t) : t :=
  mk (name self) v (membership_id self) (borrowed_books self).

Definition set_borrowed_books (v : list BorrowedRecord.t) (self : t) : t :=
  mk (name self) (contact self) (membership_id self) v.

(** One [if x: self.x = x] statement: [None] and the empty string are
    both falsy. *)
Definition assign_truthy (setter : string -> t -> t) (x : option string) (self : t) : t :=
  match x with
  | Some v => if Str.truthy v then setter v self else self
  | None => self
  end.

Definition update (name contact : option string) (self : t) : t :=
  let self := assign_truthy set_name name self in
  assign_truthy set_contact contact self.

End Borrower.

(** ** Python [list] methods used by the source *)

(** [l.remove(x)]: drops the first element equal to [x]; [None] stands for
    the [ValueError] Python raises when there is none. *)
Fixpoint list_remove (x : BorrowedRecord.t) (l : list BorrowedRecord.t)
    : option (list BorrowedRecord.t) :=
  match l with
  | [] => None
  | y :: l' =>
      if BorrowedRecord.eqb y x then Some l'
      else option_map (cons y) (list_remove x l')
  end.

(** ** [src/library.py] *)

Module Library.

Record t : Type := mk {
  books_by_isbn : Dict.t Book.t;
  borrowers_by_id : Dict.t Borrower.t;
  loan_days : Z
}.

(** The aggregate of a [Library] constructed over a missing data file. *)
Definition init (loan_days : Z) : t := mk Dict.empty Dict.empty loan_days.

Definition set_books (d : Dict.t Book.t) (self : t) : t :=
  mk d (borrowers_by_id self) (loan_days self).

Definition set_borrowers (d : Dict.t Borrower.t) (self : t) : t :=
  mk (books_by_isbn self) d (loan_days self).

(** *** Book management *)

Definition add_book (title author isbn genre : string) (quantity : Z)
    (self : t) : result Book.t * t :=
  match Dict.get isbn (books_by_isbn self) with
  | Some book =>
      let '(r, book) :=
        Book.update None None None (Some (Book.quantity book + quantity)) book in
      let self := set_books (Dict.set isbn book (books_by_isbn self)) self in
      match r with
      | Raise e => (Raise e, self)
      | Return _ => (* self._save() *) (Return book, self)
      end
  | None =>
      let book := Book.mk title author isbn genre quantity in
      let self := set_books (Dict.set isbn book (books_by_isbn self)) self in
      (* self._save() *)
      (Return book, self)
  end.

(** The keyword arguments are the four that [Book.update] accepts. *)
Definition update_book (isbn : string) (title author genre : option string)
    (quantity : option Z) (self : t) : result Book.t * t :=
  match Dict.get isbn (books_by_isbn self) with
  | None => (Raise (KeyError "Book not found"), self)
  | Some book =>
      let '(r, book) := Book.update title author genre quantity book in
      let self := set_books (Dict.set isbn book (books_by_isbn self)) self in
      match r with
      | Raise e => (Raise e, self)
      | Return _ => (* self._save() *) (Return book, self)
      end
  end.

Definition remove_book (isbn : string) (self : t) : result bool * t :=
  if negb (Dict.mem isbn (books_by_isbn self)) then
    (Raise (KeyError "Book not found"), self)
  else
    let self := set_books (Dict.del isbn (books_by_isbn self)) self in
    (* self._save() *)
    (Return true, self).

Definition get_book (isbn : string) (self : t) : option Book.t :=
  Dict.get isbn (books_by_isbn self).

Definition list_books (self : t) : list Book.t :=
  Dict.values (books_by_isbn self).

(** *** Borrower management *)

Definition add_borrower (uuid8 : string) (name contact : string)
    (membership_id : option string) (self : t) : result Borrower.t * t :=
  let borrower := Borrower.new uuid8 name contact membership_id None in
  let self :=
    set_borrowers
      (Dict.set (Borrower.membership_id borrower) borrower (borrowers_by_id self))
      self in
  (* self._save() *)
  (Return borrower, self).

Definition update_borrower (membership_id : string) (name contact : option string)
    (self : t) : result Borrower.t * t :=
  match Dict.get membership_id (borrowers_by_id self) with
  | None => (Raise (KeyError "Borrower not found"), self)
  | Some borrower =>
      let borrower := Borrower.update name contact borrower in
      let self :=
        set_borrowers (Dict.set membership_id borrower (borrowers_by_id self)) self in
      (* self._save() *)
      (Return borrower, self)
  end.

Definition remove_borrower (membership_id : string) (self : t) : result bool * t :=
  if negb (Dict.mem membership_id (borrowers_by_id self)) then
    (Raise (KeyError "Borrower not found"), self)
  else
    let self := set_borrowers (Dict.del membership_id (borrowers_by_id self)) self in
    (* self._save() *)
    (Return true, self).

Definition get_borrower (membership_id : string) (self : t) : option Borrower.t :=
  Dict.get membership_id (borrowers_by_id self).

Definition list_borrowers (self : t) : list Borrower.t :=
  Dict.values (borrowers_by_id self).

(** *** Borrow / return *)

(** [now] is the naive time that [datetime.now()] gives the call.  The due
    date is computed before anything is changed, so the [OverflowError] of
    a loan period too long or a due date out of range finds the library as
    it was. *)
Definition borrow_book (now : Z) (membership_id isbn : string)
    (self : t) : result BorrowedRecord.t * t :=
  match Dict.get membership_id (borrowers_by_id self) with
  | None => (Raise (KeyError "Borrower not found"), self)
  | Some borrower =>
      match Dict.get isbn (books_by_isbn self) with
      | None => (Raise (KeyError "Book not found"), self)
      | Some book =>
          if Book.quantity book <=? 0 then
            (Raise (ValueError "No copies available"), self)
          else
            let borrowed_on := Naive now in
            match due_date_after borrowed_on (loan_days self) with
            | None => (Raise OverflowError, self)
            | Some due_date =>
                let record := BorrowedRecord.mk isbn borrowed_on due_date in
                let borrower :=
                  Borrower.set_borrowed_books
                    (Borrower.borrowed_books borrower ++ [record]) borrower in
                let book := Book.set_quantity (Book.quantity book - 1) book in
                let self :=
                  mk (Dict.set isbn book (books_by_isbn self))
                     (Dict.set membership_id borrower (borrowers_by_id self))
                     (loan_days self) in
                (* self._save() *)
                (Return record, self)
            end
      end
  end.

(** The dict that [return_book] returns. *)
Record receipt : Type := mk_receipt {
  receipt_returned : bool;
  receipt_overdue : bool;
  receipt_due_date : string
}.

(** The loop of [return_book]: the first record of the list whose isbn is
    the one asked for. *)
Definition find_record (isbn : string) (l : list BorrowedRecord.t)
    : option BorrowedRecord.t :=
  find (fun rec => (BorrowedRecord.isbn rec =? isbn)%string) l.

Section Return.

(** [datetime.isoformat], the rendering of a timestamp as text. *)
Variable isoformat : datetime -> string.

(** [now] is the naive time that [datetime.now()] gives the call, read
    after the record is removed, the quantity raised and the state saved:
    the [TypeError] of comparing it with an offset-aware due date finds
    the library already changed. *)
Definition return_book (now : Z) (membership_id isbn : string)
    (self : t) : result receipt * t :=
  match Dict.get membership_id (borrowers_by_id self) with
  | None => (Raise (KeyError "Borrower not found"), self)
  | Some borrower =>
      match Dict.get isbn (books_by_isbn self) with
      | None => (Raise (KeyError "Book not found"), self)
      | Some _ =>
          match find_record isbn (Borrower.borrowed_books borrower) with
          | None =>
              (Raise (ValueError "This borrower did not borrow this book"), self)
          | Some found =>
              match list_remove found (Borrower.borrowed_books borrower) with
              | None => (Raise (ValueError "list.remove(x): x not in list"), self)
              | Some remaining =>
                  let borrower := Borrower.set_borrowed_books remaining borrower in
                  let self :=
                    set_borrowers
                      (Dict.set membership_id borrower (borrowers_by_id self)) self in
                  match Dict.get isbn (books_by_isbn self) with
                  | None => (Raise (KeyError isbn), self)
                  | Some book =>
                      let book := Book.set_quantity (Book.quantity book + 1) book in
                      let self :=
                        set_books (Dict.set isbn book (books_by_isbn self)) self in
                      (* self._save() *)
                      match datetime_gtb (Naive now) (BorrowedRecord.due_date found) with
                      | None => (Raise TypeError, self)
                      | Some overdue =>
                          (Return
                             (mk_receipt true overdue
                                (isoformat (BorrowedRecord.due_date found))),
                           self)
                      end
                  end
              end
          end
      end
  end.

End Return.

(** *** Search and availability *)

Definition matches (q field : string) (book : Book.t) : bool :=
  if negb (Str.truthy q) then true
  else if (field =? "title")%string && Str.contains q (Str.lower (Book.title book)) then true
  else if (field =? "author")%string && Str.contains q (Str.lower (Book.author book)) then true
  else if (field =? "genre")%string && Str.contains q (Str.lower (Book.genre book)) then true
  else false.

Definition search_books (query field : string) (self : t) : list Book.t :=
  let q := Str.lower (Str.strip query) in
  filter (matches q field) (Dict.values (books_by_isbn self)).

Record report : Type := mk_report {
  report_isbn : string;
  available_copies : Z
}.

Definition availability (isbn : string) (self : t) : result report :=
  match Dict.get isbn (books_by_isbn self) with
  | None => Raise (KeyError "Book not found")
  | Some book => Return (mk_report isbn (Book.quantity book))
  end.

End Library.

(** ** Histories of calls on one [Library] *)

(** The mutating operations of the public interface, with the values the
    call reads from its environment. *)
Inductive call : Type :=
| AddBook (title author isbn genre : string) (quantity : Z)
| UpdateBook (isbn : string) (title author genre : option string) (quantity : option Z)
| RemoveBook (isbn : string)
| AddBorrower (uuid8 name contact : string) (membership_id : option string)
| UpdateBorrower (membership_id : string) (name contact : option string)
| RemoveBorrower (membership_id : string)
| BorrowBook (now : Z) (membership_id isbn : string)
| ReturnBook (now : Z) (membership_id isbn : string).

(** Drops the value a call returned and keeps whether it returned. *)
Definition outcome {A : Type} (p : result A * Library.t) : bool * Library.t :=
  (returned (fst p), snd p).

Section Histories.

Variable isoformat : datetime -> string.

(** One call: whether it returned (rather than raised) and the state it
    left behind. *)
Definition exec (c : call) (s : Library.t) : bool * Library.t :=
  match c with
  | AddBook title author isbn genre quantity =>
      outcome (Library.add_book title author isbn genre quantity s)
  | UpdateBook isbn title author genre quantity =>
      outcome (Library.update_book isbn title author genre quantity s)
  | RemoveBook isbn => outcome (Library.remove_book isbn s)
  | AddBorrower uuid8 name contact membership_id =>
      outcome (Library.add_borrower uuid8 name contact membership_id s)
  | UpdateBorrower membership_id name contact =>
      outcome (Library.update_borrower membership_id name contact s)
  | RemoveBorrower membership_id => outcome (Library.remove_borrower membership_id s)
  | BorrowBook now membership_id isbn =>
      outcome (Library.borrow_book now membership_id isbn s)
  | ReturnBook now membership_id isbn =>
      outcome (Library.return_book isoformat now membership_id isbn s)
  end.

(** A caller that catches every exception and goes on. *)
Fixpoint run (cs : list call) (s : Library.t) : Library.t :=
  match cs with
  | [] => s
  | c :: cs' => run cs' (snd (exec c s))
  end.

(** What a call adds to the stock of [isbn]: the quantity of an
    [add_book] on that isbn that returned. *)
Definition added_by (isbn : string) (c : call) (s : Library.t) : Z :=
  match c with
  | AddBook _ _ isbn' _ quantity =>
      if fst (exec c s) && (isbn' =? isbn)%string then quantity else 0
  | _ => 0
  end.

(** The sum of all quantities added for [isbn] along a history. *)
Fixpoint added (isbn : string) (cs : list call) (s : Library.t) : Z :=
  match cs with
  | [] => 0
  | c :: cs' => added_by isbn c s + added isbn cs' (snd (exec c s))
  end.

End Histories.

Definition is_loan_call (c : call) : bool :=
  match c with
  | BorrowBook _ _ _ | ReturnBook _ _ _ => true
  | _ => false
  end.

Definition is_stock_call (c : call) : bool :=
  match c with
  | AddBook _ _ _ _ _ | BorrowBook _ _ _ | ReturnBook _ _ _ => true
  | _ => false
  end.

(** ** Observations on a state *)

(** Number of records of a loan sequence that reference [isbn]. *)
Definition loans_of (isbn : string) (l : list BorrowedRecord.t) : Z :=
  Z.of_nat (length (filter (fun rec => (BorrowedRecord.isbn rec =? isbn)%string) l)).

Definition sumZ {A : Type} (f : A -> Z) (l : list A) : Z :=
  fold_right (fun x acc => f x + acc) 0 l.

(** Outstanding records referencing [isbn] across all borrowers. *)
Definition outstanding (isbn : string) (s : Library.t) : Z :=
  sumZ (fun br => loans_of isbn (Borrower.borrowed_books br))
       (Dict.values (Library.borrowers_by_id s)).

(** Copies on the shelf: the quantity of the catalog entry, none when the
    isbn is not in the catalog. *)
Definition on_shelf (isbn : string) (s : Library.t) : Z :=
  match Dict.get isbn (Library.books_by_isbn s) with
  | Some book => Book.quantity book
  | None => 0
  end.

Definition copies (isbn : string) (s : Library.t) : Z :=
  on_shelf isbn s + outstanding isbn s.

(** Number of catalog entries stored under [isbn]. *)
Definition entries {V : Type} (k : string) (d : Dict.t V) : nat :=
  length (filter (fun kv => (fst kv =? k)%string) d).

(** Every book of the catalog has a quantity that is not negative. *)
Definition quantities_nonneg (s : Library.t) : Prop :=
  Forall (fun book => 0 <= Book.quantity book) (Dict.values (Library.books_by_isbn s)).

(** A call that is not an [add_book] with a negative quantity. *)
Definition adds_nonneg (c : call) : bool :=
  match c with
  | AddBook _ _ _ _ quantity => 0 <=? quantity
  | _ => true
  end.

Definition recognized_field (field : string) : bool :=
  (field =? "title")%string || (field =? "author")%string || (field =? "genre")%string.

(** ** Well-formed stores *)

(** An [update_book] call that supplies a title, an author or a genre. *)
Definition carries_text (c : call) : bool :=
  match c with
  | UpdateBook _ None None None _ => false
  | UpdateBook _ _ _ _ _ => true
  | _ => false
  end.

(** No key occurs twice, and every value sits under the key that [key_of]
    reads off it. *)
Definition keyed_by {V : Type} (key_of : V -> string) (d : Dict.t V) : Prop :=
  NoDup (Dict.keys d) /\ Forall (fun kv => key_of (snd kv) = fst kv) d.

(** Books are stored under their isbn and borrowers under their
    membership id. *)
Definition well_keyed (s : Library.t) : Prop :=
  keyed_by Book.isbn (Library.books_by_isbn s) /\
  keyed_by Borrower.membership_id (Library.borrowers_by_id s).

(** The content of a field after an optional keyword argument: the value
    given, or the old one when the argument is left out. *)
Definition supplied {A : Type} (x : option A) (old : A) : A :=
  match x with
  | Some v => v
  | None => old
  end.

(** The same borrower asking for the same isbn once at each of the times
    of [nows]. *)
Definition borrow_calls (membership_id isbn : string) (nows : list Z) : list call :=
  map (fun now => BorrowBook now membership_id isbn) nows.

(** The text that [search_books] looks into for a field name: the three
    branches of its loop. *)
Definition field_text (field : string) (book : Book.t) : option string :=
  if (field =? "title")%string then Some (Book.title book)
  else if (field =? "author")%string then Some (Book.author book)
  else if (field =? "genre")%string then Some (Book.genre book)
  else None.

(** ** Persistence: [to_dict], [Library._save], [Library._load]

    The data file is modelled by the value that [json.load] makes of it.
    A parsed object holds the items of the Python dict, so its keys are
    distinct.  A float is kept only up to whether it is zero, which is all
    the loader ever asks of one. *)

#[local] Set Warnings "-register-all".

Inductive json : Type :=
| JNull
| JBool (b : bool)
| JInt (n : Z)
| JFloat (zero : bool)
| JStr (s : string)
| JList (items : list json)
| JObj (items : list (string * json)).

Module Json.

(** Truth value of the Python object. *)
Definition truthy (v : json) : bool :=
  match v with
  | JNull => false
  | JBool b => b
  | JInt n => negb (n =? 0)
  | JFloat zero => negb zero
  | JStr s => Str.truthy s
  | JList items => match items with [] => false | _ :: _ => true end
  | JObj items => match items with [] => false | _ :: _ => true end
  end.

(** Lists and dicts cannot be dict keys. *)
Definition hashable (v : json) : bool :=
  match v with
  | JList _ | JObj _ => false
  | _ => true
  end.

(** What a [for] loop over the object visits: the items of a list, the
    characters of a string, the keys of a dict; [None] is the [TypeError]
    of an object that is not iterable. *)
Definition iter (v : json) : option (list json) :=
  match v with
  | JList items => Some items
  | JStr s => Some (map (fun c => JStr (String c EmptyString)) (list_ascii_of_string s))
  | JObj items => Some (map (fun kv => JStr (fst kv)) items)
  | _ => None
  end.

(** [d.get(k, default)] on a dict. *)
Definition get_default (k : string) (default : json) (items : list (string * json)) : json :=
  match Dict.get k items with
  | Some v => v
  | None => default
  end.

End Json.

(** The state of the data file. *)
Inductive file : Type :=
| Missing
| Unparsable
| Parsed (data : json).

(** What loading makes of one entry of the file. *)
Inductive entry (A : Type) : Type :=
| Entry (a : A)
| Skipped
| Alien.

Arguments Entry {A} a.
Arguments Skipped {A}.
Arguments Alien {A}.

(** Exceptions that no handler of the loader catches: the
    [AttributeError] of a top level without [get], and the [TypeError] of
    a value that a [for] loop cannot iterate ([NotIterable]). *)
Inductive crash : Type :=
| AttributeError
| NotIterable.

(** What the constructor of [Library] ends in: the aggregate, an exception
    that escapes it, or an aggregate holding values of other types than
    those of the records above ([Untyped]), about which the model says
    nothing. *)
Inductive loaded : Type :=
| Loaded (s : Library.t)
| Crashed (e : crash)
| Untyped.

Module Persistence.

(** [Book.to_dict] *)
Definition book_to_dict (b : Book.t) : json :=
  JObj [("title", JStr (Book.title b)); ("author", JStr (Book.author b));
        ("isbn", JStr (Book.isbn b)); ("genre", JStr (Book.genre b));
        ("quantity", JInt (Book.quantity b))].

(** The constructor call on the unpacked entry followed by
    [self.books_by_isbn[book.isbn] = book], under
    the handler of the loop: anything but a dict with exactly the five
    field names raises [TypeError], and so does an isbn that cannot be
    hashed. *)
Definition load_book (b : json) : entry Book.t :=
  match b with
  | JObj items =>
      match Dict.get "title" items, Dict.get "author" items, Dict.get "isbn" items,
            Dict.get "genre" items, Dict.get "quantity" items with
      | Some title, Some author, Some isbn, Some genre, Some quantity =>
          if negb (length items =? 5)%nat then Skipped
          else if negb (Json.hashable isbn) then Skipped
          else
            match title, author, isbn, genre, quantity with
            | JStr t, JStr a, JStr i, JStr g, JInt q => Entry (Book.mk t a i g q)
            | _, _, _, _, _ => Alien
            end
      | _, _, _, _, _ => Skipped
      end
  | _ => Skipped
  end.

(** The book loop of [_load], writing into the dict [acc]; [None] when an
    entry is [Alien]. *)
Fixpoint load_books (bs : list json) (acc : Dict.t Book.t) : option (Dict.t Book.t) :=
  match bs with
  | [] => Some acc
  | b :: bs' =>
      match load_book b with
      | Entry book => load_books bs' (Dict.set (Book.isbn book) book acc)
      | Skipped => load_books bs' acc
      | Alien => None
      end
  end.

Section Timestamps.

(** [datetime.isoformat] and [datetime.fromisoformat]; [None] is the
    [ValueError] of a string that is not a timestamp. *)
Variable isoformat : datetime -> string.
Variable fromisoformat : string -> option datetime.

(** [BorrowedRecord.to_dict] *)
Definition record_to_dict (r : BorrowedRecord.t) : json :=
  JObj [("isbn", JStr (BorrowedRecord.isbn r));
        ("borrowed_on", JStr (isoformat (BorrowedRecord.borrowed_on r)));
        ("due_date", JStr (isoformat (BorrowedRecord.due_date r)))].

(** [Borrower.to_dict] *)
Definition borrower_to_dict (b : Borrower.t) : json :=
  JObj [("name", JStr (Borrower.name b)); ("contact", JStr (Borrower.contact b));
        ("membership_id", JStr (Borrower.membership_id b));
        ("borrowed_books", JList (map record_to_dict (Borrower.borrowed_books b)))].

(** The [data] dict that [_save] builds. *)
Definition to_data (self : Library.t) : json :=
  JObj [("books", JList (map book_to_dict (Dict.values (Library.books_by_isbn self))));
        ("borrowers",
         JList (map borrower_to_dict (Dict.values (Library.borrowers_by_id self))))].

(** [_save]: [io] is [None] when the write goes through, and the state in
    which a failed write leaves the file otherwise; the failure itself is
    swallowed. *)
Definition _save (io : option file) (self : Library.t) : file :=
  match io with
  | None => Parsed (to_data self)
  | Some f => f
  end.

(** [fromisoformat(v)]: a [TypeError] on anything but a string. *)
Definition load_datetime (v : json) : option datetime :=
  match v with
  | JStr s => fromisoformat s
  | _ => None
  end.

(** One [BorrowedRecord(...)] of the inner loop; [Skipped] when anything
    in it raises. *)
Definition load_record (rec : json) : entry BorrowedRecord.t :=
  match rec with
  | JObj items =>
      match Dict.get "isbn" items, Dict.get "borrowed_on" items, Dict.get "due_date" items with
      | Some isbn, Some borrowed_on, Some due_date =>
          match load_datetime borrowed_on, load_datetime due_date with
          | Some borrowed_on, Some due_date =>
              match isbn with
              | JStr i => Entry (BorrowedRecord.mk i borrowed_on due_date)
              | _ => Alien
              end
          | _, _ => Skipped
          end
      | _, _, _ => Skipped
      end
  | _ => Skipped
  end.

(** The inner loop: an exception in any record ends the whole borrower. *)
Fixpoint load_records (recs : list json) : entry (list BorrowedRecord.t) :=
  match recs with
  | [] => Entry []
  | rec :: recs' =>
      match load_record rec, load_records recs' with
      | Skipped, _ | _, Skipped => Skipped
      | Entry r, Entry l => Entry (r :: l)
      | _, _ => Alien
      end
  end.

(** The body of the borrower loop under its handler; [uuid8] is the token
    drawn if this entry needs one. *)
Definition load_borrower (uuid8 : string) (br : json) : entry Borrower.t :=
  match br with
  | JObj items =>
      match Json.iter (Json.get_default "borrowed_books" (JList []) items) with
      | None => Skipped
      | Some recs =>
          match load_records recs, Dict.get "name" items, Dict.get "contact" items with
          | Skipped, _, _ | _, None, _ | _, _, None => Skipped
          | borrowed, Some name, Some contact =>
              let membership_id := Json.get_default "membership_id" JNull items in
              if Json.truthy membership_id && negb (Json.hashable membership_id) then Skipped
              else
                match borrowed, name, contact with
                | Entry l, JStr n, JStr c =>
                    if Json.truthy membership_id then
                      match membership_id with
                      | JStr m => Entry (Borrower.new uuid8 n c (Some m) (Some l))
                      | _ => Alien
                      end
                    else Entry (Borrower.new uuid8 n c None (Some l))
                | _, _, _ => Alien
                end
          end
      end
  | _ => Skipped
  end.

(** The borrower loop; the entry at position [k] draws the token
    [uuid8 k]. *)
Fixpoint load_borrowers (uuid8 : nat -> string) (k : nat) (brs : list json)
    (acc : Dict.t Borrower.t) : option (Dict.t Borrower.t) :=
  match brs with
  | [] => Some acc
  | br :: brs' =>
      match load_borrower (uuid8 k) br with
      | Entry b => load_borrowers uuid8 (S k) brs' (Dict.set (Borrower.membership_id b) b acc)
      | Skipped => load_borrowers uuid8 (S k) brs' acc
      | Alien => None
      end
  end.

(** The two loops of [_load] over the parsed [data], on the empty
    aggregate that [__init__] has set up. *)
Definition load_data (uuid8 : nat -> string) (loan_days : Z) (data : json) : loaded :=
  match data with
  | JObj items =>
      match Json.iter (Json.get_default "books" (JList []) items),
            Json.iter (Json.get_default "borrowers" (JList []) items) with
      | None, _ | _, None => Crashed NotIterable
      | Some bs, Some brs =>
          match load_books bs Dict.empty, load_borrowers uuid8 0 brs Dict.empty with
          | Some books, Some borrowers => Loaded (Library.mk books borrowers loan_days)
          | _, _ => Untyped
          end
      end
  | _ => Crashed AttributeError
  end.

(** [Library.__init__] with [_load]: the outcome and the file afterwards.
    A missing file is created by [_save]; a file that cannot be read or
    parsed counts as the empty dict. *)
Definition construct (io : option file) (uuid8 : nat -> string) (loan_days : Z)
    (disk : file) : loaded * file :=
  match disk with
  | Missing => (Loaded (Library.init loan_days), _save io (Library.init loan_days))
  | Unparsable => (load_data uuid8 loan_days (JObj []), disk)
  | Parsed data => (load_data uuid8 loan_days data, disk)
  end.

End Timestamps.

End Persistence.

(** The exception that a call ends in, if any. *)
Definition exception {A : Type} (r : result A) : option exn :=
  match r with
  | Return _ => None
  | Raise e => Some e
  end.

Definition raised (isoformat : datetime -> string) (c : call) (s : Library.t) : option exn :=
  match c with
  | AddBook title author isbn genre quantity =>
      exception (fst (Library.add_book title author isbn genre quantity s))
  | UpdateBook isbn title author genre quantity =>
      exception (fst (Library.update_book isbn title author genre quantity s))
  | RemoveBook isbn => exception (fst (Library.remove_book isbn s))
  | AddBorrower uuid8 name contact membership_id =>
      exception (fst (Library.add_borrower uuid8 name contact membership_id s))
  | UpdateBorrower membership_id name contact =>
      exception (fst (Library.update_borrower membership_id name contact s))
  | RemoveBorrower membership_id => exception (fst (Library.remove_borrower membership_id s))
  | BorrowBook now membership_id isbn =>
      exception (fst (Library.borrow_book now membership_id isbn s))
  | ReturnBook now membership_id isbn =>
      exception (fst (Library.return_book isoformat now membership_id isbn s))
  end.

(** The due date of a loan made at the time [now] can be computed: the
    loan period is at most 999999999 days either way, and [now] plus that
    many days falls between [datetime.min] and [datetime.max]. *)
Definition due_date_in_range (now loan_days : Z) : Prop :=
  Z.abs loan_days <= 999999999 /\
  0 <= now + loan_days * 86400000000 <= datetime_max.

(** An [add_book] call on the isbn. *)
Definition adds_isbn (isbn : string) (c : call) : bool :=
  match c with
  | AddBook _ _ isbn' _ _ => (isbn' =? isbn)%string
  | _ => false
  end.

(** No borrower is stored under the empty membership id. *)
Definition ids_nonempty (s : Library.t) : Prop :=
  Forall (fun m => m <> "") (Dict.keys (Library.borrowers_by_id s)).

(** The token that [add_borrower] may have to use is not empty (a token is
    the first eight characters of a uuid). *)
Definition token_nonempty (c : call) : bool :=
  match c with
  | AddBorrower uuid8 _ _ _ => Str.truthy uuid8
  | _ => true
  end.

(** The field names of [Book]. *)
Definition book_keys : list string := ["title"; "author"; "isbn"; "genre"; "quantity"].

(** An entry of the book list that is not a dict, or misses a field of
    [Book], or has a key too many. *)
Definition malformed_book (b : json) : Prop :=
  match b with
  | JObj items =>
      (exists k, In k book_keys /\ Dict.get k items = None) \/ length items <> 5%nat
  | _ => True
  end.

(** Anything but a dict at the top level of the file. *)
Definition not_a_dict (data : json) : Prop :=
  match data with
  | JObj _ => False
  | _ => True
  end.

(** ** [app.py]: the borrow and return routes

    A route is modelled from the value [data] that [request.get_json()]
    hands it.  The body of a response is kept as the value it is rendered
    from.  An exception that no handler of the route catches is answered
    by the framework with status 500. *)

Module App.

Inductive payload : Type :=
| Borrowed (record : BorrowedRecord.t)
| Returned (receipt : Library.receipt)
| Required
| Error (e : exn)
| Unexpected.

Definition response : Type := (nat * payload)%type.

(** [k in data]; [None] is the [TypeError] of an object that has no
    membership test.  A list has the key when one of its items is that
    string, a string when the key occurs in it. *)
Definition contains_key (k : string) (data : json) : option bool :=
  match data with
  | JObj items => Some (Dict.mem k items)
  | JList items =>
      Some (existsb (fun v => match v with JStr s => (s =? k)%string | _ => false end) items)
  | JStr s => Some (Str.contains k s)
  | _ => None
  end.

(** The status that the handlers of a route give an exception of the
    library. *)
Definition status_of (e : exn) : nat :=
  match e with
  | KeyError _ => 404
  | ValueError _ => 400
  | OverflowError | TypeError => 500
  end.

(** The first lines of both routes, up to the arguments of the call:
    [inl resp] answers without a call, [inr (v1, v2)] are the two values
    read from a dict. *)
Definition loan_arguments (data : json) : response + json * json :=
  if negb (Json.truthy data) then inl (400%nat, Required)
  else
    match contains_key "membership_id" data with
    | None => inl (500%nat, Unexpected)
    | Some false => inl (400%nat, Required)
    | Some true =>
        match contains_key "isbn" data with
        | None => inl (500%nat, Unexpected)
        | Some false => inl (400%nat, Required)
        | Some true =>
            match data with
            | JObj items =>
                match Dict.get "membership_id" items, Dict.get "isbn" items with
                | Some v1, Some v2 => inr (v1, v2)
                | _, _ => inl (500%nat, Unexpected)
                end
            | _ => inl (500%nat, Unexpected)
            end
        end
    end.

(** The two membership tests that open [borrow_book] and [return_book],
    for arguments that are not both strings: a key that cannot be hashed
    raises [TypeError], any other key that is not a string is in no dict
    of the library. *)
Definition untyped_call (v1 v2 : json) (s : Library.t) : response :=
  match v1 with
  | JStr m =>
      if Dict.mem m (Library.borrowers_by_id s) then
        if Json.hashable v2 then (404%nat, Error (KeyError "Book not found"))
        else (500%nat, Unexpected)
      else (404%nat, Error (KeyError "Borrower not found"))
  | _ =>
      if Json.hashable v1 then (404%nat, Error (KeyError "Borrower not found"))
      else (500%nat, Unexpected)
  end.

Definition answer {A : Type} (wrap : A -> payload) (r : result A) : response :=
  match r with
  | Return a => (200%nat, wrap a)
  | Raise e => (status_of e, Error e)
  end.

(** The route [/api/borrow]. *)
Definition borrow (now : Z) (data : json) (s : Library.t) : response * Library.t :=
  match loan_arguments data with
  | inl resp => (resp, s)
  | inr (JStr m, JStr i) =>
      let '(r, s') := Library.borrow_book now m i s in
      (answer Borrowed r, s')
  | inr (v1, v2) => (untyped_call v1 v2 s, s)
  end.

(** The route [/api/return]. *)
Definition return_book (isoformat : datetime -> string) (now : Z) (data : json)
    (s : Library.t) : response * Library.t :=
  match loan_arguments data with
  | inl resp => (resp, s)
  | inr (JStr m, JStr i) =>
      let '(r, s') := Library.return_book isoformat now m i s in
      (answer Returned r, s')
  | inr (v1, v2) => (untyped_call v1 v2 s, s)
  end.

End App.

(** ** Sample data

    The scenario of the seed route and of the specification's test list:
    one title with two copies and one registered borrower. *)

Definition sample_book : Book.t := Book.mk "T" "A" "111" "G" 2.

Definition sample_borrower : Borrower.t := Borrower.mk "Alice" "alice@example.com" "m1" [].

Definition sample_library : Library.t :=
  Library.mk [("111", sample_book)] [("m1", sample_borrower)] 14.

(** A self-delimiting binary numeral, least significant bit first, put in
    front of [rest]. *)
Fixpoint bits_of_pos (p : positive) (rest : string) : string :=
  match p with
  | xH => String "." rest
  | xO p' => String "0" (bits_of_pos p' rest)
  | xI p' => String "1" (bits_of_pos p' rest)
  end.

Definition bits_of_Z (z : Z) (rest : string) : string :=
  match z with
  | Z0 => String "z" rest
  | Zpos p => String "+" (bits_of_pos p rest)
  | Zneg p => String "-" (bits_of_pos p rest)
  end.

Fixpoint pos_of_bits (s : string) : option (positive * string) :=
  match s with
  | EmptyString => None
  | String c s' =>
      if Ascii.eqb c "." then Some (xH, s')
      else if Ascii.eqb c "0" then
        option_map (fun pr => (xO (fst pr), snd pr)) (pos_of_bits s')
      else if Ascii.eqb c "1" then
        option_map (fun pr => (xI (fst pr), snd pr)) (pos_of_bits s')
      else None
  end.

Definition Z_of_bits (s : string) : option (Z * string) :=
  match s with
  | EmptyString => None
  | String c s' =>
      if Ascii.eqb c "z" then Some (0, s')
      else if Ascii.eqb c "+" then
        option_map (fun pr => (Zpos (fst pr), snd pr)) (pos_of_bits s')
      else if Ascii.eqb c "-" then
        option_map (fun pr => (Zneg (fst pr), snd pr)) (pos_of_bits s')
      else None
  end.

(** A stand-in for [datetime.isoformat] on concrete runs: the decimal
    numeral of a naive time; for an aware one the letter A and the binary
    numerals of the time and of the offset. *)
Definition sample_isoformat (d : datetime) : string :=
  match d with
  | Naive t => NilZero.string_of_int (Z.to_int t)
  | Aware t utcoffset => String "A" (bits_of_Z t (bits_of_Z utcoffset EmptyString))
  end.

(** A stand-in for [datetime.fromisoformat] on concrete runs: it reads
    back what [sample_isoformat] writes. *)
Definition sample_fromisoformat (s : string) : option datetime :=
  match s with
  | EmptyString => None
  | String c s' =>
      if Ascii.eqb c "A" then
        match Z_of_bits s' with
        | Some (t, s'') =>
            match Z_of_bits s'' with
            | Some (utcoffset, EmptyString) => Some (Aware t utcoffset)
            | _ => None
            end
        | None => None
        end
      else option_map (fun i => Naive (Z.of_int i)) (NilZero.int_of_string s)
  end.

(** The two loans of the sample borrower, due fourteen days after the
    times 1000 and 2000. *)
Definition sample_record_1 : BorrowedRecord.t :=
  BorrowedRecord.mk "111" (Naive 1000) (Naive 1209600001000).

Definition sample_record_2 : BorrowedRecord.t :=
  BorrowedRecord.mk "111" (Naive 2000) (Naive 1209600002000).

Definition sample_lent_borrower : Borrower.t :=
  Borrower.mk "Alice" "alice@example.com" "m1" [sample_record_1; sample_record_2].

(** A data file in which the due date of the one loan carries the offset
    zero, and the library that the loader makes of it. *)
Definition sample_offset_file : json :=
  JObj [("books", JList [Persistence.book_to_dict (Book.mk "T" "A" "111" "G" 1)]);
        ("borrowers",
         JList [JObj [("name", JStr "Alice"); ("contact", JStr "alice@example.com");
                      ("membership_id", JStr "m1");
                      ("borrowed_books",
                       JList [JObj [("isbn", JStr "111");
                                    ("borrowed_on", JStr "1000");
                                    ("due_date", JStr "A+000.z")]])]])].

Definition sample_offset_library : Library.t :=
  Library.mk [("111", Book.mk "T" "A" "111" "G" 1)]
    [("m1", Borrower.mk "Alice" "alice@example.com" "m1"
              [BorrowedRecord.mk "111" (Naive 1000) (Aware 8 0)])]
    14.

(** The sample library with a loan period of ten million days. *)
Definition sample_long_loans : Library.t :=
  Library.mk [("111", sample_book)] [("m1", sample_borrower)] 10000000.

(** A stand-in for the tokens drawn on concrete runs. *)
Definition sample_uuid8 (k : nat) : string := "0a1b2c3d".

(** A library set up through the public operations: one borrower with a
    generated id, one title in two deliveries, one loan. *)
Definition sample_setup : list call :=
  [AddBorrower "0a1b2c3d" "Alice" "alice@example.com" None;
   AddBook "T" "A" "111" "G" 2;
   BorrowBook 1000 "0a1b2c3d" "111";
   AddBook "T2" "A2" "111" "G2" 3].

(** A request body with the two fields of the loan routes. *)
Definition sample_request : json :=
  JObj [("membership_id", JStr "m1"); ("isbn", JStr "111")].

(** The sample library before its title is stocked. *)
Definition sample_unstocked : Library.t :=
  Library.mk [] [("m1", sample_borrower)] 14.

(** Three attempts to borrow the two copies, then one return. *)
Definition sample_loans : list call :=
  [BorrowBook 1000 "m1" "111"; BorrowBook 2000 "m1" "111";
   BorrowBook 2500 "m1" "111"; ReturnBook 3000 "m1" "111"].

(** Stocking in two deliveries around the loans. *)
Definition sample_history : list call :=
  (AddBook "T" "A" "111" "G" 2 :: sample_loans ++ [AddBook "T2" "A2" "111" "G2" 3])%list.

(** One delivery of two copies under a new isbn, then a count of the
    shelf that sets the quantity to ten. *)
Definition sample_recount : list call :=
  [AddBook "T" "A" "111" "G" 2; UpdateBook "111" None None None (Some 10)].

(** The sample library with both copies lent to the borrower. *)
Definition sample_lent : Library.t :=
  run sample_isoformat [BorrowBook 1000 "m1" "111"; BorrowBook 2000 "m1" "111"]
    sample_library.

(** The state after [add_book] is called twice on the same isbn. *)
Definition add_book_twice (t1 a1 g1 t2 a2 g2 i : string) (q1 q2 : Z) (s : Library.t)
    : result Book.t * Library.t :=
  Library.add_book t2 a2 i g2 q2 (snd (Library.add_book t1 a1 i g1 q1 s)).

(** * Properties *)

(** ** Facts about the dict operations *)

Section DictFacts.

Context {V : Type}.
Implicit Types (d : Dict.t V) (k : string) (v : V).

Lemma get_set_same k v d : Dict.get k (Dict.set k v d) = Some v.
Proof.
  induction d as [|[k' v'] d IH]; simpl.
  - now rewrite String.eqb_refl.
  - destruct (String.eqb_spec k' k) as [->|Hne]; simpl.
    + now rewrite String.eqb_refl.
    + destruct (String.eqb_spec k' k); [contradiction|exact IH].
Qed.

Lemma get_set_other k k0 v d :
  k0 <> k -> Dict.get k0 (Dict.set k v d) = Dict.get k0 d.
Proof.
  intros Hne. induction d as [|[k' v'] d IH]; simpl.
  - destruct (String.eqb_spec k k0); [congruence|reflexivity].
  - destruct (String.eqb_spec k' k) as [->|Hk]; simpl.
    + destruct (String.eqb_spec k k0); [congruence|reflexivity].
    + now rewrite IH.
Qed.

Lemma keys_set_present k v v0 d :
  Dict.get k d = Some v0 -> Dict.keys (Dict.set k v d) = Dict.keys d.
Proof.
  induction d as [|[k' v'] d IH]; simpl; [discriminate|].
  destruct (String.eqb_spec k' k) as [->|Hk]; simpl; intros H.
  - reflexivity.
  - f_equal. now apply IH.
Qed.

Lemma keys_set_absent k v d :
  Dict.get k d = None -> Dict.keys (Dict.set k v d) = (Dict.keys d ++ [k])%list.
Proof.
  induction d as [|[k' v'] d IH]; simpl; [reflexivity|].
  destruct (String.eqb_spec k' k) as [->|Hk]; simpl; intros H.
  - discriminate.
  - f_equal. now apply IH.
Qed.

Lemma entries_set_other k k0 v d :
  k0 <> k -> entries k0 (Dict.set k v d) = entries k0 d.
Proof.
  intros Hne. unfold entries.
  induction d as [|[k' v'] d IH]; simpl.
  - destruct (String.eqb_spec k k0); [congruence|reflexivity].
  - destruct (String.eqb_spec k' k) as [->|Hk]; simpl.
    + destruct (String.eqb_spec k k0); [congruence|reflexivity].
    + destruct (k' =? k0)%string; simpl; now rewrite IH.
Qed.

Lemma entries_set_present k v v0 d :
  Dict.get k d = Some v0 -> entries k (Dict.set k v d) = entries k d.
Proof.
  unfold entries.
  induction d as [|[k' v'] d IH]; simpl; [discriminate|].
  destruct (String.eqb_spec k' k) as [->|Hk]; simpl; intros H.
  - now rewrite String.eqb_refl.
  - destruct (String.eqb_spec k' k); [contradiction|]. now apply IH.
Qed.

Lemma entries_absent k d : Dict.get k d = None -> entries k d = 0%nat.
Proof.
  unfold entries.
  induction d as [|[k' v'] d IH]; simpl; [reflexivity|].
  destruct (String.eqb_spec k' k); [discriminate|exact IH].
Qed.

Lemma entries_set_absent k v d :
  Dict.get k d = None -> entries k (Dict.set k v d) = 1%nat.
Proof.
  unfold entries.
  induction d as [|[k' v'] d IH]; simpl.
  - now rewrite String.eqb_refl.
  - destruct (String.eqb_spec k' k) as [->|Hk]; simpl; intros H.
    + discriminate.
    + destruct (String.eqb_spec k' k); [contradiction|]. now apply IH.
Qed.

(** Replacing the value under a key that is present moves a sum over the
    values by the difference of the two summands. *)
Lemma sumZ_set_present (f : V -> Z) k v v0 d :
  Dict.get k d = Some v0 ->
  sumZ f (Dict.values (Dict.set k v d)) = sumZ f (Dict.values d) - f v0 + f v.
Proof.
  induction d as [|[k' v'] d IH]; simpl; [discriminate|].
  destruct (String.eqb_spec k' k) as [->|Hk]; simpl; intros H.
  - injection H as ->. lia.
  - rewrite (IH H). lia.
Qed.

Lemma mem_get k d : Dict.mem k d = true <-> exists v, Dict.get k d = Some v.
Proof.
  unfold Dict.mem. destruct (Dict.get k d) as [v|].
  - split; [eauto|reflexivity].
  - split; [discriminate|intros [v H]; discriminate].
Qed.

End DictFacts.

(** ** Facts about loan sequences *)

Lemma datetime_eqb_refl (d : datetime) : datetime_eqb d d = true.
Proof. destruct d; simpl; apply Z.eqb_refl. Qed.

Lemma record_eqb_refl (r : BorrowedRecord.t) : BorrowedRecord.eqb r r = true.
Proof.
  unfold BorrowedRecord.eqb.
  now rewrite String.eqb_refl, !datetime_eqb_refl.
Qed.

Lemma record_eqb_isbn (a b : BorrowedRecord.t) :
  BorrowedRecord.isbn a <> BorrowedRecord.isbn b -> BorrowedRecord.eqb a b = false.
Proof.
  intros Hne. unfold BorrowedRecord.eqb.
  destruct (String.eqb_spec (BorrowedRecord.isbn a) (BorrowedRecord.isbn b));
    [contradiction|reflexivity].
Qed.

(** The record found by the loop is the first one with the isbn, and
    [remove] takes out that very occurrence. *)
Lemma find_record_first (isbn : string) (l : list BorrowedRecord.t) (r : BorrowedRecord.t) :
  Library.find_record isbn l = Some r ->
  exists l1 l2,
    l = (l1 ++ r :: l2)%list /\
    (forall x, In x l1 -> BorrowedRecord.isbn x <> isbn) /\
    BorrowedRecord.isbn r = isbn /\
    list_remove r l = Some (l1 ++ l2)%list.
Proof.
  unfold Library.find_record.
  induction l as [|y l IH]; simpl; [discriminate|].
  destruct (String.eqb_spec (BorrowedRecord.isbn y) isbn) as [Hy|Hy]; intros H.
  - injection H as <-. exists [], l. simpl.
    rewrite record_eqb_refl. repeat split; auto.
  - destruct (IH H) as (l1 & l2 & -> & Hl1 & Hr & Hrm).
    exists (y :: l1), l2. simpl.
    rewrite record_eqb_isbn by congruence.
    rewrite Hrm. repeat split; auto.
    intros x [<-|Hx]; auto.
Qed.

Lemma find_record_none (isbn : string) (l : list BorrowedRecord.t) :
  (forall x, In x l -> BorrowedRecord.isbn x <> isbn) ->
  Library.find_record isbn l = None.
Proof.
  unfold Library.find_record.
  induction l as [|y l IH]; simpl; intros H; [reflexivity|].
  destruct (String.eqb_spec (BorrowedRecord.isbn y) isbn) as [Hy|Hy].
  - exfalso. apply (H y); auto.
  - apply IH. intros x Hx. apply H. auto.
Qed.

Lemma find_record_some (isbn : string) (l : list BorrowedRecord.t) (x : BorrowedRecord.t) :
  In x l -> BorrowedRecord.isbn x = isbn ->
  exists r, Library.find_record isbn l = Some r.
Proof.
  unfold Library.find_record.
  induction l as [|y l IH]; simpl; intros Hin Hx; [contradiction|].
  destruct (String.eqb_spec (BorrowedRecord.isbn y) isbn) as [Hy|Hy]; [eauto|].
  destruct Hin as [->|Hin]; [contradiction|auto].
Qed.

(** A decomposition at the first record with the isbn is unique. *)
Lemma first_split_unique (isbn : string) (l1 l2 l1' l2' : list BorrowedRecord.t)
    (r r' : BorrowedRecord.t) :
  (l1 ++ r :: l2 = l1' ++ r' :: l2')%list ->
  (forall x, In x l1 -> BorrowedRecord.isbn x <> isbn) ->
  (forall x, In x l1' -> BorrowedRecord.isbn x <> isbn) ->
  BorrowedRecord.isbn r = isbn -> BorrowedRecord.isbn r' = isbn ->
  l1 = l1' /\ r = r' /\ l2 = l2'.
Proof.
  revert l1'. induction l1 as [|a l1 IH]; intros [|a' l1']; simpl; intros E H1 H1' Hr Hr'.
  - injection E as -> ->. auto.
  - injection E as -> _. exfalso. apply (H1' a'); auto.
  - injection E as -> _. exfalso. apply (H1 r'); auto.
  - injection E as -> E.
    destruct (IH l1' E) as (-> & -> & ->); auto.
Qed.

Lemma loans_of_app (isbn : string) (l1 l2 : list BorrowedRecord.t) :
  loans_of isbn (l1 ++ l2) = loans_of isbn l1 + loans_of isbn l2.
Proof.
  unfold loans_of. rewrite filter_app, length_app. lia.
Qed.

Lemma loans_of_cons (isbn : string) (r : BorrowedRecord.t) (l : list BorrowedRecord.t) :
  loans_of isbn (r :: l) =
  (if (BorrowedRecord.isbn r =? isbn)%string then 1 else 0) + loans_of isbn l.
Proof.
  unfold loans_of. simpl.
  destruct (BorrowedRecord.isbn r =? isbn)%string; simpl length; lia.
Qed.

Lemma loans_of_nil (isbn : string) : loans_of isbn [] = 0.
Proof. reflexivity. Qed.

(** ** The outcomes of [borrow_book] and [return_book] *)

Lemma borrow_book_ok (s : Library.t) (now : Z) (m i : string)
    (borrower : Borrower.t) (book : Book.t) (due : datetime) :
  Dict.get m (Library.borrowers_by_id s) = Some borrower ->
  Dict.get i (Library.books_by_isbn s) = Some book ->
  0 < Book.quantity book ->
  due_date_after (Naive now) (Library.loan_days s) = Some due ->
  let record := BorrowedRecord.mk i (Naive now) due in
  Library.borrow_book now m i s =
  (Return record,
   Library.mk
     (Dict.set i (Book.set_quantity (Book.quantity book - 1) book) (Library.books_by_isbn s))
     (Dict.set m
        (Borrower.set_borrowed_books (Borrower.borrowed_books borrower ++ [record]) borrower)
        (Library.borrowers_by_id s))
     (Library.loan_days s)).
Proof.
  intros Hm Hi Hq Hd. unfold Library.borrow_book. rewrite Hm, Hi, Hd.
  destruct (Z.leb_spec (Book.quantity book) 0); [lia|reflexivity].
Qed.

(** A due date that cannot be computed: the call raises and nothing is
    changed. *)
Lemma borrow_book_overflow (s : Library.t) (now : Z) (m i : string)
    (borrower : Borrower.t) (book : Book.t) :
  Dict.get m (Library.borrowers_by_id s) = Some borrower ->
  Dict.get i (Library.books_by_isbn s) = Some book ->
  0 < Book.quantity book ->
  due_date_after (Naive now) (Library.loan_days s) = None ->
  Library.borrow_book now m i s = (Raise OverflowError, s).
Proof.
  intros Hm Hi Hq Hd. unfold Library.borrow_book. rewrite Hm, Hi, Hd.
  destruct (Z.leb_spec (Book.quantity book) 0); [lia|reflexivity].
Qed.

(** A call of [borrow_book] that raises leaves the state as it was. *)
Lemma borrow_book_raise (s : Library.t) (now : Z) (m i : string) :
  returned (fst (Library.borrow_book now m i s)) = false ->
  snd (Library.borrow_book now m i s) = s.
Proof.
  unfold Library.borrow_book.
  destruct (Dict.get m (Library.borrowers_by_id s)) as [borrower|]; [|reflexivity].
  destruct (Dict.get i (Library.books_by_isbn s)) as [book|]; [|reflexivity].
  destruct (Book.quantity book <=? 0); [reflexivity|].
  destruct (due_date_after (Naive now) (Library.loan_days s)); [discriminate|reflexivity].
Qed.

(** The due date in plain arithmetic: the loan period is at most
    999999999 days either way, and the time of the borrow plus that many
    days falls between [datetime.min] and [datetime.max]. *)
Lemma due_date_after_naive (now loan_days : Z) (due : datetime) :
  due_date_after (Naive now) loan_days = Some due <->
  Z.abs loan_days <= 999999999 /\
  0 <= now + loan_days * 86400000000 <= datetime_max /\
  due = Naive (now + loan_days * 86400000000).
Proof.
  unfold due_date_after, timedelta_days, datetime_add.
  destruct (Z.leb_spec (Z.abs loan_days) 999999999) as [Ha|Ha].
  - destruct (Z.leb_spec 0 (now + loan_days * 86400000000)) as [H0|H0];
      destruct (Z.leb_spec (now + loan_days * 86400000000) datetime_max) as [H1|H1];
      cbn [andb option_map]; split;
      try (intros [= <-]; repeat split; assumption);
      try discriminate;
      try (intros (_ & [H2 H3] & ->); first [reflexivity|lia]).
  - split; [discriminate|]. intros (H & _). lia.
Qed.

(** The state that [return_book] leaves once it has found a record: the
    record is taken out at its first occurrence and one copy is back. *)
Lemma return_book_found (isoformat : datetime -> string) (s : Library.t) (now : Z)
    (m i : string) (borrower : Borrower.t) (book : Book.t)
    (l1 l2 : list BorrowedRecord.t) (r : BorrowedRecord.t) :
  Dict.get m (Library.borrowers_by_id s) = Some borrower ->
  Dict.get i (Library.books_by_isbn s) = Some book ->
  Borrower.borrowed_books borrower = (l1 ++ r :: l2)%list ->
  (forall x, In x l1 -> BorrowedRecord.isbn x <> i) ->
  BorrowedRecord.isbn r = i ->
  Library.return_book isoformat now m i s =
  (match datetime_gtb (Naive now) (BorrowedRecord.due_date r) with
   | None => Raise TypeError
   | Some overdue =>
       Return (Library.mk_receipt true overdue (isoformat (BorrowedRecord.due_date r)))
   end,
   Library.mk
     (Dict.set i (Book.set_quantity (Book.quantity book + 1) book) (Library.books_by_isbn s))
     (Dict.set m (Borrower.set_borrowed_books (l1 ++ l2) borrower) (Library.borrowers_by_id s))
     (Library.loan_days s)).
Proof.
  intros Hm Hi Hl Hl1 Hr. unfold Library.return_book. rewrite Hm, Hi.
  destruct (find_record_some i (Borrower.borrowed_books borrower) r) as [r' Hf]; auto.
  { rewrite Hl. apply in_elt. }
  rewrite Hf.
  destruct (find_record_first _ _ _ Hf) as (k1 & k2 & Hk & Hk1 & Hr' & Hrm).
  rewrite Hl in Hk.
  destruct (first_split_unique i _ _ _ _ _ _ Hk Hl1 Hk1 Hr Hr') as (<- & <- & <-).
  rewrite Hrm.
  cbn [Library.set_borrowers Library.set_books Library.books_by_isbn
       Library.borrowers_by_id Library.loan_days].
  rewrite Hi.
  now destruct (datetime_gtb (Naive now) (BorrowedRecord.due_date r)).
Qed.

Lemma return_book_ok (isoformat : datetime -> string) (s : Library.t) (now : Z)
    (m i : string) (borrower : Borrower.t) (book : Book.t)
    (l1 l2 : list BorrowedRecord.t) (r : BorrowedRecord.t) (due : Z) :
  Dict.get m (Library.borrowers_by_id s) = Some borrower ->
  Dict.get i (Library.books_by_isbn s) = Some book ->
  Borrower.borrowed_books borrower = (l1 ++ r :: l2)%list ->
  (forall x, In x l1 -> BorrowedRecord.isbn x <> i) ->
  BorrowedRecord.isbn r = i ->
  BorrowedRecord.due_date r = Naive due ->
  Library.return_book isoformat now m i s =
  (Return (Library.mk_receipt true (now >? due) (isoformat (Naive due))),
   Library.mk
     (Dict.set i (Book.set_quantity (Book.quantity book + 1) book) (Library.books_by_isbn s))
     (Dict.set m (Borrower.set_borrowed_books (l1 ++ l2) borrower) (Library.borrowers_by_id s))
     (Library.loan_days s)).
Proof.
  intros Hm Hi Hl Hl1 Hr Hd.
  rewrite (return_book_found isoformat s now m i borrower book l1 l2 r Hm Hi Hl Hl1 Hr).
  now rewrite Hd.
Qed.

(** A call of [return_book] that raises anything but [TypeError] leaves
    the state as it was. *)
Lemma return_book_raise (isoformat : datetime -> string) (s : Library.t) (now : Z)
    (m i : string) (e : exn) :
  fst (Library.return_book isoformat now m i s) = Raise e ->
  e <> TypeError ->
  snd (Library.return_book isoformat now m i s) = s.
Proof.
  unfold Library.return_book.
  destruct (Dict.get m (Library.borrowers_by_id s)) as [borrower|]; [|reflexivity].
  destruct (Dict.get i (Library.books_by_isbn s)) as [book|] eqn:Hi; [|reflexivity].
  destruct (Library.find_record i (Borrower.borrowed_books borrower)) as [r|]; [|reflexivity].
  destruct (list_remove r (Borrower.borrowed_books borrower)); [|reflexivity].
  cbn [Library.set_borrowers Library.set_books Library.books_by_isbn
       Library.borrowers_by_id Library.loan_days].
  rewrite Hi.
  destruct (datetime_gtb (Naive now) (BorrowedRecord.due_date r)); cbn [fst].
  - discriminate.
  - intros [= <-] H. now contradiction H.
Qed.

(** What a call of [borrow_book] can leave behind: the state it found, or
    that state with one record appended and one copy less. *)
Lemma borrow_book_state (s : Library.t) (now : Z) (m i : string) :
  snd (Library.borrow_book now m i s) = s \/
  exists borrower book due,
    Dict.get m (Library.borrowers_by_id s) = Some borrower /\
    Dict.get i (Library.books_by_isbn s) = Some book /\
    0 < Book.quantity book /\
    snd (Library.borrow_book now m i s) =
    Library.mk
      (Dict.set i (Book.set_quantity (Book.quantity book - 1) book)
         (Library.books_by_isbn s))
      (Dict.set m
         (Borrower.set_borrowed_books
            (Borrower.borrowed_books borrower ++ [BorrowedRecord.mk i (Naive now) due])
            borrower)
         (Library.borrowers_by_id s))
      (Library.loan_days s).
Proof.
  unfold Library.borrow_book.
  destruct (Dict.get m (Library.borrowers_by_id s)) as [borrower|]; [|now left].
  destruct (Dict.get i (Library.books_by_isbn s)) as [book|]; [|now left].
  destruct (Z.leb_spec (Book.quantity book) 0); [now left|].
  destruct (due_date_after (Naive now) (Library.loan_days s)) as [due|]; [|now left].
  right. exists borrower, book, due. auto.
Qed.

(** What a call of [return_book] can leave behind: the state it found, or
    that state with the first record of the isbn taken out and one copy
    more. *)
Lemma return_book_state (isoformat : datetime -> string) (s : Library.t) (now : Z)
    (m i : string) :
  snd (Library.return_book isoformat now m i s) = s \/
  exists borrower book l1 r l2,
    Dict.get m (Library.borrowers_by_id s) = Some borrower /\
    Dict.get i (Library.books_by_isbn s) = Some book /\
    Borrower.borrowed_books borrower = (l1 ++ r :: l2)%list /\
    BorrowedRecord.isbn r = i /\
    snd (Library.return_book isoformat now m i s) =
    Library.mk
      (Dict.set i (Book.set_quantity (Book.quantity book + 1) book)
         (Library.books_by_isbn s))
      (Dict.set m (Borrower.set_borrowed_books (l1 ++ l2) borrower)
         (Library.borrowers_by_id s))
      (Library.loan_days s).
Proof.
  destruct (Dict.get m (Library.borrowers_by_id s)) as [borrower|] eqn:Hm.
  2:{ left. unfold Library.return_book. now rewrite Hm. }
  destruct (Dict.get i (Library.books_by_isbn s)) as [book|] eqn:Hi.
  2:{ left. unfold Library.return_book. now rewrite Hm, Hi. }
  destruct (Library.find_record i (Borrower.borrowed_books borrower)) as [r|] eqn:Hf.
  2:{ left. unfold Library.return_book. now rewrite Hm, Hi, Hf. }
  destruct (find_record_first _ _ _ Hf) as (l1 & l2 & Hl & Hl1 & Hr & _).
  right. exists borrower, book, l1, r, l2.
  rewrite (return_book_found isoformat s now m i borrower book l1 l2 r Hm Hi Hl Hl1 Hr).
  auto.
Qed.

(** ** Copy counts under the stock operations *)

Lemma copies_borrow_book (s : Library.t) (now : Z) (m i0 i : string) :
  copies i (snd (Library.borrow_book now m i0 s)) = copies i s.
Proof.
  unfold Library.borrow_book.
  destruct (Dict.get m (Library.borrowers_by_id s)) as [borrower|] eqn:Hm; [|reflexivity].
  destruct (Dict.get i0 (Library.books_by_isbn s)) as [book|] eqn:Hi; [|reflexivity].
  destruct (Book.quantity book <=? 0); [reflexivity|].
  destruct (due_date_after (Naive now) (Library.loan_days s)) as [due|]; [|reflexivity].
  unfold copies, on_shelf, outstanding.
  cbn [snd Library.books_by_isbn Library.borrowers_by_id].
  rewrite (sumZ_set_present _ _ _ _ _ Hm).
  cbn [Borrower.borrowed_books Borrower.set_borrowed_books].
  rewrite loans_of_app, loans_of_cons, loans_of_nil.
  cbn [BorrowedRecord.isbn].
  destruct (String.eqb_spec i0 i) as [->|Hne].
  - rewrite get_set_same, Hi. cbn [Book.quantity Book.set_quantity]. lia.
  - rewrite get_set_other by congruence. lia.
Qed.

Lemma copies_return_book (isoformat : datetime -> string) (s : Library.t) (now : Z)
    (m i0 i : string) :
  copies i (snd (Library.return_book isoformat now m i0 s)) = copies i s.
Proof.
  destruct (return_book_state isoformat s now m i0)
    as [->|(borrower & book & l1 & r & l2 & Hm & Hi & Hl & Hr & ->)]; [reflexivity|].
  unfold copies, on_shelf, outstanding.
  cbn [Library.books_by_isbn Library.borrowers_by_id].
  rewrite (sumZ_set_present _ _ _ _ _ Hm).
  cbn [Borrower.borrowed_books Borrower.set_borrowed_books].
  rewrite Hl, !loans_of_app, loans_of_cons, Hr.
  destruct (String.eqb_spec i0 i) as [->|Hne].
  - rewrite get_set_same, Hi. cbn [Book.quantity Book.set_quantity]. lia.
  - rewrite get_set_other by congruence. lia.
Qed.

Lemma set_get_same {V : Type} (k : string) (v : V) (d : Dict.t V) :
  Dict.get k d = Some v -> Dict.set k v d = d.
Proof.
  induction d as [|[k' v'] d IH]; simpl; [discriminate|].
  destruct (String.eqb_spec k' k) as [->|Hk]; intros H.
  - now injection H as ->.
  - now rewrite IH.
Qed.

Lemma set_books_same (s : Library.t) : Library.set_books (Library.books_by_isbn s) s = s.
Proof. now destruct s. Qed.

(** [add_book] on an isbn of the catalog: the sum is checked by
    [Book.update], and a negative sum is refused. *)
Lemma add_book_present (s : Library.t) (t a i g : string) (q : Z) (book : Book.t) :
  Dict.get i (Library.books_by_isbn s) = Some book ->
  Library.add_book t a i g q s =
  if Book.quantity book + q <? 0
  then (Raise (ValueError "Quantity cannot be negative"), s)
  else (Return (Book.set_quantity (Book.quantity book + q) book),
        Library.set_books
          (Dict.set i (Book.set_quantity (Book.quantity book + q) book)
             (Library.books_by_isbn s)) s).
Proof.
  intros Hi. unfold Library.add_book, Book.update. rewrite Hi.
  cbn [Book.assign].
  destruct (Book.quantity book + q <? 0); [|reflexivity].
  now rewrite (set_get_same _ _ _ Hi), set_books_same.
Qed.

Lemma add_book_absent (s : Library.t) (t a i g : string) (q : Z) :
  Dict.get i (Library.books_by_isbn s) = None ->
  Library.add_book t a i g q s =
  (Return (Book.mk t a i g q),
   Library.set_books (Dict.set i (Book.mk t a i g q) (Library.books_by_isbn s)) s).
Proof.
  intros Hi. unfold Library.add_book. now rewrite Hi.
Qed.

Lemma copies_add_book (s : Library.t) (t a i0 g : string) (q : Z) (i : string) :
  copies i (snd (Library.add_book t a i0 g q s)) =
  copies i s +
  (if returned (fst (Library.add_book t a i0 g q s)) && (i0 =? i)%string then q else 0).
Proof.
  destruct (Dict.get i0 (Library.books_by_isbn s)) as [book|] eqn:Hi.
  - rewrite (add_book_present _ _ _ _ _ _ _ Hi).
    destruct (Book.quantity book + q <? 0); cbn [fst snd returned andb]; [lia|].
    unfold copies, on_shelf, outstanding.
    cbn [Library.set_books Library.books_by_isbn Library.borrowers_by_id].
    destruct (String.eqb_spec i0 i) as [->|Hne].
    + rewrite get_set_same, Hi. cbn [Book.quantity Book.set_quantity]. lia.
    + rewrite get_set_other by congruence. lia.
  - rewrite (add_book_absent _ _ _ _ _ _ Hi). cbn [fst snd returned andb].
    unfold copies, on_shelf, outstanding.
    cbn [Library.set_books Library.books_by_isbn Library.borrowers_by_id].
    destruct (String.eqb_spec i0 i) as [->|Hne].
    + rewrite get_set_same, Hi. cbn [Book.quantity]. lia.
    + rewrite get_set_other by congruence. lia.
Qed.

Section HistoryFacts.

Variable isoformat : datetime -> string.

Lemma copies_exec (c : call) (s : Library.t) (i : string) :
  is_stock_call c = true ->
  copies i (snd (exec isoformat c s)) = copies i s + added_by isoformat i c s.
Proof.
  destruct c; try discriminate; intros _; unfold added_by, exec, outcome; cbn [fst snd].
  - apply copies_add_book.
  - rewrite copies_borrow_book. lia.
  - rewrite copies_return_book. lia.
Qed.

(** The ledger of a history of [add_book], [borrow_book] and
    [return_book] calls. *)
Lemma copies_run (cs : list call) (s : Library.t) (i : string) :
  forallb is_stock_call cs = true ->
  copies i (run isoformat cs s) = copies i s + added isoformat i cs s.
Proof.
  revert s. induction cs as [|c cs IH]; intros s H; simpl.
  - lia.
  - simpl in H. apply andb_prop in H as [Hc Hcs].
    rewrite IH by exact Hcs. rewrite copies_exec by exact Hc. lia.
Qed.

Lemma loan_call_is_stock_call (cs : list call) :
  forallb is_loan_call cs = true -> forallb is_stock_call cs = true.
Proof.
  induction cs as [|c cs IH]; simpl; [reflexivity|].
  intros H. apply andb_prop in H as [Hc Hcs].
  rewrite IH by exact Hcs. now destruct c.
Qed.

Lemma added_loan_calls (cs : list call) (s : Library.t) (i : string) :
  forallb is_loan_call cs = true -> added isoformat i cs s = 0.
Proof.
  revert s. induction cs as [|c cs IH]; intros s H; simpl; [reflexivity|].
  simpl in H. apply andb_prop in H as [Hc Hcs].
  rewrite IH by exact Hcs. now destruct c.
Qed.

End HistoryFacts.

(** ** The catalog under borrow and return *)

(** Borrowing and returning replace catalog entries in place: no isbn
    enters or leaves the catalog, and the order is kept. *)
Lemma keys_borrow_book (s : Library.t) (now : Z) (m i : string) :
  Dict.keys (Library.books_by_isbn (snd (Library.borrow_book now m i s))) =
  Dict.keys (Library.books_by_isbn s).
Proof.
  destruct (borrow_book_state s now m i)
    as [->|(borrower & book & due & Hm & Hi & _ & ->)]; [reflexivity|].
  exact (keys_set_present _ _ _ _ Hi).
Qed.

Lemma keys_return_book (isoformat : datetime -> string) (s : Library.t) (now : Z)
    (m i : string) :
  Dict.keys (Library.books_by_isbn (snd (Library.return_book isoformat now m i s))) =
  Dict.keys (Library.books_by_isbn s).
Proof.
  destruct (return_book_state isoformat s now m i)
    as [->|(borrower & book & l1 & r & l2 & Hm & Hi & _ & _ & ->)]; [reflexivity|].
  exact (keys_set_present _ _ _ _ Hi).
Qed.

Lemma keys_run_loans (isoformat : datetime -> string) (cs : list call) (s : Library.t) :
  forallb is_loan_call cs = true ->
  Dict.keys (Library.books_by_isbn (run isoformat cs s)) =
  Dict.keys (Library.books_by_isbn s).
Proof.
  revert s. induction cs as [|c cs IH]; intros s H; simpl; [reflexivity|].
  simpl in H. apply andb_prop in H as [Hc Hcs].
  rewrite IH by exact Hcs.
  destruct c; try discriminate; unfold exec, outcome; cbn [snd].
  - apply keys_borrow_book.
  - apply keys_return_book.
Qed.

Lemma get_in_keys {V : Type} (k : string) (d : Dict.t V) :
  In k (Dict.keys d) <-> exists v, Dict.get k d = Some v.
Proof.
  induction d as [|[k' v'] d IH]; simpl.
  - split; [contradiction|intros [v H]; discriminate].
  - destruct (String.eqb_spec k' k) as [->|Hk].
    + split; eauto.
    + rewrite <- IH. split; [intros [H|H]; [contradiction|exact H]|auto].
Qed.

(** * The claims *)

(** C1, amended.  Copy conservation.  Along every history of
    [borrow_book] and [return_book] calls, from any state, a book of the
    catalog stays in the catalog and its quantity plus the number of
    outstanding records that reference its isbn, summed over all
    borrowers, keeps its value.  Along a history of [add_book],
    [borrow_book] and [return_book] calls that starts from a state that
    neither stocks nor lends the isbn, that value is the sum of the
    quantities added for the isbn. *)
Theorem copy_conservation (isoformat : datetime -> string) (cs : list call)
    (s : Library.t) (i : string) :
  (forall book,
      forallb is_loan_call cs = true ->
      Dict.get i (Library.books_by_isbn s) = Some book ->
      exists book',
        Dict.get i (Library.books_by_isbn (run isoformat cs s)) = Some book' /\
        Book.quantity book' + outstanding i (run isoformat cs s) =
        Book.quantity book + outstanding i s) /\
  (forall book',
      forallb is_stock_call cs = true ->
      Dict.get i (Library.books_by_isbn s) = None ->
      outstanding i s = 0 ->
      Dict.get i (Library.books_by_isbn (run isoformat cs s)) = Some book' ->
      Book.quantity book' + outstanding i (run isoformat cs s) = added isoformat i cs s).
Proof.
  split.
  - intros book Hcs Hi.
    assert (Hin : In i (Dict.keys (Library.books_by_isbn (run isoformat cs s)))).
    { rewrite keys_run_loans by exact Hcs. apply get_in_keys. eauto. }
    apply get_in_keys in Hin as [book' Hi']. exists book'. split; [exact Hi'|].
    pose proof (copies_run isoformat cs s i (loan_call_is_stock_call cs Hcs)) as H.
    rewrite (added_loan_calls isoformat cs s i Hcs) in H.
    unfold copies, on_shelf in H. rewrite Hi, Hi' in H. lia.
  - intros book' Hcs Hi Ho Hi'.
    pose proof (copies_run isoformat cs s i Hcs) as H.
    unfold copies, on_shelf in H. rewrite Hi, Hi', Ho in H. lia.
Qed.

(** C1, counterexample.  Two copies are added under a new isbn and
    [update_book] sets the quantity to ten.  Along the loans that follow
    the quantity plus the outstanding records is ten, before them and
    after them, while the quantities added for the isbn sum to two. *)
Lemma copies_after_update_book :
  forallb is_loan_call sample_loans = true /\
  Dict.get "111"
    (Library.books_by_isbn (run sample_isoformat sample_recount sample_unstocked)) =
    Some (Book.mk "T" "A" "111" "G" 10) /\
  outstanding "111" (run sample_isoformat sample_recount sample_unstocked) = 0 /\
  Dict.get "111"
    (Library.books_by_isbn
       (run sample_isoformat (sample_recount ++ sample_loans) sample_unstocked)) =
    Some (Book.mk "T" "A" "111" "G" 8) /\
  outstanding "111"
    (run sample_isoformat (sample_recount ++ sample_loans) sample_unstocked) = 2 /\
  added sample_isoformat "111" (sample_recount ++ sample_loans) sample_unstocked = 2 /\
  8 + 2 <> added sample_isoformat "111" (sample_recount ++ sample_loans) sample_unstocked.
Proof.
  repeat split. discriminate.
Qed.

(** C3, counterexample.  With a loan period of ten million days the due
    date lies after [datetime.max]: the borrower and the book are known and
    two copies are on the shelf, and [borrow_book] raises [OverflowError]
    and leaves the library as it was. *)
Lemma borrow_book_due_date_out_of_range :
  Dict.get "m1" (Library.borrowers_by_id sample_long_loans) = Some sample_borrower /\
  Dict.get "111" (Library.books_by_isbn sample_long_loans) = Some sample_book /\
  0 < Book.quantity sample_book /\
  Library.borrow_book 63839664000000000 "m1" "111" sample_long_loans =
    (Raise OverflowError, sample_long_loans).
Proof.
  repeat split.
Qed.

(** C3, amended.  A successful [borrow_book].  When the borrower and the
    book are known, the book has a positive quantity, the loan period is at
    most 999999999 days either way and the time of the call plus
    [loan_days] days falls between [datetime.min] and [datetime.max], the
    call returns the record whose isbn is the one given, whose
    [borrowed_on] is the time of the call and whose [due_date] is that time
    plus [loan_days] days; that record is appended at the end of the
    borrower's loan sequence, the quantity of the book goes down by one,
    and no other book, borrower or setting changes. *)
Theorem borrow_book_success (s : Library.t) (now : Z) (m i : string)
    (borrower : Borrower.t) (book : Book.t) :
  Dict.get m (Library.borrowers_by_id s) = Some borrower ->
  Dict.get i (Library.books_by_isbn s) = Some book ->
  0 < Book.quantity book ->
  Z.abs (Library.loan_days s) <= 999999999 ->
  0 <= now + Library.loan_days s * 86400000000 <= datetime_max ->
  let record :=
    BorrowedRecord.mk i (Naive now) (Naive (now + Library.loan_days s * 86400000000)) in
  let s' := snd (Library.borrow_book now m i s) in
  fst (Library.borrow_book now m i s) = Return record /\
  Dict.get m (Library.borrowers_by_id s') =
    Some (Borrower.mk (Borrower.name borrower) (Borrower.contact borrower)
            (Borrower.membership_id borrower)
            (Borrower.borrowed_books borrower ++ [record])) /\
  Dict.get i (Library.books_by_isbn s') =
    Some (Book.mk (Book.title book) (Book.author book) (Book.isbn book)
            (Book.genre book) (Book.quantity book - 1)) /\
  (forall i', i' <> i ->
     Dict.get i' (Library.books_by_isbn s') = Dict.get i' (Library.books_by_isbn s)) /\
  (forall m', m' <> m ->
     Dict.get m' (Library.borrowers_by_id s') = Dict.get m' (Library.borrowers_by_id s)) /\
  Dict.keys (Library.books_by_isbn s') = Dict.keys (Library.books_by_isbn s) /\
  Dict.keys (Library.borrowers_by_id s') = Dict.keys (Library.borrowers_by_id s) /\
  Library.loan_days s' = Library.loan_days s.
Proof.
  intros Hm Hi Hq Hdays Hrange record s'. subst s'.
  assert (Hd : due_date_after (Naive now) (Library.loan_days s) =
               Some (Naive (now + Library.loan_days s * 86400000000)))
    by (apply due_date_after_naive; auto).
  rewrite (borrow_book_ok s now m i borrower book _ Hm Hi Hq Hd).
  cbn [fst snd Library.books_by_isbn Library.borrowers_by_id Library.loan_days].
  repeat split.
  - apply get_set_same.
  - apply get_set_same.
  - intros i' Hne. now apply get_set_other.
  - intros m' Hne. now apply get_set_other.
  - exact (keys_set_present _ _ _ _ Hi).
  - exact (keys_set_present _ _ _ _ Hm).
Qed.

(** C4.  No copy left.  When the borrower and the book are known and the
    quantity of the book is zero or less, [borrow_book] raises the
    [ValueError] "No copies available" and the state is the one before the
    call. *)
Theorem borrow_book_no_copies (s : Library.t) (now : Z) (m i : string)
    (borrower : Borrower.t) (book : Book.t) :
  Dict.get m (Library.borrowers_by_id s) = Some borrower ->
  Dict.get i (Library.books_by_isbn s) = Some book ->
  Book.quantity book <= 0 ->
  Library.borrow_book now m i s = (Raise (ValueError "No copies available"), s).
Proof.
  intros Hm Hi Hq. unfold Library.borrow_book. rewrite Hm, Hi.
  destruct (Z.leb_spec (Book.quantity book) 0); [reflexivity|lia].
Qed.

(** A successful [return_book].  When the borrower and the book are known,
    the loan sequence has a record with the isbn and the due dates of the
    records with the isbn are naive (as every due date that [borrow_book]
    makes is), the sequence splits at its first such record [r]: the call
    takes out that occurrence and no other, adds one to the quantity of
    the book, changes nothing else, and returns [returned = true],
    [overdue = (now > due_date r)] and the rendering of [due_date r]. *)
Theorem return_book_naive_due_date (isoformat : datetime -> string) (s : Library.t)
    (now : Z) (m i : string) (borrower : Borrower.t) (book : Book.t)
    (x : BorrowedRecord.t) :
  Dict.get m (Library.borrowers_by_id s) = Some borrower ->
  Dict.get i (Library.books_by_isbn s) = Some book ->
  In x (Borrower.borrowed_books borrower) ->
  BorrowedRecord.isbn x = i ->
  (forall y, In y (Borrower.borrowed_books borrower) -> BorrowedRecord.isbn y = i ->
     exists due, BorrowedRecord.due_date y = Naive due) ->
  let s' := snd (Library.return_book isoformat now m i s) in
  exists l1 r l2 due,
    Borrower.borrowed_books borrower = (l1 ++ r :: l2)%list /\
    (forall y, In y l1 -> BorrowedRecord.isbn y <> i) /\
    BorrowedRecord.isbn r = i /\
    BorrowedRecord.due_date r = Naive due /\
    fst (Library.return_book isoformat now m i s) =
      Return (Library.mk_receipt true (now >? due) (isoformat (Naive due))) /\
    Dict.get m (Library.borrowers_by_id s') =
      Some (Borrower.mk (Borrower.name borrower) (Borrower.contact borrower)
              (Borrower.membership_id borrower) (l1 ++ l2)) /\
    Dict.get i (Library.books_by_isbn s') =
      Some (Book.mk (Book.title book) (Book.author book) (Book.isbn book)
              (Book.genre book) (Book.quantity book + 1)) /\
    (forall i', i' <> i ->
       Dict.get i' (Library.books_by_isbn s') = Dict.get i' (Library.books_by_isbn s)) /\
    (forall m', m' <> m ->
       Dict.get m' (Library.borrowers_by_id s') = Dict.get m' (Library.borrowers_by_id s)) /\
    Dict.keys (Library.books_by_isbn s') = Dict.keys (Library.books_by_isbn s) /\
    Dict.keys (Library.borrowers_by_id s') = Dict.keys (Library.borrowers_by_id s) /\
    Library.loan_days s' = Library.loan_days s.
Proof.
  intros Hm Hi Hx Hxi Hnaive s'. subst s'.
  destruct (find_record_some i _ x Hx Hxi) as [r Hf].
  destruct (find_record_first _ _ _ Hf) as (l1 & l2 & Hl & Hl1 & Hr & _).
  destruct (Hnaive r) as [due Hdue]; [rewrite Hl; apply in_elt|exact Hr|].
  exists l1, r, l2, due.
  rewrite (return_book_ok isoformat s now m i borrower book l1 l2 r due Hm Hi Hl Hl1 Hr Hdue).
  cbn [fst snd Library.books_by_isbn Library.borrowers_by_id Library.loan_days].
  repeat split; auto.
  - apply get_set_same.
  - apply get_set_same.
  - intros i' Hne. now apply get_set_other.
  - intros m' Hne. now apply get_set_other.
  - exact (keys_set_present _ _ _ _ Hi).
  - exact (keys_set_present _ _ _ _ Hm).
Qed.

(** [return_book] on a record whose due date carries an offset: the
    record is taken out and the copy is back on the shelf when the
    comparison with the naive time of the call raises [TypeError]. *)
Lemma return_book_aware_due_date (isoformat : datetime -> string) (s : Library.t)
    (now : Z) (m i : string) (borrower : Borrower.t) (book : Book.t)
    (l1 l2 : list BorrowedRecord.t) (r : BorrowedRecord.t) (t utcoffset : Z) :
  Dict.get m (Library.borrowers_by_id s) = Some borrower ->
  Dict.get i (Library.books_by_isbn s) = Some book ->
  Borrower.borrowed_books borrower = (l1 ++ r :: l2)%list ->
  (forall x, In x l1 -> BorrowedRecord.isbn x <> i) ->
  BorrowedRecord.isbn r = i ->
  BorrowedRecord.due_date r = Aware t utcoffset ->
  Library.return_book isoformat now m i s =
  (Raise TypeError,
   Library.mk
     (Dict.set i (Book.set_quantity (Book.quantity book + 1) book) (Library.books_by_isbn s))
     (Dict.set m (Borrower.set_borrowed_books (l1 ++ l2) borrower) (Library.borrowers_by_id s))
     (Library.loan_days s)).
Proof.
  intros Hm Hi Hl Hl1 Hr Hd.
  rewrite (return_book_found isoformat s now m i borrower book l1 l2 r Hm Hi Hl Hl1 Hr).
  now rewrite Hd.
Qed.

(** C5, the failing call.  The loader accepts a data file in which the
    due date of a loan carries a UTC offset.  On the library it builds,
    the borrower and the book are known and the borrower holds a record
    for the isbn, and [return_book] raises [TypeError] where it should
    return its receipt: the record is gone and the quantity is up by one
    when the exception leaves the call. *)
Theorem return_book_offset_due_date :
  Persistence.load_data sample_fromisoformat sample_uuid8 14 sample_offset_file =
    Loaded sample_offset_library /\
  Dict.get "m1" (Library.borrowers_by_id sample_offset_library) =
    Some (Borrower.mk "Alice" "alice@example.com" "m1"
            [BorrowedRecord.mk "111" (Naive 1000) (Aware 8 0)]) /\
  Dict.get "111" (Library.books_by_isbn sample_offset_library) =
    Some (Book.mk "T" "A" "111" "G" 1) /\
  Library.return_book sample_isoformat 3000 "m1" "111" sample_offset_library =
    (Raise TypeError,
     Library.mk [("111", Book.mk "T" "A" "111" "G" 2)]
       [("m1", Borrower.mk "Alice" "alice@example.com" "m1" [])] 14).
Proof.
  repeat split.
Qed.

(** C6.  Nothing to return.  When the borrower and the book are known and
    no record of the loan sequence has the isbn, [return_book] raises the
    [ValueError] "This borrower did not borrow this book" and the state is
    the one before the call. *)
Theorem return_book_not_borrowed (isoformat : datetime -> string) (s : Library.t)
    (now : Z) (m i : string) (borrower : Borrower.t) (book : Book.t) :
  Dict.get m (Library.borrowers_by_id s) = Some borrower ->
  Dict.get i (Library.books_by_isbn s) = Some book ->
  (forall x, In x (Borrower.borrowed_books borrower) -> BorrowedRecord.isbn x <> i) ->
  Library.return_book isoformat now m i s =
  (Raise (ValueError "This borrower did not borrow this book"), s).
Proof.
  intros Hm Hi Hnone. unfold Library.return_book. rewrite Hm, Hi.
  now rewrite (find_record_none i _ Hnone).
Qed.

(** ** Adding the same isbn twice *)

(** C7, counterexample.  One copy is added under a new isbn, then the same
    isbn is added with quantity -2: the second call is refused by the check
    of [Book.update] and the book keeps one copy, not [1 + -2]. *)
Lemma add_book_twice_negative_sum :
  let r := add_book_twice "T" "A" "G" "T2" "A2" "G2" "111" 1 (-2) (Library.init 14) in
  fst r = Raise (ValueError "Quantity cannot be negative") /\
  Dict.get "111" (Library.books_by_isbn (snd r)) = Some (Book.mk "T" "A" "111" "G" 1) /\
  Dict.get "111" (Library.books_by_isbn (snd r)) <>
    Some (Book.mk "T" "A" "111" "G" (1 + -2)).
Proof.
  cbv. repeat split. discriminate.
Qed.

(** C7, amended.  [add_book] called twice on an isbn that the catalog does
    not hold, with quantities whose sum is not negative: both calls return,
    the catalog holds one entry under the isbn, and that entry has the
    title, author and genre of the first call and the quantity [q1 + q2]. *)
Theorem add_book_twice_accumulates (s : Library.t) (t1 a1 g1 t2 a2 g2 i : string)
    (q1 q2 : Z) :
  Dict.get i (Library.books_by_isbn s) = None ->
  0 <= q1 + q2 ->
  let r := add_book_twice t1 a1 g1 t2 a2 g2 i q1 q2 s in
  fst (Library.add_book t1 a1 i g1 q1 s) = Return (Book.mk t1 a1 i g1 q1) /\
  fst r = Return (Book.mk t1 a1 i g1 (q1 + q2)) /\
  Dict.get i (Library.books_by_isbn (snd r)) = Some (Book.mk t1 a1 i g1 (q1 + q2)) /\
  entries i (Library.books_by_isbn (snd r)) = 1%nat.
Proof.
  intros Hi Hq r. subst r. unfold add_book_twice.
  rewrite (add_book_absent s t1 a1 i g1 q1 Hi). cbn [fst snd].
  assert (H1 : Dict.get i (Library.books_by_isbn
                 (Library.set_books
                    (Dict.set i (Book.mk t1 a1 i g1 q1) (Library.books_by_isbn s)) s))
               = Some (Book.mk t1 a1 i g1 q1)).
  { cbn [Library.set_books Library.books_by_isbn]. apply get_set_same. }
  rewrite (add_book_present _ t2 a2 i g2 q2 _ H1).
  cbn [Book.quantity].
  destruct (Z.ltb_spec (q1 + q2) 0); [lia|].
  cbn [fst snd Library.set_books Library.books_by_isbn Book.set_quantity
       Book.title Book.author Book.isbn Book.genre].
  repeat split.
  - apply get_set_same.
  - rewrite (entries_set_present i _ (Book.mk t1 a1 i g1 q1)).
    + now apply entries_set_absent.
    + apply get_set_same.
Qed.

(** ** Searching *)

Lemma lower_truthy (s : string) : Str.truthy (Str.lower s) = Str.truthy s.
Proof. now destruct s. Qed.

Lemma truthy_nonempty (s : string) : s <> "" -> Str.truthy s = true.
Proof. destruct s; [congruence|reflexivity]. Qed.

Lemma matches_unrecognized (q field : string) (book : Book.t) :
  recognized_field field = false ->
  Library.matches q field book = negb (Str.truthy q).
Proof.
  unfold recognized_field, Library.matches. intros H.
  apply orb_false_elim in H as [H Hg]. apply orb_false_elim in H as [Ht Ha].
  rewrite Ht, Ha, Hg. now destruct (Str.truthy q).
Qed.

(** A blank query selects the whole catalog, in catalog order, whatever
    the field. *)
Lemma search_books_blank (query field : string) (s : Library.t) :
  Str.strip query = "" ->
  Library.search_books query field s = Library.list_books s.
Proof.
  intros H. unfold Library.search_books, Library.list_books. rewrite H.
  induction (Dict.values (Library.books_by_isbn s)) as [|b l IH]; simpl; [reflexivity|].
  now f_equal.
Qed.

(** The no-break space is white space for [str.strip]: a query made of it
    is blank and selects the whole catalog under any field name. *)
Lemma search_books_no_break_space :
  Str.strip (String (ascii_of_nat 160) "") = "" /\
  Library.search_books (String (ascii_of_nat 160) "") "isbn" sample_library = [sample_book].
Proof.
  split; reflexivity.
Qed.

(** [str.lower] reaches the accented capitals of Latin-1: the word CAFE
    with E acute (U+00C9) becomes cafe with e acute (U+00E9). *)
Lemma lower_accented_capital :
  Str.lower (String "C" (String "A" (String "F" (String (ascii_of_nat 201) "")))) =
  String "c" (String "a" (String "f" (String (ascii_of_nat 233) ""))).
Proof.
  reflexivity.
Qed.

(** C8, counterexample.  On a catalog of one book, the empty query under
    the field "isbn" selects that book. *)
Lemma search_books_blank_unrecognized :
  recognized_field "isbn" = false /\
  Library.search_books "" "isbn" sample_library = [sample_book] /\
  Library.search_books "" "isbn" sample_library <> [].
Proof.
  cbv. repeat split. discriminate.
Qed.

(** C8, amended.  For a query that is not blank (something is left once
    the surrounding white space is stripped), [search_books] with a field
    other than "title", "author" and "genre" selects no book; the call is a
    total function and raises nothing. *)
Theorem search_books_unrecognized_field (query field : string) (s : Library.t) :
  recognized_field field = false ->
  Str.strip query <> "" ->
  Library.search_books query field s = [].
Proof.
  intros Hf Hq. unfold Library.search_books.
  induction (Dict.values (Library.books_by_isbn s)) as [|b l IH]; simpl; [reflexivity|].
  rewrite (matches_unrecognized _ _ _ Hf), lower_truthy, (truthy_nonempty _ Hq).
  exact IH.
Qed.

(** ** Updating a book *)

(** [update_book] with a negative quantity on a known isbn: the call is
    refused, and the book left in the catalog carries the text fields that
    came with the call. *)
Lemma update_book_refused (s : Library.t) (i : string) (title author genre : option string)
    (q : Z) (book : Book.t) :
  Dict.get i (Library.books_by_isbn s) = Some book ->
  q < 0 ->
  Library.update_book i title author genre (Some q) s =
  (Raise (ValueError "Quantity cannot be negative"),
   Library.set_books
     (Dict.set i
        (Book.assign Book.set_genre genre
           (Book.assign Book.set_author author
              (Book.assign Book.set_title title book)))
        (Library.books_by_isbn s)) s).
Proof.
  intros Hi Hq. unfold Library.update_book, Book.update. rewrite Hi.
  destruct (Z.ltb_spec q 0); [reflexivity|lia].
Qed.

(** C9, the failing call.  [update_book] with a new title and the quantity
    -1 on the sample book: the call raises the [ValueError], the quantity
    is the old one, and the title stored in the catalog is the new one. *)
Theorem update_book_refused_keeps_title :
  let r := Library.update_book "111" (Some "X") None None (Some (-1)) sample_library in
  fst r = Raise (ValueError "Quantity cannot be negative") /\
  Dict.get "111" (Library.books_by_isbn sample_library) =
    Some (Book.mk "T" "A" "111" "G" 2) /\
  Dict.get "111" (Library.books_by_isbn (snd r)) = Some (Book.mk "X" "A" "111" "G" 2) /\
  snd r <> sample_library.
Proof.
  cbv. repeat split. discriminate.
Qed.

(** ** Registering a borrower *)

(** C10.  [add_borrower] returns on every input, and the borrower it
    returns has no loans.  Called with a non-empty membership id that is
    already registered, it stores the new borrower, with an empty loan
    sequence, in the place of the old one: the records of the old borrower
    leave the count of outstanding loans, and the catalog, the other
    borrowers and the order of the borrowers are as before. *)
Theorem add_borrower_overwrites (uuid8 name contact : string)
    (membership_id : option string) (s : Library.t) :
  let r := Library.add_borrower uuid8 name contact membership_id s in
  (exists borrower, fst r = Return borrower /\ Borrower.borrowed_books borrower = []) /\
  (forall m old,
      membership_id = Some m ->
      m <> "" ->
      Dict.get m (Library.borrowers_by_id s) = Some old ->
      fst r = Return (Borrower.mk name contact m []) /\
      Dict.get m (Library.borrowers_by_id (snd r)) = Some (Borrower.mk name contact m []) /\
      (forall m', m' <> m ->
         Dict.get m' (Library.borrowers_by_id (snd r)) =
         Dict.get m' (Library.borrowers_by_id s)) /\
      Dict.keys (Library.borrowers_by_id (snd r)) = Dict.keys (Library.borrowers_by_id s) /\
      (forall i,
         outstanding i (snd r) =
         outstanding i s - loans_of i (Borrower.borrowed_books old)) /\
      Library.books_by_isbn (snd r) = Library.books_by_isbn s /\
      Library.loan_days (snd r) = Library.loan_days s).
Proof.
  intros r. subst r. unfold Library.add_borrower. cbn [fst snd]. split.
  - eexists. split; reflexivity.
  - intros m old -> Hm Hold.
    unfold Borrower.new. rewrite (truthy_nonempty m Hm).
    cbn [Borrower.membership_id Library.set_borrowers Library.borrowers_by_id
         Library.books_by_isbn Library.loan_days].
    repeat split.
    + apply get_set_same.
    + intros m' Hne. now apply get_set_other.
    + exact (keys_set_present _ _ _ _ Hold).
    + intros i. unfold outstanding.
      cbn [Library.borrowers_by_id Library.set_borrowers].
      rewrite (sumZ_set_present _ _ _ _ _ Hold).
      cbn [Borrower.borrowed_books]. rewrite loans_of_nil. lia.
Qed.

(** ** The sign of the quantities *)

Section ValuesFacts.

Context {V : Type} (P : V -> Prop).

Lemma Forall_values_set (k : string) (v : V) (d : Dict.t V) :
  Forall P (Dict.values d) -> P v -> Forall P (Dict.values (Dict.set k v d)).
Proof.
  intros Hd Hv. induction d as [|[k' v'] d IH]; simpl.
  - now constructor.
  - inversion Hd; subst.
    destruct (k' =? k)%string; simpl; constructor; auto.
Qed.

Lemma Forall_values_del (k : string) (d : Dict.t V) :
  Forall P (Dict.values d) -> Forall P (Dict.values (Dict.del k d)).
Proof.
  intros Hd. induction d as [|[k' v'] d IH]; simpl; [constructor|].
  inversion Hd; subst.
  destruct (k' =? k)%string; simpl; [assumption|constructor; auto].
Qed.

Lemma Forall_values_get (k : string) (v : V) (d : Dict.t V) :
  Forall P (Dict.values d) -> Dict.get k d = Some v -> P v.
Proof.
  intros Hd. induction d as [|[k' v'] d IH]; simpl; [discriminate|].
  inversion Hd; subst.
  destruct (k' =? k)%string; [intros [= <-]; assumption|auto].
Qed.

End ValuesFacts.

(** [Book.update] never stores a negative quantity in a book that had
    none. *)
Lemma update_quantity_nonneg (title author genre : option string) (quantity : option Z)
    (book : Book.t) :
  0 <= Book.quantity book ->
  0 <= Book.quantity (snd (Book.update title author genre quantity book)).
Proof.
  intros H. unfold Book.update.
  destruct title, author, genre, quantity as [q|]; cbn [Book.assign];
    try destruct (Z.ltb_spec q 0); cbn [snd]; cbn; lia.
Qed.

(** Every call other than an [add_book] with a negative quantity keeps the
    quantities non-negative. *)
Lemma quantities_nonneg_exec (isoformat : datetime -> string) (c : call) (s : Library.t) :
  adds_nonneg c = true ->
  quantities_nonneg s -> quantities_nonneg (snd (exec isoformat c s)).
Proof.
  unfold quantities_nonneg. intros Hc Hs.
  destruct c as [t a i g q|i t a g q|i|u n c m|m n c|m|now m i|now m i];
    unfold exec, outcome; cbn [snd].
  - simpl in Hc. apply Z.leb_le in Hc.
    destruct (Dict.get i (Library.books_by_isbn s)) as [book|] eqn:Hi.
    + rewrite (add_book_present _ _ _ _ _ _ _ Hi).
      destruct (Z.ltb_spec (Book.quantity book + q) 0); cbn [snd]; [assumption|].
      apply Forall_values_set; [assumption|]. cbn. lia.
    + rewrite (add_book_absent _ _ _ _ _ _ Hi). cbn [snd].
      apply Forall_values_set; [assumption|]. cbn. lia.
  - unfold Library.update_book.
    destruct (Dict.get i (Library.books_by_isbn s)) as [book|] eqn:Hi; [|assumption].
    pose proof (update_quantity_nonneg t a g q book
                  (Forall_values_get _ _ _ _ Hs Hi)) as Hu.
    destruct (Book.update t a g q book) as [[u|e] book']; cbn [snd] in *;
      apply Forall_values_set; assumption.
  - unfold Library.remove_book.
    destruct (Dict.mem i (Library.books_by_isbn s)); cbn [negb snd]; [|assumption].
    now apply Forall_values_del.
  - assumption.
  - unfold Library.update_borrower.
    destruct (Dict.get m (Library.borrowers_by_id s)); assumption.
  - unfold Library.remove_borrower.
    destruct (Dict.mem m (Library.borrowers_by_id s)); assumption.
  - destruct (borrow_book_state s now m i)
      as [->|(borrower & book & due & Hm & Hi & Hq & ->)]; [assumption|].
    cbn [Library.books_by_isbn].
    apply Forall_values_set; [assumption|]. cbn. lia.
  - destruct (return_book_state isoformat s now m i)
      as [->|(borrower & book & l1 & r & l2 & Hm & Hi & _ & _ & ->)]; [assumption|].
    cbn [Library.books_by_isbn].
    apply Forall_values_set; [assumption|].
    pose proof (Forall_values_get _ _ _ _ Hs Hi). cbn in *. lia.
Qed.

(** From the empty library, histories without an [add_book] of a negative
    quantity reach only states with non-negative quantities. *)
Lemma quantities_nonneg_run (isoformat : datetime -> string) (cs : list call)
    (s : Library.t) :
  forallb adds_nonneg cs = true ->
  quantities_nonneg s -> quantities_nonneg (run isoformat cs s).
Proof.
  revert s. induction cs as [|c cs IH]; intros s H Hs; simpl; [assumption|].
  simpl in H. apply andb_prop in H as [Hc Hcs].
  apply IH; [assumption|]. now apply quantities_nonneg_exec.
Qed.

(** C2, the failing call.  On the empty library, [add_book] with the
    quantity -1 returns and leaves a book with the quantity -1 in the
    catalog, while [add_book] on an isbn of the catalog goes through the
    check of [Book.update] and refuses a negative result. *)
Theorem add_book_stores_negative_quantity :
  let r := Library.add_book "T" "A" "111" "G" (-1) (Library.init 14) in
  fst r = Return (Book.mk "T" "A" "111" "G" (-1)) /\
  Dict.get "111" (Library.books_by_isbn (snd r)) = Some (Book.mk "T" "A" "111" "G" (-1)) /\
  ~ quantities_nonneg (snd r) /\
  Library.add_book "T" "A" "111" "G" (-3) sample_library =
    (Raise (ValueError "Quantity cannot be negative"), sample_library).
Proof.
  intros r. split; [reflexivity|]. split; [reflexivity|]. split; [|reflexivity].
  unfold quantities_nonneg. intros H. inversion H as [|book l Hq Hl]; subst.
  cbn in Hq. lia.
Qed.

(** * Instances on the sample data *)

(** The scenario of the specification's test list: two copies are added,
    both are borrowed, a third borrow is refused, and an immediate return
    brings one copy back and is not overdue. *)
Example scenario_two_copies :
  let s0 := snd (Library.add_book "T" "A" "111" "G" 2 sample_unstocked) in
  let s1 := snd (Library.borrow_book 1000 "m1" "111" s0) in
  let s2 := snd (Library.borrow_book 2000 "m1" "111" s1) in
  let r3 := Library.borrow_book 2500 "m1" "111" s2 in
  let r4 := Library.return_book sample_isoformat 3000 "m1" "111" (snd r3) in
  Library.availability "111" s0 = Return (Library.mk_report "111" 2) /\
  Library.availability "111" s2 = Return (Library.mk_report "111" 0) /\
  r3 = (Raise (ValueError "No copies available"), s2) /\
  Library.availability "111" (snd r4) = Return (Library.mk_report "111" 1) /\
  fst r4 = Return (Library.mk_receipt true false "1209600001000").
Proof.
  repeat split.
Qed.

Lemma copy_conservation_witness :
  (forallb is_loan_call sample_loans = true /\
   Dict.get "111" (Library.books_by_isbn sample_library) = Some sample_book /\
   exists book',
     Dict.get "111"
       (Library.books_by_isbn (run sample_isoformat sample_loans sample_library))
       = Some book' /\
     Book.quantity book' + outstanding "111" (run sample_isoformat sample_loans sample_library)
       = Book.quantity sample_book + outstanding "111" sample_library) /\
  (forallb is_stock_call sample_history = true /\
   Dict.get "111" (Library.books_by_isbn sample_unstocked) = None /\
   outstanding "111" sample_unstocked = 0 /\
   Book.quantity (Book.mk "T" "A" "111" "G" 4)
     + outstanding "111" (run sample_isoformat sample_history sample_unstocked)
     = added sample_isoformat "111" sample_history sample_unstocked).
Proof.
  split.
  - split; [reflexivity|]. split; [reflexivity|].
    apply (proj1 (copy_conservation sample_isoformat sample_loans sample_library "111"));
      reflexivity.
  - split; [reflexivity|]. split; [reflexivity|]. split; [reflexivity|].
    apply (proj2 (copy_conservation sample_isoformat sample_history sample_unstocked "111"));
      reflexivity.
Defined.

Lemma borrow_book_success_witness :
  Dict.get "m1" (Library.borrowers_by_id sample_library) = Some sample_borrower /\
  Dict.get "111" (Library.books_by_isbn sample_library) = Some sample_book /\
  0 < Book.quantity sample_book /\
  fst (Library.borrow_book 1000 "m1" "111" sample_library) = Return sample_record_1 /\
  Dict.get "111" (Library.books_by_isbn (snd (Library.borrow_book 1000 "m1" "111" sample_library)))
    = Some (Book.mk "T" "A" "111" "G" 1).
Proof.
  split; [reflexivity|]. split; [reflexivity|]. split; [reflexivity|].
  assert (Hdays : Z.abs (Library.loan_days sample_library) <= 999999999)
    by (simpl; lia).
  assert (Hrange : 0 <= 1000 + Library.loan_days sample_library * 86400000000 <= datetime_max)
    by (unfold datetime_max; simpl; lia).
  pose proof (borrow_book_success sample_library 1000 "m1" "111" sample_borrower sample_book
                eq_refl eq_refl eq_refl Hdays Hrange) as H.
  cbv zeta in H. destruct H as (H1 & _ & H3 & _). split; [exact H1|exact H3].
Defined.

Lemma borrow_book_no_copies_witness :
  Dict.get "111" (Library.books_by_isbn sample_lent) = Some (Book.mk "T" "A" "111" "G" 0) /\
  Library.borrow_book 2500 "m1" "111" sample_lent =
    (Raise (ValueError "No copies available"), sample_lent).
Proof.
  split; [reflexivity|].
  apply (borrow_book_no_copies sample_lent 2500 "m1" "111"
           sample_lent_borrower
           (Book.mk "T" "A" "111" "G" 0)).
  - reflexivity.
  - reflexivity.
  - simpl. lia.
Defined.

Lemma return_book_naive_due_date_witness :
  exists l1 r l2 due,
    [sample_record_1; sample_record_2] = (l1 ++ r :: l2)%list /\
    (forall y, In y l1 -> BorrowedRecord.isbn y <> "111") /\
    BorrowedRecord.due_date r = Naive due /\
    fst (Library.return_book sample_isoformat 3000 "m1" "111" sample_lent) =
      Return (Library.mk_receipt true (3000 >? due) (sample_isoformat (Naive due))) /\
    Dict.get "111"
      (Library.books_by_isbn
         (snd (Library.return_book sample_isoformat 3000 "m1" "111" sample_lent)))
      = Some (Book.mk "T" "A" "111" "G" 1).
Proof.
  pose proof (return_book_naive_due_date sample_isoformat sample_lent 3000 "m1" "111"
                sample_lent_borrower (Book.mk "T" "A" "111" "G" 0) sample_record_2
                eq_refl eq_refl (or_intror (or_introl eq_refl)) eq_refl) as H.
  cbv zeta in H.
  destruct H as (l1 & r & l2 & due & Hl & Hl1 & _ & Hdue & Hret & _ & Hbook & _).
  - intros y [<-|[<-|[]]] _; eexists; reflexivity.
  - exists l1, r, l2, due. repeat split; assumption.
Defined.

Lemma return_book_not_borrowed_witness :
  Dict.get "m1" (Library.borrowers_by_id sample_library) = Some sample_borrower /\
  Dict.get "111" (Library.books_by_isbn sample_library) = Some sample_book /\
  Library.return_book sample_isoformat 3000 "m1" "111" sample_library =
    (Raise (ValueError "This borrower did not borrow this book"), sample_library).
Proof.
  split; [reflexivity|]. split; [reflexivity|].
  apply (return_book_not_borrowed sample_isoformat sample_library 3000 "m1" "111"
           sample_borrower sample_book).
  - reflexivity.
  - reflexivity.
  - intros x Hx. destruct Hx.
Defined.

Lemma add_book_twice_accumulates_witness :
  Dict.get "111" (Library.books_by_isbn sample_unstocked) = None /\
  0 <= 2 + 3 /\
  Dict.get "111"
    (Library.books_by_isbn
       (snd (add_book_twice "T" "A" "G" "T2" "A2" "G2" "111" 2 3 sample_unstocked)))
    = Some (Book.mk "T" "A" "111" "G" (2 + 3)) /\
  entries "111"
    (Library.books_by_isbn
       (snd (add_book_twice "T" "A" "G" "T2" "A2" "G2" "111" 2 3 sample_unstocked)))
    = 1%nat.
Proof.
  split; [reflexivity|]. split; [lia|].
  pose proof (add_book_twice_accumulates sample_unstocked "T" "A" "G" "T2" "A2" "G2" "111" 2 3
                eq_refl) as H.
  cbv zeta in H. destruct H as (_ & _ & Hget & Hone); [lia|].
  split; [exact Hget|exact Hone].
Defined.

Lemma search_books_unrecognized_field_witness :
  recognized_field "isbn" = false /\
  Str.strip " T " <> "" /\
  Library.search_books " T " "title" sample_library = [sample_book] /\
  Library.search_books " T " "isbn" sample_library = [].
Proof.
  split; [reflexivity|]. split; [discriminate|]. split; [reflexivity|].
  apply (search_books_unrecognized_field " T " "isbn" sample_library).
  - reflexivity.
  - discriminate.
Defined.

Lemma add_borrower_overwrites_witness :
  "m1" <> "" /\
  Dict.get "m1" (Library.borrowers_by_id sample_lent) =
    Some sample_lent_borrower /\
  Dict.get "m1"
    (Library.borrowers_by_id
       (snd (Library.add_borrower "0a1b2c3d" "Bob" "bob@example.com" (Some "m1") sample_lent)))
    = Some (Borrower.mk "Bob" "bob@example.com" "m1" []) /\
  Library.books_by_isbn
    (snd (Library.add_borrower "0a1b2c3d" "Bob" "bob@example.com" (Some "m1") sample_lent))
    = Library.books_by_isbn sample_lent.
Proof.
  split; [discriminate|]. split; [reflexivity|].
  pose proof (add_borrower_overwrites "0a1b2c3d" "Bob" "bob@example.com" (Some "m1")
                sample_lent) as H.
  cbv zeta in H. destruct H as [_ H].
  destruct (H "m1"
              sample_lent_borrower)
    as (_ & Hget & _ & _ & _ & Hbooks & _).
  - reflexivity.
  - discriminate.
  - reflexivity.
  - split; [exact Hget|exact Hbooks].
Defined.

(** * Further properties of the operations *)

(** ** Calls that raise *)

Lemma set_borrowers_same (s : Library.t) :
  Library.set_borrowers (Library.borrowers_by_id s) s = s.
Proof. now destruct s. Qed.

(** A call that raises [KeyError], [ValueError] or [OverflowError] leaves
    the library as it was, for every operation but an [update_book] that
    carries a title, an author or a genre.  (The one other exception of
    the operations, the [TypeError] of [return_book], comes after the
    library is changed.) *)
Theorem raise_leaves_state (isoformat : datetime -> string) (c : call) (s : Library.t)
    (e : exn) :
  carries_text c = false ->
  raised isoformat c s = Some e ->
  e <> TypeError ->
  snd (exec isoformat c s) = s.
Proof.
  intros Ht.
  destruct c as [t a i g q|i t a g q|i|u n c m|m n c|m|now m i|now m i];
    unfold raised, exec, outcome; cbn [fst snd].
  - destruct (Dict.get i (Library.books_by_isbn s)) as [book|] eqn:Hi.
    + rewrite (add_book_present _ _ _ _ _ _ _ Hi).
      destruct (Book.quantity book + q <? 0); [reflexivity|discriminate].
    + rewrite (add_book_absent _ _ _ _ _ _ Hi). discriminate.
  - destruct t, a, g; try discriminate.
    unfold Library.update_book, Book.update. cbn [Book.assign].
    destruct (Dict.get i (Library.books_by_isbn s)) as [book|] eqn:Hi; [|reflexivity].
    destruct q as [q|]; [|discriminate].
    destruct (q <? 0); [|discriminate].
    intros _ _. cbn [snd]. now rewrite (set_get_same _ _ _ Hi), set_books_same.
  - unfold Library.remove_book.
    destruct (Dict.mem i (Library.books_by_isbn s)); cbn [negb]; [discriminate|reflexivity].
  - discriminate.
  - unfold Library.update_borrower.
    destruct (Dict.get m (Library.borrowers_by_id s)); [discriminate|reflexivity].
  - unfold Library.remove_borrower.
    destruct (Dict.mem m (Library.borrowers_by_id s)); cbn [negb]; [discriminate|reflexivity].
  - intros H _. apply borrow_book_raise.
    now destruct (fst (Library.borrow_book now m i s)).
  - intros H He. apply (return_book_raise isoformat s now m i e); [|exact He].
    now destruct (fst (Library.return_book isoformat now m i s)) as [r|e']; inversion H.
Qed.

(** ** Keys and values stay in step *)

Section KeyedFacts.

Context {V : Type} (key_of : V -> string).
Implicit Types (d : Dict.t V) (k : string) (v : V).

Lemma get_none_keys k d : Dict.get k d = None <-> ~ In k (Dict.keys d).
Proof.
  rewrite get_in_keys. destruct (Dict.get k d) as [v|].
  - split; [discriminate|]. intros H. exfalso. apply H. eauto.
  - split; [|reflexivity]. intros _ [v H]. discriminate.
Qed.

Lemma get_In k v d : Dict.get k d = Some v -> In (k, v) d.
Proof.
  induction d as [|[k' v'] d IH]; simpl; [discriminate|].
  destruct (String.eqb_spec k' k) as [->|Hk].
  - intros [= ->]. now left.
  - intros H. right. now apply IH.
Qed.

Lemma NoDup_keys_get k v d : NoDup (Dict.keys d) -> In (k, v) d -> Dict.get k d = Some v.
Proof.
  induction d as [|[k' v'] d IH]; simpl; [contradiction|].
  intros Hnd [H|H].
  - injection H as -> ->. now rewrite String.eqb_refl.
  - inversion Hnd as [|x l Hx Hl]; subst.
    destruct (String.eqb_spec k' k) as [->|Hk].
    + exfalso. apply Hx. change k with (fst (k, v)). now apply in_map.
    + now apply IH.
Qed.

Lemma NoDup_keys_set k v d : NoDup (Dict.keys d) -> NoDup (Dict.keys (Dict.set k v d)).
Proof.
  intros Hnd. destruct (Dict.get k d) as [v0|] eqn:Hk.
  - now rewrite (keys_set_present _ _ _ _ Hk).
  - rewrite (keys_set_absent _ _ _ Hk). apply get_none_keys in Hk.
    clear v. induction (Dict.keys d) as [|x l IH]; simpl.
    + constructor; [intros []|constructor].
    + inversion Hnd as [|y l' Hx Hl]; subst. constructor.
      * rewrite in_app_iff. intros [H|[H|[]]]; [contradiction|].
        apply Hk. left. now symmetry.
      * apply IH; [assumption|]. intros H. apply Hk. now right.
Qed.

Lemma keys_del_incl k k0 d : In k0 (Dict.keys (Dict.del k d)) -> In k0 (Dict.keys d).
Proof.
  induction d as [|[k' v'] d IH]; simpl; [contradiction|].
  destruct (k' =? k)%string; simpl; [auto|]. intros [H|H]; auto.
Qed.

Lemma NoDup_keys_del k d : NoDup (Dict.keys d) -> NoDup (Dict.keys (Dict.del k d)).
Proof.
  induction d as [|[k' v'] d IH]; simpl; intros Hnd; [constructor|].
  inversion Hnd as [|x l Hx Hl]; subst.
  destruct (k' =? k)%string; simpl; [assumption|].
  constructor; [|auto]. intros H. apply Hx. exact (keys_del_incl _ _ _ H).
Qed.

(** Deleting a key of a dict without repeated keys makes the key absent. *)
Lemma get_del_same k d : NoDup (Dict.keys d) -> Dict.get k (Dict.del k d) = None.
Proof.
  induction d as [|[k' v'] d IH]; simpl; intros Hnd; [reflexivity|].
  inversion Hnd as [|x l Hx Hl]; subst.
  destruct (String.eqb_spec k' k) as [->|Hk].
  - now apply get_none_keys.
  - simpl. destruct (String.eqb_spec k' k); [contradiction|auto].
Qed.

Lemma get_del_other k k0 d : k0 <> k -> Dict.get k0 (Dict.del k d) = Dict.get k0 d.
Proof.
  intros Hne. induction d as [|[k' v'] d IH]; simpl; [reflexivity|].
  destruct (String.eqb_spec k' k) as [->|Hk]; simpl.
  - destruct (String.eqb_spec k k0); [congruence|reflexivity].
  - now rewrite IH.
Qed.

Lemma keyed_by_set k v d :
  keyed_by key_of d -> key_of v = k -> keyed_by key_of (Dict.set k v d).
Proof.
  intros [Hnd Hf] Hv. split; [now apply NoDup_keys_set|].
  clear Hnd. induction d as [|[k' v'] d IH]; simpl.
  - constructor; [exact Hv|constructor].
  - inversion Hf as [|x l Hx Hl]; subst x l. simpl in Hx.
    destruct (String.eqb_spec k' k) as [Hk|Hk]; constructor; auto.
    simpl. congruence.
Qed.

Lemma keyed_by_del k d : keyed_by key_of d -> keyed_by key_of (Dict.del k d).
Proof.
  intros [Hnd Hf]. split; [now apply NoDup_keys_del|].
  clear Hnd. induction d as [|[k' v'] d IH]; simpl; [constructor|].
  inversion Hf as [|x l Hx Hl]; subst.
  destruct (k' =? k)%string; [assumption|constructor; auto].
Qed.

Lemma keyed_by_get k v d : keyed_by key_of d -> Dict.get k d = Some v -> key_of v = k.
Proof.
  intros [_ Hf] Hk. apply get_In in Hk.
  rewrite Forall_forall in Hf. exact (Hf _ Hk).
Qed.

End KeyedFacts.

Lemma update_isbn (title author genre : option string) (quantity : option Z) (book : Book.t) :
  Book.isbn (snd (Book.update title author genre quantity book)) = Book.isbn book.
Proof.
  unfold Book.update.
  destruct title, author, genre, quantity as [q|]; cbn [Book.assign];
    try destruct (q <? 0); reflexivity.
Qed.

Lemma update_membership_id (name contact : option string) (b : Borrower.t) :
  Borrower.membership_id (Borrower.update name contact b) = Borrower.membership_id b.
Proof.
  unfold Borrower.update, Borrower.assign_truthy.
  destruct name as [n|], contact as [c|];
    try destruct (Str.truthy n); try destruct (Str.truthy c); reflexivity.
Qed.

Lemma well_keyed_exec (isoformat : datetime -> string) (c : call) (s : Library.t) :
  well_keyed s -> well_keyed (snd (exec isoformat c s)).
Proof.
  intros [Hb Hm].
  destruct c as [t a i g q|i t a g q|i|u n c m|m n c|m|now m i|now m i];
    unfold exec, outcome; cbn [snd].
  - destruct (Dict.get i (Library.books_by_isbn s)) as [book|] eqn:Hi.
    + rewrite (add_book_present _ _ _ _ _ _ _ Hi).
      destruct (Book.quantity book + q <? 0); cbn [snd]; [now split|].
      split; [|exact Hm]. cbn [Library.set_books Library.books_by_isbn].
      apply keyed_by_set; [exact Hb|]. exact (keyed_by_get _ _ _ _ Hb Hi).
    + rewrite (add_book_absent _ _ _ _ _ _ Hi). cbn [snd].
      split; [|exact Hm]. cbn [Library.set_books Library.books_by_isbn].
      now apply keyed_by_set.
  - unfold Library.update_book.
    destruct (Dict.get i (Library.books_by_isbn s)) as [book|] eqn:Hi; [|now split].
    pose proof (update_isbn t a g q book) as Hu.
    destruct (Book.update t a g q book) as [[u|e] book']; cbn [snd] in *;
      (split; [|exact Hm]); cbn [Library.set_books Library.books_by_isbn];
      (apply keyed_by_set; [exact Hb|]); rewrite Hu; exact (keyed_by_get _ _ _ _ Hb Hi).
  - unfold Library.remove_book.
    destruct (Dict.mem i (Library.books_by_isbn s)); cbn [negb snd]; [|now split].
    split; [|exact Hm]. now apply keyed_by_del.
  - split; [exact Hb|]. cbn [Library.set_borrowers Library.borrowers_by_id].
    now apply keyed_by_set.
  - unfold Library.update_borrower.
    destruct (Dict.get m (Library.borrowers_by_id s)) as [b|] eqn:Hb'; [|now split].
    split; [exact Hb|]. cbn [snd Library.set_borrowers Library.borrowers_by_id].
    apply keyed_by_set; [exact Hm|]. rewrite update_membership_id.
    exact (keyed_by_get _ _ _ _ Hm Hb').
  - unfold Library.remove_borrower.
    destruct (Dict.mem m (Library.borrowers_by_id s)); cbn [negb snd]; [|now split].
    split; [exact Hb|]. now apply keyed_by_del.
  - destruct (borrow_book_state s now m i)
      as [->|(b & book & due & Hb' & Hi & _ & ->)]; [now split|].
    split; cbn [Library.books_by_isbn Library.borrowers_by_id].
    + apply keyed_by_set; [exact Hb|]. exact (keyed_by_get _ _ _ _ Hb Hi).
    + apply keyed_by_set; [exact Hm|]. exact (keyed_by_get _ _ _ _ Hm Hb').
  - destruct (return_book_state isoformat s now m i)
      as [->|(b & book & l1 & r & l2 & Hb' & Hi & _ & _ & ->)]; [now split|].
    split; cbn [Library.books_by_isbn Library.borrowers_by_id].
    + apply keyed_by_set; [exact Hb|]. exact (keyed_by_get _ _ _ _ Hb Hi).
    + apply keyed_by_set; [exact Hm|]. exact (keyed_by_get _ _ _ _ Hm Hb').
Qed.

(** Along every history, books stay stored under their own isbn and
    borrowers under their own membership id, each key once: what
    [get_book] returns for an isbn is a book with that isbn. *)
Theorem well_keyed_run (isoformat : datetime -> string) (cs : list call) (s : Library.t) :
  well_keyed s ->
  well_keyed (run isoformat cs s) /\
  (forall i book,
     Library.get_book i (run isoformat cs s) = Some book -> Book.isbn book = i) /\
  (forall m b,
     Library.get_borrower m (run isoformat cs s) = Some b -> Borrower.membership_id b = m).
Proof.
  intros Hs.
  assert (H : well_keyed (run isoformat cs s)).
  { revert s Hs. induction cs as [|c cs IH]; intros s Hs; simpl; [exact Hs|].
    apply IH. now apply well_keyed_exec. }
  split; [exact H|]. destruct H as [Hb Hm]. split.
  - intros i book Hi. exact (keyed_by_get _ _ _ _ Hb Hi).
  - intros m b Hb'. exact (keyed_by_get _ _ _ _ Hm Hb').
Qed.

Lemma well_keyed_init (loan_days : Z) : well_keyed (Library.init loan_days).
Proof.
  repeat split; constructor.
Qed.

(** ** Book management *)

(** The book that [add_book] returns is the one stored under the isbn: its
    shelf count is the old one (none for a new isbn) plus the quantity
    given; no other book and no borrower is touched. *)
Theorem add_book_then_get (s : Library.t) (t a i g : string) (q : Z) (book : Book.t) :
  fst (Library.add_book t a i g q s) = Return book ->
  let s' := snd (Library.add_book t a i g q s) in
  Library.get_book i s' = Some book /\
  Book.quantity book = on_shelf i s + q /\
  (forall i', i' <> i -> Library.get_book i' s' = Library.get_book i' s) /\
  Library.borrowers_by_id s' = Library.borrowers_by_id s /\
  Library.loan_days s' = Library.loan_days s.
Proof.
  unfold Library.get_book, on_shelf.
  destruct (Dict.get i (Library.books_by_isbn s)) as [old|] eqn:Hi.
  - rewrite (add_book_present _ _ _ _ _ _ _ Hi).
    destruct (Book.quantity old + q <? 0); cbn [fst snd]; [discriminate|].
    intros [= <-]. cbn [Library.set_books Library.books_by_isbn Library.borrowers_by_id
                        Library.loan_days Book.set_quantity Book.quantity].
    repeat split.
    + apply get_set_same.
    + intros i' Hne. now apply get_set_other.
  - rewrite (add_book_absent _ _ _ _ _ _ Hi). cbn [fst snd].
    intros [= <-]. cbn [Library.set_books Library.books_by_isbn Library.borrowers_by_id
                        Library.loan_days Book.quantity].
    repeat split.
    + apply get_set_same.
    + intros i' Hne. now apply get_set_other.
Qed.

Lemma values_set_absent {V : Type} (k : string) (v : V) (d : Dict.t V) :
  Dict.get k d = None -> Dict.values (Dict.set k v d) = (Dict.values d ++ [v])%list.
Proof.
  induction d as [|[k' v'] d IH]; simpl; [reflexivity|].
  destruct (String.eqb_spec k' k) as [->|Hk]; simpl; intros H.
  - discriminate.
  - f_equal. now apply IH.
Qed.

(** [list_books] lists in order of first insertion: a new isbn goes to the
    end of the list, and adding to an isbn of the catalog keeps every isbn
    at its place. *)
Theorem add_book_list_order (s : Library.t) (t a i g : string) (q : Z) :
  let s' := snd (Library.add_book t a i g q s) in
  (Library.get_book i s = None ->
   Library.list_books s' = (Library.list_books s ++ [Book.mk t a i g q])%list) /\
  (forall old, Library.get_book i s = Some old ->
   Dict.keys (Library.books_by_isbn s') = Dict.keys (Library.books_by_isbn s) /\
   length (Library.list_books s') = length (Library.list_books s)).
Proof.
  unfold Library.get_book, Library.list_books. split.
  - intros Hi. rewrite (add_book_absent _ _ _ _ _ _ Hi).
    cbn [snd Library.set_books Library.books_by_isbn]. now apply values_set_absent.
  - intros old Hi. rewrite (add_book_present _ _ _ _ _ _ _ Hi).
    assert (Hk : forall d d' : Dict.t Book.t,
               Dict.keys d' = Dict.keys d -> length (Dict.values d') = length (Dict.values d)).
    { intros d d' H. unfold Dict.values. rewrite !length_map.
      unfold Dict.keys in H. apply (f_equal (@length string)) in H.
      now rewrite !length_map in H. }
    destruct (Book.quantity old + q <? 0); cbn [snd]; [now split|].
    cbn [Library.set_books Library.books_by_isbn].
    pose proof (keys_set_present i (Book.set_quantity (Book.quantity old + q) old) old
                  (Library.books_by_isbn s) Hi) as H.
    split; [exact H|now apply Hk].
Qed.

(** [update_book] on a known isbn with no quantity or a quantity that is
    not negative: the call returns the stored book, in which every field
    given is replaced and every field left out is kept; the isbn, the other
    books, the order of the catalog and the borrowers are as before. *)
Theorem update_book_success (s : Library.t) (i : string) (title author genre : option string)
    (quantity : option Z) (book : Book.t) :
  Library.get_book i s = Some book ->
  (forall q, quantity = Some q -> 0 <= q) ->
  let book' :=
    Book.mk (supplied title (Book.title book)) (supplied author (Book.author book))
      (Book.isbn book) (supplied genre (Book.genre book))
      (supplied quantity (Book.quantity book)) in
  let s' := snd (Library.update_book i title author genre quantity s) in
  fst (Library.update_book i title author genre quantity s) = Return book' /\
  Library.get_book i s' = Some book' /\
  (forall i', i' <> i -> Library.get_book i' s' = Library.get_book i' s) /\
  Dict.keys (Library.books_by_isbn s') = Dict.keys (Library.books_by_isbn s) /\
  Library.borrowers_by_id s' = Library.borrowers_by_id s /\
  Library.loan_days s' = Library.loan_days s.
Proof.
  unfold Library.get_book. intros Hi Hq. cbv zeta.
  unfold Library.update_book, Book.update. rewrite Hi.
  assert (Hb : forall b : Book.t,
             Book.mk (Book.title b) (Book.author b) (Book.isbn b) (Book.genre b)
               (Book.quantity b) = b) by now intros [].
  destruct quantity as [q|].
  - specialize (Hq q eq_refl). destruct (Z.ltb_spec q 0); [lia|].
    cbn [fst snd Library.set_books Library.books_by_isbn Library.borrowers_by_id
         Library.loan_days].
    destruct title, author, genre; cbn; repeat split;
      try apply get_set_same; try (intros i' Hne; now apply get_set_other);
      exact (keys_set_present _ _ _ _ Hi).
  - cbn [fst snd Library.set_books Library.books_by_isbn Library.borrowers_by_id
         Library.loan_days].
    destruct title, author, genre; cbn; rewrite ?Hb; repeat split;
      try apply get_set_same; try (intros i' Hne; now apply get_set_other);
      exact (keys_set_present _ _ _ _ Hi).
Qed.

Lemma mem_of_get {V : Type} (k : string) (v : V) (d : Dict.t V) :
  Dict.get k d = Some v -> Dict.mem k d = true.
Proof. unfold Dict.mem. now intros ->. Qed.

(** A call that is not an [add_book] on the isbn does not bring the isbn
    into the catalog. *)
Lemma absent_exec (isoformat : datetime -> string) (c : call) (s : Library.t) (i : string) :
  adds_isbn i c = false ->
  Dict.get i (Library.books_by_isbn s) = None ->
  Dict.get i (Library.books_by_isbn (snd (exec isoformat c s))) = None.
Proof.
  intros Hc Hi.
  assert (Hset : forall i' (old v : Book.t),
            Dict.get i' (Library.books_by_isbn s) = Some old ->
            Dict.get i (Dict.set i' v (Library.books_by_isbn s)) = None).
  { intros i' old v Hi'. rewrite get_set_other; [exact Hi|]. intros ->. congruence. }
  destruct c as [t a i' g q|i' t a g q|i'|u n c m|m n c|m|now m i'|now m i'];
    unfold exec, outcome; cbn [snd].
  - simpl in Hc. apply String.eqb_neq in Hc.
    destruct (Dict.get i' (Library.books_by_isbn s)) as [book|] eqn:Hi'.
    + rewrite (add_book_present _ _ _ _ _ _ _ Hi').
      destruct (Book.quantity book + q <? 0); cbn [snd]; [exact Hi|].
      cbn [Library.set_books Library.books_by_isbn]. exact (Hset _ _ _ Hi').
    + rewrite (add_book_absent _ _ _ _ _ _ Hi').
      cbn [snd Library.set_books Library.books_by_isbn].
      rewrite get_set_other; [exact Hi|congruence].
  - unfold Library.update_book.
    destruct (Dict.get i' (Library.books_by_isbn s)) as [book|] eqn:Hi'; [|exact Hi].
    destruct (Book.update t a g q book) as [[u|e] book']; cbn [snd];
      cbn [Library.set_books Library.books_by_isbn]; exact (Hset _ _ _ Hi').
  - unfold Library.remove_book.
    destruct (Dict.mem i' (Library.books_by_isbn s)); cbn [negb snd]; [|exact Hi].
    cbn [Library.set_books Library.books_by_isbn].
    apply get_none_keys. intros H. apply keys_del_incl in H.
    now apply get_none_keys in Hi.
  - exact Hi.
  - unfold Library.update_borrower.
    destruct (Dict.get m (Library.borrowers_by_id s)); exact Hi.
  - unfold Library.remove_borrower.
    destruct (Dict.mem m (Library.borrowers_by_id s)); exact Hi.
  - destruct (borrow_book_state s now m i')
      as [->|(b & book & due & _ & Hi' & _ & ->)]; [exact Hi|].
    cbn [Library.books_by_isbn]. exact (Hset _ _ _ Hi').
  - destruct (return_book_state isoformat s now m i')
      as [->|(b & book & l1 & r & l2 & _ & Hi' & _ & _ & ->)]; [exact Hi|].
    cbn [Library.books_by_isbn]. exact (Hset _ _ _ Hi').
Qed.

Lemma absent_run (isoformat : datetime -> string) (cs : list call) (s : Library.t)
    (i : string) :
  forallb (fun c => negb (adds_isbn i c)) cs = true ->
  Dict.get i (Library.books_by_isbn s) = None ->
  Dict.get i (Library.books_by_isbn (run isoformat cs s)) = None.
Proof.
  revert s. induction cs as [|c cs IH]; intros s Hcs Hi; simpl in *; [exact Hi|].
  apply andb_prop in Hcs as [Hc Hcs]. apply negb_true_iff in Hc.
  apply IH; [exact Hcs|]. now apply absent_exec.
Qed.

(** [return_book] and [borrow_book] on an isbn that is not in the catalog
    raise [KeyError] and leave the library as it was. *)
Lemma loan_calls_absent_isbn (isoformat : datetime -> string) (s : Library.t) (i : string) :
  Dict.get i (Library.books_by_isbn s) = None ->
  (forall now m, exists msg,
     Library.return_book isoformat now m i s = (Raise (KeyError msg), s)) /\
  (forall now m, exists msg,
     Library.borrow_book now m i s = (Raise (KeyError msg), s)).
Proof.
  intros Hi. split; intros now m.
  - unfold Library.return_book. rewrite Hi.
    destruct (Dict.get m (Library.borrowers_by_id s)); eauto.
  - unfold Library.borrow_book. rewrite Hi.
    destruct (Dict.get m (Library.borrowers_by_id s)); eauto.
Qed.

(** [remove_book] does not look at the loans: the book leaves the catalog
    while every loan sequence stays as it is.  In the state it leaves, and
    in every state reached from there by calls none of which is an
    [add_book] on that isbn, [get_book] finds nothing under the isbn and
    neither [return_book] nor [borrow_book] on it gets past its
    [KeyError]: the records that reference the isbn cannot be returned
    until the isbn is added again. *)
Theorem remove_book_orphans_loans (isoformat : datetime -> string) (s : Library.t)
    (i : string) (book : Book.t) :
  well_keyed s ->
  Library.get_book i s = Some book ->
  let s' := snd (Library.remove_book i s) in
  fst (Library.remove_book i s) = Return true /\
  Library.get_book i s' = None /\
  (forall i', i' <> i -> Library.get_book i' s' = Library.get_book i' s) /\
  Library.borrowers_by_id s' = Library.borrowers_by_id s /\
  (forall cs, forallb (fun c => negb (adds_isbn i c)) cs = true ->
     Library.get_book i (run isoformat cs s') = None /\
     (forall now m, exists msg,
        Library.return_book isoformat now m i (run isoformat cs s') =
        (Raise (KeyError msg), run isoformat cs s')) /\
     (forall now m, exists msg,
        Library.borrow_book now m i (run isoformat cs s') =
        (Raise (KeyError msg), run isoformat cs s'))).
Proof.
  unfold Library.get_book. intros [[Hnd _] _] Hi. cbv zeta.
  unfold Library.remove_book. rewrite (mem_of_get _ _ _ Hi).
  cbn [negb fst snd].
  assert (Hd : Dict.get i (Library.books_by_isbn
                             (Library.set_books (Dict.del i (Library.books_by_isbn s)) s)) =
               None)
    by (cbn [Library.set_books Library.books_by_isbn]; now apply get_del_same).
  repeat split.
  - exact Hd.
  - intros i' Hne. cbn [Library.set_books Library.books_by_isbn]. now apply get_del_other.
  - now apply absent_run.
  - apply (loan_calls_absent_isbn isoformat). now apply absent_run.
  - apply (loan_calls_absent_isbn isoformat). now apply absent_run.
Qed.

(** ** Borrower management *)

Lemma sumZ_del {V : Type} (f : V -> Z) (k : string) (v : V) (d : Dict.t V) :
  Dict.get k d = Some v ->
  sumZ f (Dict.values (Dict.del k d)) = sumZ f (Dict.values d) - f v.
Proof.
  induction d as [|[k' v'] d IH]; simpl; [discriminate|].
  destruct (String.eqb_spec k' k) as [->|Hk]; simpl; intros H.
  - injection H as ->. lia.
  - rewrite (IH H). lia.
Qed.

(** [remove_borrower] does not return the books first: the borrower and
    the loan records go, no quantity changes, and for every isbn the count
    of copies (on the shelf or lent) drops by the number of records the
    borrower held for it. *)
Theorem remove_borrower_drops_loans (s : Library.t) (m : string) (b : Borrower.t) :
  well_keyed s ->
  Library.get_borrower m s = Some b ->
  let s' := snd (Library.remove_borrower m s) in
  fst (Library.remove_borrower m s) = Return true /\
  Library.get_borrower m s' = None /\
  (forall m', m' <> m -> Library.get_borrower m' s' = Library.get_borrower m' s) /\
  Library.books_by_isbn s' = Library.books_by_isbn s /\
  (forall i, copies i s' = copies i s - loans_of i (Borrower.borrowed_books b)).
Proof.
  unfold Library.get_borrower. intros [_ [Hnd _]] Hm. cbv zeta.
  unfold Library.remove_borrower. rewrite (mem_of_get _ _ _ Hm).
  cbn [negb fst snd Library.set_borrowers Library.books_by_isbn Library.borrowers_by_id].
  repeat split.
  - now apply get_del_same.
  - intros m' Hne. now apply get_del_other.
  - intros i. unfold copies, on_shelf, outstanding.
    cbn [Library.set_borrowers Library.books_by_isbn Library.borrowers_by_id].
    rewrite (sumZ_del _ _ _ _ Hm). lia.
Qed.

(** [update_borrower] on a known id always returns; a name or contact that
    is given and not empty replaces the old one, an empty or missing one
    changes nothing, and the membership id, the loans, the other borrowers
    and the catalog are never touched. *)
Theorem update_borrower_fields (s : Library.t) (m : string) (name contact : option string)
    (b : Borrower.t) :
  Library.get_borrower m s = Some b ->
  let s' := snd (Library.update_borrower m name contact s) in
  exists b',
    fst (Library.update_borrower m name contact s) = Return b' /\
    Library.get_borrower m s' = Some b' /\
    (forall v, name = Some v -> v <> "" -> Borrower.name b' = v) /\
    (name = None \/ name = Some "" -> Borrower.name b' = Borrower.name b) /\
    (forall v, contact = Some v -> v <> "" -> Borrower.contact b' = v) /\
    (contact = None \/ contact = Some "" -> Borrower.contact b' = Borrower.contact b) /\
    Borrower.membership_id b' = Borrower.membership_id b /\
    Borrower.borrowed_books b' = Borrower.borrowed_books b /\
    (forall m', m' <> m -> Library.get_borrower m' s' = Library.get_borrower m' s) /\
    Library.books_by_isbn s' = Library.books_by_isbn s.
Proof.
  unfold Library.get_borrower. intros Hm. cbv zeta.
  unfold Library.update_borrower. rewrite Hm.
  cbn [fst snd Library.set_borrowers Library.books_by_isbn Library.borrowers_by_id].
  eexists. split; [reflexivity|]. split; [apply get_set_same|].
  unfold Borrower.update, Borrower.assign_truthy.
  repeat split.
  - intros v -> Hv. rewrite (truthy_nonempty v Hv).
    destruct contact as [c|]; [destruct (Str.truthy c)|]; reflexivity.
  - intros [->| ->]; cbn [Str.truthy];
      (destruct contact as [c|]; [destruct (Str.truthy c)|]); reflexivity.
  - intros v -> Hv. rewrite (truthy_nonempty v Hv).
    destruct name as [n|]; [destruct (Str.truthy n)|]; reflexivity.
  - intros [->| ->]; cbn [Str.truthy];
      (destruct name as [n|]; [destruct (Str.truthy n)|]); reflexivity.
  - destruct name as [n|], contact as [c|];
      try destruct (Str.truthy n); try destruct (Str.truthy c); reflexivity.
  - destruct name as [n|], contact as [c|];
      try destruct (Str.truthy n); try destruct (Str.truthy c); reflexivity.
  - intros m' Hne. now apply get_set_other.
Qed.

(** The borrower that [add_borrower] returns is the one [get_borrower]
    finds under its membership id: the id given when there is one that is
    not empty, the generated token otherwise.  It starts without loans, and
    no other borrower and no book is touched. *)
Theorem add_borrower_then_get (uuid8 name contact : string) (membership_id : option string)
    (s : Library.t) :
  let s' := snd (Library.add_borrower uuid8 name contact membership_id s) in
  exists b,
    fst (Library.add_borrower uuid8 name contact membership_id s) = Return b /\
    Library.get_borrower (Borrower.membership_id b) s' = Some b /\
    (forall m, membership_id = Some m -> m <> "" -> Borrower.membership_id b = m) /\
    (membership_id = None \/ membership_id = Some "" -> Borrower.membership_id b = uuid8) /\
    Borrower.name b = name /\ Borrower.contact b = contact /\
    Borrower.borrowed_books b = [] /\
    (forall m', m' <> Borrower.membership_id b ->
       Library.get_borrower m' s' = Library.get_borrower m' s) /\
    Library.books_by_isbn s' = Library.books_by_isbn s.
Proof.
  cbv zeta. unfold Library.add_borrower, Library.get_borrower.
  cbn [fst snd Library.set_borrowers Library.books_by_isbn Library.borrowers_by_id].
  eexists. split; [reflexivity|]. split; [apply get_set_same|].
  unfold Borrower.new. cbn [Borrower.membership_id Borrower.name Borrower.contact
                            Borrower.borrowed_books].
  repeat split.
  - intros m -> Hm. now rewrite (truthy_nonempty m Hm).
  - intros [->| ->]; reflexivity.
  - intros m' Hne. now apply get_set_other.
Qed.

(** ** Borrowing and returning in sequence *)

Lemma borrow_book_no_copies_state (s : Library.t) (now : Z) (m i : string)
    (b : Borrower.t) (book : Book.t) :
  Dict.get m (Library.borrowers_by_id s) = Some b ->
  Dict.get i (Library.books_by_isbn s) = Some book ->
  Book.quantity book <= 0 ->
  snd (Library.borrow_book now m i s) = s.
Proof.
  intros Hm Hi Hq. unfold Library.borrow_book. rewrite Hm, Hi.
  destruct (Z.leb_spec (Book.quantity book) 0); [reflexivity|lia].
Qed.

Lemma set_set {V : Type} (k : string) (v v' : V) (d : Dict.t V) :
  Dict.set k v (Dict.set k v' d) = Dict.set k v d.
Proof.
  induction d as [|[k0 v0] d IH]; simpl.
  - now rewrite String.eqb_refl.
  - destruct (String.eqb_spec k0 k) as [->|Hk]; simpl.
    + now rewrite String.eqb_refl.
    + destruct (String.eqb_spec k0 k); [contradiction|]. now rewrite IH.
Qed.

(** A borrower without a record for the isbn borrows the book and returns
    it, the due date being within the range of [datetime]: the library is
    back in the state before the borrow, and the return is overdue exactly
    when it comes later than [loan_days] days after the borrow. *)
Theorem borrow_then_return (isoformat : datetime -> string) (s : Library.t)
    (now1 now2 : Z) (m i : string) (b : Borrower.t) (book : Book.t) :
  Library.get_borrower m s = Some b ->
  Library.get_book i s = Some book ->
  0 < Book.quantity book ->
  (forall x, In x (Borrower.borrowed_books b) -> BorrowedRecord.isbn x <> i) ->
  Z.abs (Library.loan_days s) <= 999999999 ->
  0 <= now1 + Library.loan_days s * 86400000000 <= datetime_max ->
  let due := now1 + Library.loan_days s * 86400000000 in
  Library.return_book isoformat now2 m i (snd (Library.borrow_book now1 m i s)) =
  (Return (Library.mk_receipt true (now2 >? due) (isoformat (Naive due))), s).
Proof.
  unfold Library.get_borrower, Library.get_book. intros Hm Hi Hq Hnone Hdays Hrange.
  cbv zeta.
  assert (Hd : due_date_after (Naive now1) (Library.loan_days s) =
               Some (Naive (now1 + Library.loan_days s * 86400000000)))
    by (apply due_date_after_naive; auto).
  rewrite (borrow_book_ok s now1 m i b book _ Hm Hi Hq Hd). cbn [snd].
  set (record := BorrowedRecord.mk i (Naive now1)
                   (Naive (now1 + Library.loan_days s * 86400000000))).
  rewrite (return_book_ok isoformat _ now2 m i
             (Borrower.set_borrowed_books (Borrower.borrowed_books b ++ [record]) b)
             (Book.set_quantity (Book.quantity book - 1) book)
             (Borrower.borrowed_books b) [] record
             (now1 + Library.loan_days s * 86400000000)).
  - cbn [Library.books_by_isbn Library.borrowers_by_id Library.loan_days].
    f_equal. rewrite !set_set.
    replace (Book.set_quantity _ (Book.set_quantity _ book)) with book
      by (destruct book; unfold Book.set_quantity;
          cbn [Book.title Book.author Book.isbn Book.genre Book.quantity]; f_equal; lia).
    replace (Borrower.set_borrowed_books _ (Borrower.set_borrowed_books _ b)) with b
      by (destruct b; unfold Borrower.set_borrowed_books;
          cbn [Borrower.name Borrower.contact Borrower.membership_id Borrower.borrowed_books];
          now rewrite app_nil_r).
    rewrite (set_get_same _ _ _ Hi), (set_get_same _ _ _ Hm). now destruct s.
  - apply get_set_same.
  - apply get_set_same.
  - reflexivity.
  - exact Hnone.
  - reflexivity.
  - reflexivity.
Qed.

(** [borrow_book] on a known borrower and a known book, with a due date
    within the range of [datetime], returns exactly when
    [Book.is_available] holds of the book. *)
Theorem borrow_book_iff_available (s : Library.t) (now : Z) (m i : string)
    (b : Borrower.t) (book : Book.t) :
  Library.get_borrower m s = Some b ->
  Library.get_book i s = Some book ->
  Z.abs (Library.loan_days s) <= 999999999 ->
  0 <= now + Library.loan_days s * 86400000000 <= datetime_max ->
  returned (fst (Library.borrow_book now m i s)) = Book.is_available book.
Proof.
  unfold Library.get_borrower, Library.get_book, Book.is_available.
  intros Hm Hi Hdays Hrange.
  assert (Hd : due_date_after (Naive now) (Library.loan_days s) =
               Some (Naive (now + Library.loan_days s * 86400000000)))
    by (apply due_date_after_naive; auto).
  unfold Library.borrow_book. rewrite Hm, Hi, Hd.
  destruct (Z.leb_spec (Book.quantity book) 0), (Z.ltb_spec 0 (Book.quantity book));
    cbn [fst returned]; try reflexivity; lia.
Qed.

(** A book with a quantity that is not negative can be lent that many
    times and no more: after [n] calls of [borrow_book] by a known
    borrower, each with a due date within the range of [datetime],
    [availability] reports the quantity less [n], and zero once the copies
    are used up. *)
Theorem availability_after_borrows (isoformat : datetime -> string) (nows : list Z)
    (s : Library.t) (m i : string) (b : Borrower.t) (book : Book.t) :
  Library.get_borrower m s = Some b ->
  Library.get_book i s = Some book ->
  0 <= Book.quantity book ->
  Z.abs (Library.loan_days s) <= 999999999 ->
  Forall (fun now => 0 <= now + Library.loan_days s * 86400000000 <= datetime_max) nows ->
  Library.availability i (run isoformat (borrow_calls m i nows) s) =
  Return (Library.mk_report i (Z.max 0 (Book.quantity book - Z.of_nat (length nows)))).
Proof.
  unfold Library.get_borrower, Library.get_book.
  revert s b book. induction nows as [|now nows IH]; intros s b book Hm Hi Hq Hdays Hrange.
  - simpl. unfold Library.availability. rewrite Hi. do 2 f_equal. lia.
  - cbn [borrow_calls map run exec outcome snd].
    inversion Hrange as [|x l Hnow Hnows]; subst x l.
    destruct (Z.ltb_spec 0 (Book.quantity book)) as [Hpos|Hzero].
    + assert (Hd : due_date_after (Naive now) (Library.loan_days s) =
                   Some (Naive (now + Library.loan_days s * 86400000000)))
        by (apply due_date_after_naive; auto).
      rewrite (borrow_book_ok s now m i b book _ Hm Hi Hpos Hd). cbn [snd].
      fold (borrow_calls m i nows).
      rewrite (IH _
                 (Borrower.set_borrowed_books
                    (Borrower.borrowed_books b ++
                     [BorrowedRecord.mk i (Naive now)
                        (Naive (now + Library.loan_days s * 86400000000))]) b)
                 (Book.set_quantity (Book.quantity book - 1) book)).
      * cbn [Book.quantity Book.set_quantity]. do 2 f_equal. cbn [length]. lia.
      * apply get_set_same.
      * apply get_set_same.
      * cbn. lia.
      * exact Hdays.
      * exact Hnows.
    + rewrite (borrow_book_no_copies_state s now m i b book Hm Hi) by lia.
      fold (borrow_calls m i nows). rewrite (IH s b book Hm Hi Hq Hdays Hnows).
      do 2 f_equal. cbn [length]. lia.
Qed.

(** ** Searching the catalog *)

Lemma prefix_app (q s : string) :
  prefix q s = true <-> exists post, s = (q ++ post)%string.
Proof.
  revert s. induction q as [|a q IH]; intros s.
  - split; [intros _; now exists s|intros _; now destruct s].
  - destruct s as [|b s]; simpl; [split; [discriminate|intros [post H]; discriminate]|].
    destruct (ascii_dec a b) as [->|Hab].
    + rewrite IH. split; intros [post H]; exists post; congruence.
    + split; [discriminate|]. intros [post H]. congruence.
Qed.

(** [Str.contains] is the substring test. *)
Lemma contains_app (q s : string) :
  Str.contains q s = true <-> exists pre post, s = (pre ++ q ++ post)%string.
Proof.
  induction s as [|c s IH].
  - cbn [Str.contains]. rewrite orb_false_r, prefix_app. split.
    + intros [post H]. now exists "", post.
    + intros [[|a pre] [post H]]; [now exists post|discriminate].
  - cbn [Str.contains]. rewrite orb_true_iff, prefix_app, IH. split.
    + intros [[post H]|(pre & post & H)].
      * now exists "", post.
      * exists (String c pre), post. simpl. now rewrite H.
    + intros [[|a pre] [post H]].
      * left. now exists post.
      * right. simpl in H. injection H as _ H. now exists pre, post.
Qed.

Lemma matches_field_text (q field : string) (book : Book.t) :
  Library.matches q field book =
  negb (Str.truthy q) ||
  match field_text field book with
  | Some text => Str.contains q (Str.lower text)
  | None => false
  end.
Proof.
  unfold Library.matches, field_text.
  destruct (Str.truthy q); cbn [negb orb]; [|reflexivity].
  destruct (String.eqb_spec field "title") as [->|Ht].
  { change ("title" =? "author")%string with false.
    change ("title" =? "genre")%string with false. cbn [andb].
    now destruct (Str.contains q (Str.lower (Book.title book))). }
  destruct (String.eqb_spec field "author") as [->|Ha].
  { change ("author" =? "genre")%string with false. cbn [andb].
    now destruct (Str.contains q (Str.lower (Book.author book))). }
  destruct (String.eqb_spec field "genre") as [->|Hg].
  { cbn [andb]. now destruct (Str.contains q (Str.lower (Book.genre book))). }
  reflexivity.
Qed.

(** What [search_books] selects: the books of the catalog, all of them
    when the query is blank, otherwise those in which the stripped and
    lower-cased query occurs in the lower-cased text of the field; a field
    name without a text selects none. *)
Theorem search_books_selects (query field : string) (s : Library.t) (b : Book.t) :
  In b (Library.search_books query field s) <->
  In b (Library.list_books s) /\
  (Str.strip query = "" \/
   exists text pre post,
     field_text field b = Some text /\
     Str.lower text = (pre ++ Str.lower (Str.strip query) ++ post)%string).
Proof.
  unfold Library.search_books, Library.list_books.
  rewrite filter_In, matches_field_text, orb_true_iff, lower_truthy.
  apply and_iff_compat_l. split.
  - intros [H|H].
    + left. destruct (Str.strip query); [reflexivity|discriminate].
    + right. destruct (field_text field b) as [text|]; [|discriminate].
      apply contains_app in H as (pre & post & H). now exists text, pre, post.
  - intros [H|(text & pre & post & Ht & H)].
    + left. now rewrite H.
    + right. rewrite Ht. apply contains_app. now exists pre, post.
Qed.

Lemma is_space_lower (c : ascii) : Str.is_space (Str.lower_char c) = Str.is_space c.
Proof. destruct c as [[] [] [] [] [] [] [] []]; reflexivity. Qed.

Lemma lower_char_idem (c : ascii) : Str.lower_char (Str.lower_char c) = Str.lower_char c.
Proof. destruct c as [[] [] [] [] [] [] [] []]; reflexivity. Qed.

Lemma lstrip_lower (s : string) : Str.lstrip (Str.lower s) = Str.lower (Str.lstrip s).
Proof.
  induction s as [|c s IH]; simpl; [reflexivity|].
  rewrite is_space_lower. now destruct (Str.is_space c).
Qed.

Lemma rstrip_lower (s : string) : Str.rstrip (Str.lower s) = Str.lower (Str.rstrip s).
Proof.
  induction s as [|c s IH]; simpl; [reflexivity|].
  rewrite IH, is_space_lower.
  destruct (Str.rstrip s); simpl; [now destruct (Str.is_space c)|reflexivity].
Qed.

Lemma strip_lower (s : string) : Str.strip (Str.lower s) = Str.lower (Str.strip s).
Proof. unfold Str.strip. now rewrite lstrip_lower, rstrip_lower. Qed.

(** The case of the query does not matter: two queries with the same
    lower-case form select the same books. *)
Theorem search_books_query_case (q1 q2 field : string) (s : Library.t) :
  Str.lower q1 = Str.lower q2 ->
  Library.search_books q1 field s = Library.search_books q2 field s.
Proof.
  intros H. unfold Library.search_books.
  now rewrite <- !strip_lower, H.
Qed.

Lemma rstrip_snoc (c : ascii) (s : string) :
  Str.is_space c = true -> Str.rstrip (s ++ String c "") = Str.rstrip s.
Proof.
  intros Hc. induction s as [|a s IH]; simpl.
  - now rewrite Hc.
  - now rewrite IH.
Qed.

Lemma strip_snoc (c : ascii) (s : string) :
  Str.is_space c = true -> Str.strip (s ++ String c "") = Str.strip s.
Proof.
  intros Hc. unfold Str.strip. induction s as [|a s IH].
  - simpl. now rewrite Hc.
  - cbn [String.append Str.lstrip]. destruct (Str.is_space a); [exact IH|].
    exact (rstrip_snoc c (String a s) Hc).
Qed.

(** White space around the query does not matter: a white-space character
    put before or after the query leaves the selection as it is. *)
Theorem search_books_query_padding (c : ascii) (query field : string) (s : Library.t) :
  Str.is_space c = true ->
  Library.search_books (String c query) field s = Library.search_books query field s /\
  Library.search_books (query ++ String c "") field s = Library.search_books query field s.
Proof.
  intros Hc. unfold Library.search_books. split.
  - unfold Str.strip. cbn [Str.lstrip]. now rewrite Hc.
  - now rewrite (strip_snoc c query Hc).
Qed.

(** ** Persistence *)

Lemma set_absent_app {V : Type} (k : string) (v : V) (d : Dict.t V) :
  Dict.get k d = None -> Dict.set k v d = (d ++ [(k, v)])%list.
Proof.
  induction d as [|[k' v'] d IH]; simpl; [reflexivity|].
  destruct (String.eqb_spec k' k) as [->|Hk]; intros H; [discriminate|].
  now rewrite IH.
Qed.

Lemma keys_app {V : Type} (d1 d2 : Dict.t V) :
  Dict.keys (d1 ++ d2)%list = (Dict.keys d1 ++ Dict.keys d2)%list.
Proof. apply map_app. Qed.

Lemma load_book_to_dict (b : Book.t) :
  Persistence.load_book (Persistence.book_to_dict b) = Entry b.
Proof. now destruct b. Qed.

(** What the book loop makes of the entries that [_save] wrote for a
    well-keyed dict: the entries, appended in order. *)
Lemma load_books_saved (d acc : Dict.t Book.t) :
  keyed_by Book.isbn d ->
  (forall k, In k (Dict.keys d) -> ~ In k (Dict.keys acc)) ->
  Persistence.load_books (map Persistence.book_to_dict (Dict.values d)) acc =
  Some (acc ++ d)%list.
Proof.
  revert acc. induction d as [|[k v] d IH]; intros acc [Hnd Hf] Hdis.
  - simpl. now rewrite app_nil_r.
  - change (Dict.values ((k, v) :: d)) with (v :: Dict.values d).
    cbn [map Persistence.load_books]. rewrite load_book_to_dict.
    change (Dict.keys ((k, v) :: d)) with (k :: Dict.keys d) in *.
    inversion Hnd as [|x l Hx Hl]; subst x l.
    inversion Hf as [|x l Hv Hd]; subst x l. simpl in Hv. rewrite Hv.
    rewrite set_absent_app by (apply get_none_keys, Hdis; now left).
    rewrite IH.
    + now rewrite <- app_assoc.
    + now split.
    + intros k' Hk'. rewrite keys_app, in_app_iff. simpl.
      intros [H|[H|[]]].
      * apply (Hdis k'); [now right|exact H].
      * subst k'. contradiction.
Qed.

Section PersistenceFacts.

Variable isoformat : datetime -> string.
Variable fromisoformat : string -> option datetime.

(** [fromisoformat] reads back what [isoformat] writes. *)
Hypothesis fromisoformat_isoformat : forall d, fromisoformat (isoformat d) = Some d.

Lemma load_record_to_dict (r : BorrowedRecord.t) :
  Persistence.load_record fromisoformat (Persistence.record_to_dict isoformat r) = Entry r.
Proof.
  destruct r as [i bo due]. unfold Persistence.load_record, Persistence.record_to_dict.
  cbn. now rewrite !fromisoformat_isoformat.
Qed.

Lemma load_records_to_dict (l : list BorrowedRecord.t) :
  Persistence.load_records fromisoformat (map (Persistence.record_to_dict isoformat) l) =
  Entry l.
Proof.
  induction l as [|r l IH]; [reflexivity|].
  cbn [map Persistence.load_records]. now rewrite load_record_to_dict, IH.
Qed.

Lemma load_borrower_to_dict (uuid8 : string) (b : Borrower.t) :
  Borrower.membership_id b <> "" ->
  Persistence.load_borrower fromisoformat uuid8 (Persistence.borrower_to_dict isoformat b) =
  Entry b.
Proof.
  destruct b as [n c m l]. cbn [Borrower.membership_id]. intros Hm.
  unfold Persistence.load_borrower, Persistence.borrower_to_dict.
  cbn [Borrower.name Borrower.contact Borrower.membership_id Borrower.borrowed_books].
  change (Json.iter (Json.get_default "borrowed_books" (JList []) _))
    with (Some (map (Persistence.record_to_dict isoformat) l)).
  change (Dict.get "name" _) with (Some (JStr n)).
  change (Dict.get "contact" _) with (Some (JStr c)).
  change (Json.get_default "membership_id" JNull _) with (JStr m).
  cbv beta iota. rewrite load_records_to_dict.
  cbn [Json.truthy Json.hashable negb andb]. rewrite andb_false_r.
  rewrite (truthy_nonempty m Hm). unfold Borrower.new. now rewrite (truthy_nonempty m Hm).
Qed.

Lemma load_borrowers_saved (uuid8 : nat -> string) (d acc : Dict.t Borrower.t) (k : nat) :
  keyed_by Borrower.membership_id d ->
  Forall (fun m => m <> "") (Dict.keys d) ->
  (forall m, In m (Dict.keys d) -> ~ In m (Dict.keys acc)) ->
  Persistence.load_borrowers fromisoformat uuid8 k
    (map (Persistence.borrower_to_dict isoformat) (Dict.values d)) acc =
  Some (acc ++ d)%list.
Proof.
  revert acc k. induction d as [|[m v] d IH]; intros acc k [Hnd Hf] Hne Hdis.
  - simpl. now rewrite app_nil_r.
  - change (Dict.values ((m, v) :: d)) with (v :: Dict.values d).
    cbn [map Persistence.load_borrowers].
    change (Dict.keys ((m, v) :: d)) with (m :: Dict.keys d) in *.
    inversion Hnd as [|x l Hx Hl]; subst x l.
    inversion Hf as [|x l Hv Hd]; subst x l. simpl in Hv.
    inversion Hne as [|x l Hm Hne']; subst x l.
    rewrite load_borrower_to_dict by now rewrite Hv.
    rewrite Hv. rewrite set_absent_app by (apply get_none_keys, Hdis; now left).
    rewrite IH.
    + now rewrite <- app_assoc.
    + now split.
    + exact Hne'.
    + intros m' Hm'. rewrite keys_app, in_app_iff. simpl.
      intros [H|[H|[]]].
      * apply (Hdis m'); [now right|exact H].
      * subst m'. contradiction.
Qed.

(** Round trip.  For a library whose books and borrowers sit under their
    own keys, with no empty membership id, loading the data that [_save]
    builds gives the same books, borrowers and loan records back, in the
    same order. *)
Theorem load_saved_data (uuid8 : nat -> string) (s : Library.t) :
  well_keyed s ->
  ids_nonempty s ->
  Persistence.load_data fromisoformat uuid8 (Library.loan_days s)
    (Persistence.to_data isoformat s) = Loaded s.
Proof.
  intros [Hb Hm] Hne. unfold Persistence.load_data, Persistence.to_data.
  change (Json.iter (Json.get_default "books" (JList []) _))
    with (Some (map Persistence.book_to_dict (Dict.values (Library.books_by_isbn s)))).
  change (Json.iter (Json.get_default "borrowers" (JList []) _))
    with (Some (map (Persistence.borrower_to_dict isoformat)
                  (Dict.values (Library.borrowers_by_id s)))).
  cbv beta iota.
  rewrite (load_books_saved _ Dict.empty Hb) by (intros k _ []).
  rewrite (load_borrowers_saved uuid8 _ Dict.empty 0 Hm Hne) by (intros k _ []).
  now destruct s.
Qed.

End PersistenceFacts.

Lemma Forall_keys_set {V : Type} (P : string -> Prop) (k : string) (v : V) (d : Dict.t V) :
  Forall P (Dict.keys d) -> P k -> Forall P (Dict.keys (Dict.set k v d)).
Proof.
  intros Hd Hk. destruct (Dict.get k d) as [v0|] eqn:E.
  - now rewrite (keys_set_present _ _ _ _ E).
  - rewrite (keys_set_absent _ _ _ E). apply Forall_app. split; [exact Hd|].
    constructor; [exact Hk|constructor].
Qed.

Lemma Forall_keys_del {V : Type} (P : string -> Prop) (k : string) (d : Dict.t V) :
  Forall P (Dict.keys d) -> Forall P (Dict.keys (Dict.del k d)).
Proof.
  rewrite !Forall_forall. intros Hd x Hx. apply Hd. exact (keys_del_incl _ _ _ Hx).
Qed.

Lemma Forall_keys_get {V : Type} (P : string -> Prop) (k : string) (v : V) (d : Dict.t V) :
  Forall P (Dict.keys d) -> Dict.get k d = Some v -> P k.
Proof.
  rewrite Forall_forall. intros Hd Hk. apply Hd. apply get_in_keys. eauto.
Qed.

Lemma ids_nonempty_exec (isoformat : datetime -> string) (c : call) (s : Library.t) :
  token_nonempty c = true ->
  ids_nonempty s -> ids_nonempty (snd (exec isoformat c s)).
Proof.
  unfold ids_nonempty. intros Hc Hs.
  destruct c as [t a i g q|i t a g q|i|u n c m|m n c|m|now m i|now m i];
    unfold exec, outcome; cbn [snd].
  - destruct (Dict.get i (Library.books_by_isbn s)) as [book|] eqn:Hi.
    + rewrite (add_book_present _ _ _ _ _ _ _ Hi).
      now destruct (Book.quantity book + q <? 0).
    + now rewrite (add_book_absent _ _ _ _ _ _ Hi).
  - unfold Library.update_book.
    destruct (Dict.get i (Library.books_by_isbn s)) as [book|]; [|assumption].
    now destruct (Book.update t a g q book) as [[u|e] book'].
  - unfold Library.remove_book.
    now destruct (Dict.mem i (Library.books_by_isbn s)).
  - cbn [Library.add_borrower snd Library.set_borrowers Library.borrowers_by_id].
    apply Forall_keys_set; [assumption|].
    simpl in Hc. unfold Borrower.new. cbn [Borrower.membership_id].
    destruct m as [[|x m]|]; cbn [Str.truthy]; try discriminate;
      destruct u; try discriminate.
  - unfold Library.update_borrower.
    destruct (Dict.get m (Library.borrowers_by_id s)) as [b|] eqn:Hm; [|assumption].
    cbn [snd Library.set_borrowers Library.borrowers_by_id].
    apply Forall_keys_set; [assumption|]. exact (Forall_keys_get _ _ _ _ Hs Hm).
  - unfold Library.remove_borrower.
    destruct (Dict.mem m (Library.borrowers_by_id s)); cbn [negb snd]; [|assumption].
    now apply Forall_keys_del.
  - destruct (borrow_book_state s now m i)
      as [->|(b & book & due & Hm & Hi & _ & ->)]; [assumption|].
    cbn [Library.borrowers_by_id].
    apply Forall_keys_set; [assumption|]. exact (Forall_keys_get _ _ _ _ Hs Hm).
  - destruct (return_book_state isoformat s now m i)
      as [->|(b & book & l1 & r & l2 & Hm & Hi & _ & _ & ->)]; [assumption|].
    cbn [Library.borrowers_by_id].
    apply Forall_keys_set; [assumption|]. exact (Forall_keys_get _ _ _ _ Hs Hm).
Qed.

Lemma loan_days_exec (isoformat : datetime -> string) (c : call) (s : Library.t) :
  Library.loan_days (snd (exec isoformat c s)) = Library.loan_days s.
Proof.
  destruct c as [t a i g q|i t a g q|i|u n c m|m n c|m|now m i|now m i];
    unfold exec, outcome; cbn [snd].
  - destruct (Dict.get i (Library.books_by_isbn s)) as [book|] eqn:Hi.
    + rewrite (add_book_present _ _ _ _ _ _ _ Hi).
      now destruct (Book.quantity book + q <? 0).
    + now rewrite (add_book_absent _ _ _ _ _ _ Hi).
  - unfold Library.update_book.
    destruct (Dict.get i (Library.books_by_isbn s)) as [book|]; [|reflexivity].
    now destruct (Book.update t a g q book) as [[u|e] book'].
  - unfold Library.remove_book.
    now destruct (Dict.mem i (Library.books_by_isbn s)).
  - reflexivity.
  - unfold Library.update_borrower.
    now destruct (Dict.get m (Library.borrowers_by_id s)).
  - unfold Library.remove_borrower.
    now destruct (Dict.mem m (Library.borrowers_by_id s)).
  - now destruct (borrow_book_state s now m i)
      as [->|(b & book & due & _ & _ & _ & ->)].
  - now destruct (return_book_state isoformat s now m i)
      as [->|(b & book & l1 & r & l2 & _ & _ & _ & _ & ->)].
Qed.

Lemma history_invariants (isoformat : datetime -> string) (cs : list call) (s : Library.t) :
  forallb token_nonempty cs = true ->
  well_keyed s -> ids_nonempty s ->
  well_keyed (run isoformat cs s) /\ ids_nonempty (run isoformat cs s) /\
  Library.loan_days (run isoformat cs s) = Library.loan_days s.
Proof.
  revert s. induction cs as [|c cs IH]; intros s H Hk Hi; simpl; [auto|].
  simpl in H. apply andb_prop in H as [Hc Hcs].
  destruct (IH (snd (exec isoformat c s)) Hcs) as (H1 & H2 & H3).
  - now apply well_keyed_exec.
  - now apply ids_nonempty_exec.
  - rewrite loan_days_exec in H3. auto.
Qed.

(** Whatever the history of calls on a library that started empty, a
    constructor that finds the file written by a [_save] of the state
    reached builds that very state, and leaves the file as it is. *)
Theorem saved_history_reloads (isoformat : datetime -> string)
    (fromisoformat : string -> option datetime) (io : option file)
    (uuid8 : nat -> string) (loan_days : Z) (cs : list call) :
  (forall d, fromisoformat (isoformat d) = Some d) ->
  forallb token_nonempty cs = true ->
  let s := run isoformat cs (Library.init loan_days) in
  Persistence.construct isoformat fromisoformat io uuid8 loan_days
    (Persistence._save isoformat None s) =
  (Loaded s, Parsed (Persistence.to_data isoformat s)).
Proof.
  intros Hiso Hcs s.
  destruct (history_invariants isoformat cs (Library.init loan_days) Hcs
              (well_keyed_init loan_days)) as (Hk & Hi & Hl); [constructor|].
  unfold Persistence.construct, Persistence._save. f_equal.
  fold s in Hk, Hi, Hl. cbn [Library.init Library.loan_days] in Hl. rewrite <- Hl.
  now apply load_saved_data.
Qed.





(** The constructor where there is nothing to load.  A missing file gives
    the empty library and is created with two empty lists (or left as the
    failed write leaves it); a file that cannot be parsed gives the empty
    library and is left alone; a file whose top level is not a dict makes
    the constructor raise [AttributeError]. *)
Theorem construct_without_data (isoformat : datetime -> string)
    (fromisoformat : string -> option datetime) (io : option file)
    (uuid8 : nat -> string) (loan_days : Z) :
  Persistence.construct isoformat fromisoformat io uuid8 loan_days Missing =
    (Loaded (Library.init loan_days),
     match io with
     | None => Parsed (JObj [("books", JList []); ("borrowers", JList [])])
     | Some f => f
     end) /\
  Persistence.construct isoformat fromisoformat io uuid8 loan_days Unparsable =
    (Loaded (Library.init loan_days), Unparsable) /\
  (forall data,
     not_a_dict data ->
     Persistence.construct isoformat fromisoformat io uuid8 loan_days (Parsed data) =
       (Crashed AttributeError, Parsed data)).
Proof.
  split; [now destruct io|]. split; [reflexivity|].
  intros data H. destruct data; try reflexivity. contradiction.
Qed.

Lemma load_book_malformed (b : json) : malformed_book b -> Persistence.load_book b = Skipped.
Proof.
  destruct b as [| | | | |l|items]; try reflexivity.
  unfold malformed_book, Persistence.load_book, book_keys.
  intros [(k & Hk & Hnone)|Hlen].
  - simpl in Hk.
    destruct Hk as [<-|[<-|[<-|[<-|[<-|[]]]]]]; rewrite Hnone;
      repeat match goal with
        | |- context [match Dict.get ?k items with _ => _ end] =>
            destruct (Dict.get k items)
        end; reflexivity.
  - apply Nat.eqb_neq in Hlen. rewrite Hlen. cbn [negb].
    repeat match goal with
      | |- context [match Dict.get ?k items with _ => _ end] =>
          destruct (Dict.get k items)
      end; reflexivity.
Qed.

(** A malformed entry of the book list is passed over: the loop ends as
    it does on the list without the entry. *)
Theorem load_books_skips_malformed (l1 l2 : list json) (bad : json) (acc : Dict.t Book.t) :
  malformed_book bad ->
  Persistence.load_books (l1 ++ bad :: l2) acc = Persistence.load_books (l1 ++ l2) acc.
Proof.
  intros Hbad. revert acc. induction l1 as [|b l1 IH]; intros acc.
  - cbn [app Persistence.load_books]. now rewrite (load_book_malformed bad Hbad).
  - cbn [app Persistence.load_books].
    destruct (Persistence.load_book b); [apply IH|apply IH|reflexivity].
Qed.

(** ** The borrow and return routes *)

Lemma return_book_not_borrowed_state (isoformat : datetime -> string) (s : Library.t)
    (now : Z) (m i : string) (b : Borrower.t) (book : Book.t) :
  Dict.get m (Library.borrowers_by_id s) = Some b ->
  Dict.get i (Library.books_by_isbn s) = Some book ->
  (forall x, In x (Borrower.borrowed_books b) -> BorrowedRecord.isbn x <> i) ->
  Library.return_book isoformat now m i s =
  (Raise (ValueError "This borrower did not borrow this book"), s).
Proof.
  intros Hm Hi Hnone. unfold Library.return_book. rewrite Hm, Hi.
  now rewrite (find_record_none i _ Hnone).
Qed.

Lemma loan_arguments_strings (items : list (string * json)) (v1 v2 : json) :
  Dict.get "membership_id" items = Some v1 ->
  Dict.get "isbn" items = Some v2 ->
  App.loan_arguments (JObj items) = inr (v1, v2).
Proof.
  intros H1 H2. unfold App.loan_arguments, App.contains_key.
  rewrite (mem_of_get _ _ _ H1), (mem_of_get _ _ _ H2), H1, H2.
  destruct items; [discriminate|reflexivity].
Qed.

Lemma due_date_after_none (now loan_days : Z) :
  due_date_after (Naive now) loan_days = None <-> ~ due_date_in_range now loan_days.
Proof.
  unfold due_date_in_range.
  destruct (due_date_after (Naive now) loan_days) as [due|] eqn:E.
  - apply due_date_after_naive in E as (H1 & H2 & _).
    split; [discriminate|]. intros H. exfalso. apply H. auto.
  - split; [|reflexivity]. intros _ [H1 H2].
    assert (H : due_date_after (Naive now) loan_days =
                Some (Naive (now + loan_days * 86400000000)))
      by (apply due_date_after_naive; auto).
    congruence.
Qed.

(** The borrow route on a request whose two fields are strings answers
    200 exactly when the borrower and the book are known, a copy is left
    and the due date can be computed, 404 exactly when one of the two is
    unknown, 400 exactly when both are known and no copy is left, and 500
    exactly when both are known, a copy is left and the due date is out of
    range; there is no other answer. *)
Theorem borrow_route_status (now : Z) (items : list (string * json)) (m i : string)
    (s : Library.t) :
  Dict.get "membership_id" items = Some (JStr m) ->
  Dict.get "isbn" items = Some (JStr i) ->
  let status := fst (fst (App.borrow now (JObj items) s)) in
  (status = 200%nat <->
     exists b book, Library.get_borrower m s = Some b /\ Library.get_book i s = Some book /\
                    0 < Book.quantity book /\
                    due_date_in_range now (Library.loan_days s)) /\
  (status = 404%nat <->
     Library.get_borrower m s = None \/ Library.get_book i s = None) /\
  (status = 400%nat <->
     exists b book, Library.get_borrower m s = Some b /\ Library.get_book i s = Some book /\
                    Book.quantity book <= 0) /\
  (status = 500%nat <->
     exists b book, Library.get_borrower m s = Some b /\ Library.get_book i s = Some book /\
                    0 < Book.quantity book /\
                    ~ due_date_in_range now (Library.loan_days s)) /\
  (status = 200%nat \/ status = 404%nat \/ status = 400%nat \/ status = 500%nat).
Proof.
  intros H1 H2. cbv zeta. unfold App.borrow. rewrite (loan_arguments_strings _ _ _ H1 H2).
  unfold Library.get_borrower, Library.get_book, Library.borrow_book.
  destruct (Dict.get m (Library.borrowers_by_id s)) as [b|].
  2:{ cbn. repeat split; try discriminate; auto;
        intros (b & book & H & _); discriminate. }
  destruct (Dict.get i (Library.books_by_isbn s)) as [book|].
  2:{ cbn. repeat split; try discriminate; auto;
        intros (b' & book & _ & H & _); discriminate. }
  destruct (Z.leb_spec (Book.quantity book) 0) as [Hq|Hq]; cbn [fst App.answer App.status_of].
  - repeat split; try discriminate; auto.
    + intros (b' & book' & _ & [= <-] & H & _). lia.
    + intros [H|H]; discriminate.
    + intros _. eauto.
    + intros (b' & book' & _ & [= <-] & H & _). lia.
  - destruct (due_date_after (Naive now) (Library.loan_days s)) as [due|] eqn:Hd;
      cbn [fst App.answer App.status_of].
    + assert (Hr : due_date_in_range now (Library.loan_days s))
        by (apply due_date_after_naive in Hd as (Ha & Hb & _); split; assumption).
      repeat split; try discriminate; auto.
      * intros _. exists b, book. auto.
      * intros [H|H]; discriminate.
      * intros (b' & book' & _ & [= <-] & H). lia.
      * intros (b' & book' & _ & _ & _ & H). contradiction.
    + apply due_date_after_none in Hd.
      repeat split; try discriminate; auto 6.
      * intros (b' & book' & _ & _ & _ & H). contradiction.
      * intros [H|H]; discriminate.
      * intros (b' & book' & _ & [= <-] & H). lia.
      * intros _. exists b, book. auto.
Qed.

(** The return route on a request whose two fields are strings answers
    404 exactly when the borrower or the book is unknown and 400 exactly
    when both are known and the borrower holds no record for the isbn;
    when there is one, it answers 200 exactly when the due date of the
    first such record is naive and 500 exactly when that due date carries
    an offset; there is no other answer. *)
Theorem return_route_status (isoformat : datetime -> string) (now : Z)
    (items : list (string * json)) (m i : string) (s : Library.t) :
  Dict.get "membership_id" items = Some (JStr m) ->
  Dict.get "isbn" items = Some (JStr i) ->
  let status := fst (fst (App.return_book isoformat now (JObj items) s)) in
  let first_due b r :=
    Library.find_record i (Borrower.borrowed_books b) = Some r in
  (status = 200%nat <->
     exists b book r due, Library.get_borrower m s = Some b /\
                          Library.get_book i s = Some book /\
                          first_due b r /\ BorrowedRecord.due_date r = Naive due) /\
  (status = 404%nat <->
     Library.get_borrower m s = None \/ Library.get_book i s = None) /\
  (status = 400%nat <->
     exists b book, Library.get_borrower m s = Some b /\ Library.get_book i s = Some book /\
                    forall x, In x (Borrower.borrowed_books b) -> BorrowedRecord.isbn x <> i) /\
  (status = 500%nat <->
     exists b book r t utcoffset, Library.get_borrower m s = Some b /\
                                  Library.get_book i s = Some book /\
                                  first_due b r /\
                                  BorrowedRecord.due_date r = Aware t utcoffset) /\
  (status = 200%nat \/ status = 404%nat \/ status = 400%nat \/ status = 500%nat).
Proof.
  intros H1 H2. cbv zeta. unfold App.return_book.
  rewrite (loan_arguments_strings _ _ _ H1 H2).
  unfold Library.get_borrower, Library.get_book.
  destruct (Dict.get m (Library.borrowers_by_id s)) as [b|] eqn:Hm.
  2:{ unfold Library.return_book. rewrite Hm. cbn.
      repeat split; try discriminate; auto.
      - intros (b & book & r & due & H & _). discriminate.
      - intros (b & book & H & _). discriminate.
      - intros (b & book & r & t & o & H & _). discriminate. }
  destruct (Dict.get i (Library.books_by_isbn s)) as [book|] eqn:Hi.
  2:{ unfold Library.return_book. rewrite Hm, Hi. cbn.
      repeat split; try discriminate; auto.
      - intros (b' & book & r & due & _ & H & _). discriminate.
      - intros (b' & book & _ & H & _). discriminate.
      - intros (b' & book & r & t & o & _ & H & _). discriminate. }
  destruct (Library.find_record i (Borrower.borrowed_books b)) as [r|] eqn:Hf.
  - destruct (find_record_first _ _ _ Hf) as (l1 & l2 & Hl & Hl1 & Hr & _).
    rewrite (return_book_found isoformat s now m i b book l1 l2 r Hm Hi Hl Hl1 Hr).
    assert (Hin : In r (Borrower.borrowed_books b)) by (rewrite Hl; apply in_elt).
    destruct (BorrowedRecord.due_date r) as [due|t o] eqn:Hd;
      cbn [datetime_gtb fst App.answer App.status_of].
    + repeat split; try discriminate; auto.
      * intros _. exists b, book, r, due. auto.
      * intros [H|H]; discriminate.
      * intros (b' & book' & [= <-] & _ & H). exfalso. exact (H r Hin Hr).
      * intros (b' & book' & r' & t & o & [= <-] & _ & Hr' & H).
        rewrite Hf in Hr'. injection Hr' as <-. congruence.
    + repeat split; try discriminate; auto 6.
      * intros (b' & book' & r' & due & [= <-] & _ & Hr' & H).
        rewrite Hf in Hr'. injection Hr' as <-. congruence.
      * intros [H|H]; discriminate.
      * intros (b' & book' & [= <-] & _ & H). exfalso. exact (H r Hin Hr).
      * intros _. exists b, book, r, t, o. auto.
  - assert (Hnone : forall x, In x (Borrower.borrowed_books b) -> BorrowedRecord.isbn x <> i).
    { intros x Hx Hxi. destruct (find_record_some i _ x Hx Hxi) as [r Hr]. congruence. }
    rewrite (return_book_not_borrowed_state isoformat s now m i b book Hm Hi Hnone).
    cbn [fst App.answer App.status_of].
    repeat split; try discriminate; auto.
    + intros (b' & book' & r & due & [= <-] & _ & H & _). congruence.
    + intros [H|H]; discriminate.
    + intros _. exists b, book. auto.
    + intros (b' & book' & r & t & o & [= <-] & _ & H & _). congruence.
Qed.

(** Whatever the request, the borrow route leaves the library as it was
    unless it answers 200, and the return route leaves it as it was when
    it answers 400 or 404.  (A return answered 500 may have taken the
    record out already.) *)
Theorem routes_keep_state_on_refusal (isoformat : datetime -> string) (now : Z)
    (data : json) (s : Library.t) :
  (fst (fst (App.borrow now data s)) <> 200%nat -> snd (App.borrow now data s) = s) /\
  (fst (fst (App.return_book isoformat now data s)) = 400%nat \/
   fst (fst (App.return_book isoformat now data s)) = 404%nat ->
   snd (App.return_book isoformat now data s) = s).
Proof.
  unfold App.borrow, App.return_book.
  destruct (App.loan_arguments data) as [resp|[v1 v2]]; [now split|].
  destruct v1 as [| | | |m| |]; try now split.
  destruct v2 as [| | | |i| |]; try now split.
  split.
  - pose proof (borrow_book_raise s now m i) as H.
    destruct (Library.borrow_book now m i s) as [[r|e] s']; cbn [fst snd App.answer] in *.
    + intros Hne. now contradiction Hne.
    + intros _. now apply H.
  - pose proof (return_book_raise isoformat s now m i) as H.
    destruct (Library.return_book isoformat now m i s) as [[r|e] s'];
      cbn [fst snd App.answer] in *.
    + intros [Hs|Hs]; discriminate.
    + intros Hs. apply (H e eq_refl). intros ->. destruct Hs; discriminate.
Qed.

(** * Further instances on the sample data *)

Lemma pos_of_bits_of_pos (p : positive) (rest : string) :
  pos_of_bits (bits_of_pos p rest) = Some (p, rest).
Proof.
  induction p as [p IH|p IH|]; cbn; [now rewrite IH|now rewrite IH|reflexivity].
Qed.

Lemma Z_of_bits_of_Z (z : Z) (rest : string) :
  Z_of_bits (bits_of_Z z rest) = Some (z, rest).
Proof.
  destruct z; cbn; [reflexivity| |]; now rewrite pos_of_bits_of_pos.
Qed.

Lemma decimal_head (t : Z) :
  exists c s', NilZero.string_of_int (Z.to_int t) = String c s' /\ Ascii.eqb c "A" = false.
Proof.
  destruct t as [|p|p]; cbn.
  - now exists "0"%char, EmptyString.
  - unfold NilZero.string_of_uint.
    destruct (Pos.to_uint p); cbn; eexists; eexists; split; reflexivity.
  - eexists; eexists; split; reflexivity.
Qed.

Lemma sample_fromisoformat_isoformat (d : datetime) :
  sample_fromisoformat (sample_isoformat d) = Some d.
Proof.
  destruct d as [t|t utcoffset].
  - unfold sample_fromisoformat, sample_isoformat.
    destruct (decimal_head t) as (c & s' & E & Hc).
    rewrite E, Hc, <- E, NilZero.isi.
    + simpl. now rewrite DecimalZ.of_to.
    + destruct t; simpl; try discriminate. intros [= H]. revert H.
      apply DecimalPos.Unsigned.to_uint_nonnil.
    + destruct t; simpl; try discriminate. intros [= H]. revert H.
      apply DecimalPos.Unsigned.to_uint_nonnil.
  - unfold sample_fromisoformat, sample_isoformat.
    change (Ascii.eqb "A" "A") with true. cbv beta iota.
    now rewrite !Z_of_bits_of_Z.
Qed.

Lemma NoDup_singleton {A : Type} (x : A) : NoDup [x].
Proof. constructor; [intros []|constructor]. Qed.

Lemma sample_library_well_keyed : well_keyed sample_library.
Proof.
  repeat split; try apply NoDup_singleton; repeat constructor.
Qed.

Lemma sample_unstocked_well_keyed : well_keyed sample_unstocked.
Proof.
  repeat split; try apply NoDup_singleton; repeat constructor.
Qed.

Lemma sample_lent_well_keyed : well_keyed sample_lent.
Proof.
  repeat split; try apply NoDup_singleton; repeat constructor.
Qed.

Lemma raise_leaves_state_witness :
  raised sample_isoformat (BorrowBook 63839664000000000 "m1" "111") sample_long_loans =
    Some OverflowError /\
  snd (exec sample_isoformat (BorrowBook 63839664000000000 "m1" "111") sample_long_loans) =
    sample_long_loans.
Proof.
  split; [reflexivity|].
  apply (raise_leaves_state sample_isoformat (BorrowBook 63839664000000000 "m1" "111")
           sample_long_loans OverflowError); [reflexivity|reflexivity|discriminate].
Defined.

Lemma well_keyed_run_witness :
  well_keyed (run sample_isoformat sample_history sample_unstocked) /\
  Library.get_book "111" (run sample_isoformat sample_history sample_unstocked) =
    Some (Book.mk "T" "A" "111" "G" 4).
Proof.
  split; [|reflexivity].
  exact (proj1 (well_keyed_run sample_isoformat sample_history sample_unstocked
                  sample_unstocked_well_keyed)).
Defined.

Lemma add_book_then_get_witness :
  Library.get_book "111" (snd (Library.add_book "T2" "A2" "111" "G2" 3 sample_library)) =
    Some (Book.mk "T" "A" "111" "G" 5) /\
  Book.quantity (Book.mk "T" "A" "111" "G" 5) = on_shelf "111" sample_library + 3.
Proof.
  pose proof (add_book_then_get sample_library "T2" "A2" "111" "G2" 3
                (Book.mk "T" "A" "111" "G" 5) eq_refl) as H.
  cbv zeta in H. destruct H as (H1 & H2 & _). split; [exact H1|exact H2].
Defined.

Lemma update_book_success_witness :
  fst (Library.update_book "111" (Some "X") None None (Some 7) sample_library) =
    Return (Book.mk "X" "A" "111" "G" 7).
Proof.
  pose proof (update_book_success sample_library "111" (Some "X") None None (Some 7)
                sample_book eq_refl) as H.
  cbv zeta in H. destruct H as (H1 & _).
  - intros q [= <-]. lia.
  - exact H1.
Defined.

Lemma remove_book_orphans_loans_witness :
  Library.get_book "111" (snd (Library.remove_book "111" sample_lent)) = None /\
  Library.borrowers_by_id (snd (Library.remove_book "111" sample_lent)) =
    Library.borrowers_by_id sample_lent /\
  exists msg,
    Library.return_book sample_isoformat 3000 "m1" "111"
      (run sample_isoformat [AddBook "T2" "A2" "222" "G2" 1; BorrowBook 2500 "m1" "222"]
         (snd (Library.remove_book "111" sample_lent))) =
    (Raise (KeyError msg),
     run sample_isoformat [AddBook "T2" "A2" "222" "G2" 1; BorrowBook 2500 "m1" "222"]
       (snd (Library.remove_book "111" sample_lent))).
Proof.
  pose proof (remove_book_orphans_loans sample_isoformat sample_lent "111"
                (Book.mk "T" "A" "111" "G" 0) sample_lent_well_keyed eq_refl) as H.
  cbv zeta in H. destruct H as (_ & H2 & _ & H4 & H5).
  split; [exact H2|]. split; [exact H4|].
  exact (proj1 (proj2 (H5 [AddBook "T2" "A2" "222" "G2" 1; BorrowBook 2500 "m1" "222"]
                         eq_refl)) 3000 "m1").
Defined.

Lemma remove_borrower_drops_loans_witness :
  Library.get_borrower "m1" (snd (Library.remove_borrower "m1" sample_lent)) = None /\
  copies "111" (snd (Library.remove_borrower "m1" sample_lent)) =
    copies "111" sample_lent - 2.
Proof.
  pose proof (remove_borrower_drops_loans sample_lent "m1"
                sample_lent_borrower
                sample_lent_well_keyed eq_refl) as H.
  cbv zeta in H. destruct H as (_ & H2 & _ & _ & H5).
  split; [exact H2|]. exact (H5 "111").
Defined.

Lemma update_borrower_fields_witness :
  exists b',
    fst (Library.update_borrower "m1" (Some "") (Some "al@example.com") sample_lent) =
      Return b' /\
    Borrower.name b' = "Alice" /\
    Borrower.contact b' = "al@example.com" /\
    length (Borrower.borrowed_books b') = 2%nat.
Proof.
  pose proof (update_borrower_fields sample_lent "m1" (Some "") (Some "al@example.com")
                sample_lent_borrower
                eq_refl) as H.
  cbv zeta in H. destruct H as (b' & H1 & _ & _ & Hn & Hc & _ & _ & Hl & _).
  exists b'. split; [exact H1|]. split; [exact (Hn (or_intror eq_refl))|].
  split; [apply (Hc "al@example.com" eq_refl); discriminate|].
  now rewrite Hl.
Defined.

Lemma sample_due_date_in_range (now : Z) :
  0 <= now <= 1000000 ->
  Z.abs (Library.loan_days sample_library) <= 999999999 /\
  0 <= now + Library.loan_days sample_library * 86400000000 <= datetime_max.
Proof.
  unfold datetime_max. simpl. lia.
Qed.

Lemma borrow_then_return_witness :
  Library.return_book sample_isoformat 3000 "m1" "111"
    (snd (Library.borrow_book 1000 "m1" "111" sample_library)) =
  (Return (Library.mk_receipt true false "1209600001000"), sample_library).
Proof.
  assert (H1000 : 0 <= 1000 <= 1000000) by lia.
  pose proof (borrow_then_return sample_isoformat sample_library 1000 3000 "m1" "111"
                sample_borrower sample_book eq_refl eq_refl eq_refl) as H.
  cbv zeta in H.
  apply H; [intros x []|apply (sample_due_date_in_range 1000 H1000)
                       |apply (sample_due_date_in_range 1000 H1000)].
Defined.

Lemma borrow_book_iff_available_witness :
  returned (fst (Library.borrow_book 2500 "m1" "111" sample_lent)) =
  Book.is_available (Book.mk "T" "A" "111" "G" 0).
Proof.
  assert (H2500 : 0 <= 2500 <= 1000000) by lia.
  apply (borrow_book_iff_available sample_lent 2500 "m1" "111"
           sample_lent_borrower (Book.mk "T" "A" "111" "G" 0) eq_refl eq_refl);
    apply (sample_due_date_in_range 2500 H2500).
Defined.

Lemma availability_after_borrows_witness :
  Library.availability "111"
    (run sample_isoformat (borrow_calls "m1" "111" [1000; 2000; 2500]) sample_library) =
  Return (Library.mk_report "111" 0).
Proof.
  pose proof (availability_after_borrows sample_isoformat [1000; 2000; 2500] sample_library
                "m1" "111" sample_borrower sample_book eq_refl eq_refl) as H.
  apply H.
  - simpl. lia.
  - simpl. lia.
  - repeat constructor; unfold datetime_max; simpl; lia.
Defined.

Lemma search_books_query_case_witness :
  Library.search_books "ORWELL" "author" sample_library =
  Library.search_books "orwell" "author" sample_library.
Proof.
  apply (search_books_query_case "ORWELL" "orwell" "author" sample_library). reflexivity.
Defined.

Lemma search_books_query_padding_witness :
  Library.search_books " t" "title" sample_library =
    Library.search_books "t" "title" sample_library /\
  Library.search_books "t " "title" sample_library =
    Library.search_books "t" "title" sample_library.
Proof.
  apply (search_books_query_padding " "%char "t" "title" sample_library). reflexivity.
Defined.

Lemma quantities_nonneg_run_witness :
  quantities_nonneg (run sample_isoformat sample_history sample_unstocked).
Proof.
  apply (quantities_nonneg_run sample_isoformat sample_history sample_unstocked).
  - reflexivity.
  - constructor.
Defined.

Lemma load_saved_data_witness :
  Persistence.load_data sample_fromisoformat sample_uuid8 14
    (Persistence.to_data sample_isoformat sample_lent) = Loaded sample_lent.
Proof.
  apply (load_saved_data sample_isoformat sample_fromisoformat
           sample_fromisoformat_isoformat sample_uuid8 sample_lent).
  - exact sample_lent_well_keyed.
  - repeat constructor. discriminate.
Defined.

Lemma saved_history_reloads_witness :
  Persistence.construct sample_isoformat sample_fromisoformat None sample_uuid8 14
    (Persistence._save sample_isoformat None
       (run sample_isoformat sample_setup (Library.init 14))) =
  (Loaded (run sample_isoformat sample_setup (Library.init 14)),
   Parsed (Persistence.to_data sample_isoformat
             (run sample_isoformat sample_setup (Library.init 14)))).
Proof.
  apply (saved_history_reloads sample_isoformat sample_fromisoformat None sample_uuid8 14
           sample_setup sample_fromisoformat_isoformat).
  reflexivity.
Defined.


Lemma load_books_skips_malformed_witness :
  malformed_book (JObj [("title", JStr "T")]) /\
  Persistence.load_books
    [Persistence.book_to_dict sample_book; JObj [("title", JStr "T")]] Dict.empty =
  Some [("111", sample_book)].
Proof.
  assert (H : malformed_book (JObj [("title", JStr "T")])).
  { left. exists "isbn". split; [simpl; auto|reflexivity]. }
  split; [exact H|].
  exact (eq_trans
           (load_books_skips_malformed [Persistence.book_to_dict sample_book] []
              (JObj [("title", JStr "T")]) Dict.empty H)
           eq_refl).
Defined.

Lemma borrow_route_status_witness :
  fst (fst (App.borrow 1000 sample_request sample_library)) = 200%nat /\
  fst (fst (App.borrow 2500 sample_request sample_lent)) = 400%nat /\
  fst (fst (App.borrow 63839664000000000 sample_request sample_long_loans)) = 500%nat.
Proof.
  assert (H1000 : 0 <= 1000 <= 1000000) by lia.
  split; [|split].
  - apply (proj1 (borrow_route_status 1000
                    [("membership_id", JStr "m1"); ("isbn", JStr "111")] "m1" "111"
                    sample_library eq_refl eq_refl)).
    exists sample_borrower, sample_book.
    repeat split; try apply (sample_due_date_in_range 1000 H1000).
  - apply (proj1 (proj2 (proj2 (borrow_route_status 2500
                    [("membership_id", JStr "m1"); ("isbn", JStr "111")] "m1" "111"
                    sample_lent eq_refl eq_refl)))).
    exists sample_lent_borrower, (Book.mk "T" "A" "111" "G" 0). repeat split. simpl. lia.
  - apply (proj1 (proj2 (proj2 (proj2 (borrow_route_status 63839664000000000
                    [("membership_id", JStr "m1"); ("isbn", JStr "111")] "m1" "111"
                    sample_long_loans eq_refl eq_refl))))).
    exists sample_borrower, sample_book. repeat split.
    intros [_ [_ H]]. unfold datetime_max in H. simpl in H. lia.
Defined.

Lemma return_route_status_witness :
  fst (fst (App.return_book sample_isoformat 3000 sample_request sample_library)) = 400%nat /\
  fst (fst (App.return_book sample_isoformat 3000 sample_request sample_lent)) = 200%nat /\
  fst (fst (App.return_book sample_isoformat 3000 sample_request sample_offset_library)) =
    500%nat.
Proof.
  split; [|split].
  - apply (proj1 (proj2 (proj2 (return_route_status sample_isoformat 3000
                    [("membership_id", JStr "m1"); ("isbn", JStr "111")] "m1" "111"
                    sample_library eq_refl eq_refl)))).
    exists sample_borrower, sample_book. repeat split. intros x [].
  - apply (proj1 (return_route_status sample_isoformat 3000
                    [("membership_id", JStr "m1"); ("isbn", JStr "111")] "m1" "111"
                    sample_lent eq_refl eq_refl)).
    exists sample_lent_borrower, (Book.mk "T" "A" "111" "G" 0), sample_record_1,
      1209600001000. repeat split.
  - apply (proj1 (proj2 (proj2 (proj2 (return_route_status sample_isoformat 3000
                    [("membership_id", JStr "m1"); ("isbn", JStr "111")] "m1" "111"
                    sample_offset_library eq_refl eq_refl))))).
    eexists. eexists. exists (BorrowedRecord.mk "111" (Naive 1000) (Aware 8 0)), 8, 0.
    repeat split.
Defined.
